(** * aicontextator: file selection, tree rendering and budgeted context assembly

    A shallow embedding of [src/aicontextator.py] (the feature-complete
    module: JSON output, secret scanning, interactive selection) together
    with the properties its specification states about it.

    Conventions.
    - A Python [str] is a Rocq [string] holding the UTF-8 bytes of the text,
      so [len(text.encode("utf-8"))] is [String.length].
    - A [pathlib.Path] is the list of its segments.
    - A Python exception is a value of [exn] carried by [result].
    - [click.echo] / [click.secho] output is a list of [Message]s.
    - The collaborators (file system, [pathspec], [tiktoken], [hashlib],
      [detect_secrets], [questionary], [pyperclip], the writing of files)
      are arguments of the functions that call them; where the call is
      outside any [try], what they raise is raised by the caller. *)

From Stdlib Require Import List String Ascii ZArith Bool Arith Lia.
From Stdlib Require Import Permutation Sorting.Sorted DecimalString.
Import ListNotations.
Open Scope string_scope.
Open Scope list_scope.

Set Implicit Arguments.

(** ** Exceptions *)

Inductive exn : Type :=
| UnboundLocalError   (* a local name is called before it was assigned *)
| ValueError          (* [Path.relative_to] on a path outside the root *)
| KeyError            (* a dictionary has no such key *)
| IndexError          (* a list has no such index *)
| SystemExit          (* interactive selection cancelled *)
| GitIgnorePatternError  (* [pathspec] cannot read an ignore rule *)
| OSError             (* a file cannot be opened or written *)
| UnicodeEncodeError  (* a text cannot be encoded for writing *)
| PyperclipException. (* the clipboard cannot be reached *)

Inductive result (A : Type) : Type :=
| Ok (a : A)
| Raise (e : exn).

Arguments Ok {A} a.
Arguments Raise {A} e.

Definition bind {A B : Type} (r : result A) (k : A -> result B) : result B :=
  match r with
  | Ok a => k a
  | Raise e => Raise e
  end.

Notation "x <- r ;; k" := (bind r (fun x => k))
  (at level 61, r at next level, right associativity).

(** ** Python string operations used by the program *)

Module Py.

(** [s.startswith(p)] *)
Definition startswith (s p : string) : bool := String.prefix p s.

(** [s.endswith(suffix)]: some tail of [s] is [suffix]. *)
Fixpoint endswith (s suffix : string) : bool :=
  (s =? suffix)
  || match s with
     | EmptyString => false
     | String _ s' => endswith s' suffix
     end.

(** [sep.join(items)] *)
Definition join (sep : string) (items : list string) : string :=
  String.concat sep items.

(** [any(f(x) for x in xs)] *)
Definition any {A : Type} (f : A -> bool) (xs : list A) : bool := existsb f xs.

(** The characters that [str.strip] removes are those for which
    [str.isspace] holds: U+0009..U+000D, U+001C..U+0020, U+0085, U+00A0,
    U+1680, U+2000..U+200A, U+2028, U+2029, U+202F, U+205F and U+3000.
    A text is held as its UTF-8 bytes, so each of them is a sequence of
    one, two or three bytes. *)

(** The white space of one byte: U+0009..U+000D and U+001C..U+0020. *)
Definition isspace (c : ascii) : bool :=
  let n := nat_of_ascii c in
  ((9 <=? n) && (n <=? 13) || (28 <=? n) && (n <=? 32))%nat.

(** The white space of two bytes: U+0085 (C2 85) and U+00A0 (C2 A0). *)
Definition isspace2 (c1 c2 : ascii) : bool :=
  let n2 := nat_of_ascii c2 in
  (nat_of_ascii c1 =? 194)%nat && ((n2 =? 133) || (n2 =? 160))%nat.

(** The white space of three bytes: U+1680 (E1 9A 80), U+2000..U+200A
    (E2 80 80..8A), U+2028, U+2029 (E2 80 A8, A9), U+202F (E2 80 AF),
    U+205F (E2 81 9F) and U+3000 (E3 80 80). *)
Definition isspace3 (c1 c2 c3 : ascii) : bool :=
  let n1 := nat_of_ascii c1 in
  let n2 := nat_of_ascii c2 in
  let n3 := nat_of_ascii c3 in
  ((n1 =? 225) && (n2 =? 154) && (n3 =? 128)
   || (n1 =? 226) && (n2 =? 128)
      && ((128 <=? n3) && (n3 <=? 138) || (n3 =? 168) || (n3 =? 169) || (n3 =? 175))
   || (n1 =? 226) && (n2 =? 129) && (n3 =? 159)
   || (n1 =? 227) && (n2 =? 128) && (n3 =? 128))%nat.


(** [s.lstrip()] *)
Fixpoint lstrip (s : string) : string :=
  match s with
  | String c1 s1 =>
      if isspace c1 then lstrip s1
      else match s1 with
           | String c2 s2 =>
               if isspace2 c1 c2 then lstrip s2
               else match s2 with
                    | String c3 s3 => if isspace3 c1 c2 c3 then lstrip s3 else s
                    | EmptyString => s
                    end
           | EmptyString => s
           end
  | EmptyString => EmptyString
  end.

(** [s.rstrip()]: the text is cut where what follows is white space only.
    In UTF-8 no white-space character starts with a continuation byte, so
    the cut never falls inside a character. *)
Fixpoint rstrip (s : string) : string :=
  match s with
  | EmptyString => EmptyString
  | String c s' =>
      if (lstrip s =? "")%string then EmptyString else String c (rstrip s')
  end.

(** [s.strip()] *)
Definition strip (s : string) : string := rstrip (lstrip s).

(** [s.split(sep)] for a one-character separator. *)
Fixpoint split (sep : ascii) (s : string) : list string :=
  match s with
  | EmptyString => [EmptyString]
  | String c s' =>
      if (c =? sep)%char then EmptyString :: split sep s'
      else match split sep s' with
           | w :: ws => String c w :: ws
           | [] => [String c EmptyString]
           end
  end.

(** The lines of a text file opened in text mode: universal newlines make
    "\n", "\r\n" and "\r" all end a line.  The terminators are dropped
    here; every caller strips the lines at once. *)
Fixpoint readlines_from (cur : string) (s : string) : list string :=
  match s with
  | EmptyString => if (cur =? "")%string then [] else [cur]
  | String c s' =>
      if (c =? "010")%char then cur :: readlines_from "" s'
      else if (c =? "013")%char then
        match s' with
        | String d s'' =>
            if (d =? "010")%char then cur :: readlines_from "" s''
            else cur :: readlines_from "" s'
        | EmptyString => [cur]
        end
      else readlines_from (cur ++ String c "")%string s'
  end.

Definition readlines (text : string) : list string := readlines_from "" text.

End Py.

(** ** Paths and the file system *)

Definition Path : Type := list string.

Fixpoint relative_to (path root : Path) : result Path :=
  match root, path with
  | [], rest => Ok rest
  | r :: root', p :: path' =>
      if (r =? p)%string then relative_to path' root' else Raise ValueError
  | _ :: _, [] => Raise ValueError
  end.

(** [path.as_posix()] of a relative path and [path.parts]. *)
Definition as_posix (rel : Path) : string := Py.join "/" rel.
Definition parts (rel : Path) : list string := rel.

(** [path.name]: the last segment, or the empty string. *)
Definition name (p : Path) : string := last p "".

(** [str(path)] of an absolute path. *)
Definition str (p : Path) : string := ("/" ++ Py.join "/" p)%string.

(** [root / fname] *)
Definition joinpath (root : Path) (fname : string) : Path := root ++ [fname].

Record FileSystem : Type := {
  (** everything [d.rglob("*")] yields, relative to [d], in traversal order *)
  walk : Path -> list Path;
  is_file : Path -> bool;
  (** reading a file as text; [None] when [open] or [read] raises *)
  read_text : Path -> option string;
  (** [path.stat().st_size]; [None] when [stat] raises *)
  st_size : Path -> option Z
}.

Definition rglob (fs : FileSystem) (d : Path) : list Path :=
  map (fun rel => d ++ rel) (walk fs d).

(** ** Console output *)

Inductive Message : Type :=
(* load_ignore_patterns *)
| FoundAndLoaded (fname : string)
| WarnCouldNotRead (fname : string)
(* generate_context *)
| ErrorInitializingTiktoken
| FoundFilesToInclude (n : nat)
| WarnLargerThanMax (rel : string) (block_tokens max_tokens : Z)
| TokenLimitReached (max_tokens : Z) (next_part : nat)
| WarnThresholdExceeded (warn_tokens : Z)
| ErrorReading (file_path : Path)
(* checkSecurityIssue *)
| PreScanning
| ScanComplete (n : nat)
| PotentialSecret (kind rel_path : string) (line : Z) (secret_value : string)
| DetectSecretsError
(* build_and_write_json *)
| WroteJson (out_path : string)
(* cli *)
| Starting (root_dir : Path)
| NoFilesFound
| TreeStructure (tree_view : string)
| ContextEmpty
| CopyIgnored
| CopiedFirstPart
| OnlyFirstCopied (n : nat)
| SavedTo (output : string)
| PartSavedTo (i : nat) (part_filename : string)
| TokenReport
| PartTokens (i : nat) (count : Z)
| TotalTokens (total : Z).

(** ** Pattern Loader *)

Definition _CONTEXT_IGNORE_FILE : string := ".contextignore".
Definition _GIT_IGNORE_FILE : string := ".gitignore".

Definition _DEFAULT_EXCLUDE_PATTERNS : list string :=
  [ ".git/"; "node_modules/"; "vendor/"; "__pycache__/"; ".venv/";
    "package-lock.json"; "storage/"; "public/build/"; ".idea/"; ".vscode/";
    ".env"; ".env.*"; "*.pyc"; "*.log" ].

Definition cleaned_lines (text : string) : list string :=
  let lines := map Py.strip (Py.readlines text) in
  filter (fun line => negb (line =? "") && negb (Py.startswith line "#")) lines.

Definition load_ignore_file (fs : FileSystem) (root_dir : Path)
    (acc : list string * list Message) (fname : string)
    : list string * list Message :=
  let p := joinpath root_dir fname in
  if is_file fs p then
    match read_text fs p with
    | Some text => (fst acc ++ cleaned_lines text, snd acc ++ [FoundAndLoaded fname])
    | None => (fst acc, snd acc ++ [WarnCouldNotRead fname])
    end
  else acc.

Definition load_ignore_patterns (fs : FileSystem) (root_dir : Path)
    : list string * list Message :=
  fold_left (load_ignore_file fs root_dir)
            [_GIT_IGNORE_FILE; _CONTEXT_IGNORE_FILE]
            (_DEFAULT_EXCLUDE_PATTERNS, []).

(** ** File Filter *)

Definition default_include_extensions : list string :=
  [ ".py"; ".js"; ".vue"; ".php"; ".md"; ".json"; ".blade.php"; ".css";
    ".scss"; ".sql"; ".sh"; "Dockerfile"; ".env.example"; "composer.json";
    "package.json"; "readme.md" ].

(** [include_extensions or [...]]: an empty list is falsy. *)
Definition final_include_extensions (include_extensions : list string) : list string :=
  match include_extensions with
  | [] => default_include_extensions
  | _ => include_extensions
  end.

(** The ignore matcher: [PathSpec.from_lines("gitwildmatch", patterns)]
    either raises, on a rule it cannot read, or gives the specification
    whose [match_file] is then asked about every path. *)
Definition Matcher : Type := list string -> result (string -> bool).

Section FileFilter.

Variable match_file : Matcher.
Variable fs : FileSystem.

Definition all_patterns (root_dir : Path) (exclude_cli_patterns : list string)
    : list string :=
  fst (load_ignore_patterns fs root_dir) ++ exclude_cli_patterns.

(** The test of the filtering loop for one path. *)
Definition keep_file (spec : string -> bool) (exts : list string)
    (root_dir path : Path) : result bool :=
  rel <- relative_to path root_dir ;;
  Ok (negb (spec (as_posix rel))
      && Py.any (fun ext => Py.endswith (name path) ext) exts).

Fixpoint filter_loop (spec : string -> bool) (exts : list string) (root_dir : Path)
    (all_files : list Path) : result (list Path) :=
  match all_files with
  | [] => Ok []
  | path :: rest =>
      k <- keep_file spec exts root_dir path ;;
      kept <- filter_loop spec exts root_dir rest ;;
      Ok (if k then path :: kept else kept)
  end.

Definition filter_project_files (root_dir : Path)
    (exclude_cli_patterns include_extensions : list string)
    : result (list Path) :=
  let patterns := all_patterns root_dir exclude_cli_patterns in
  spec <- match_file patterns ;;
  let exts := final_include_extensions include_extensions in
  let all_files := filter (is_file fs) (rglob fs root_dir) in
  filter_loop spec exts root_dir all_files.

End FileFilter.

(** ** The ignore matcher *)

Module GitWildMatch.

(** The matcher is the [pathspec] library, which the repository only
    imports.  The definitions below stand for it; they follow the
    gitignore rules the specification names (last match wins, [!] negation,
    directory-only rules with a trailing slash, anchoring of rules that
    contain a slash, [**] segment wildcards) for patterns made of literal
    characters, [*] and [?]; character classes and backslash escapes are
    outside the model. *)

(** Modelled from the spec: the glob match of one path segment against one
    pattern segment, missing with [pathspec]; [*] is any run of characters,
    [?] any one character (a segment holds no slash). *)
Fixpoint glob (pat seg : string) : bool :=
  match pat with
  | EmptyString => (seg =? "")%string
  | String c pat' =>
      if (c =? "*")%char then
        (fix star (s : string) : bool :=
           glob pat' s ||
           match s with
           | EmptyString => false
           | String _ s' => star s'
           end) seg
      else
        match seg with
        | EmptyString => false
        | String d seg' =>
            ((c =? "?")%char || (c =? d)%char) && glob pat' seg'
        end
  end.

(** Modelled from the spec: the match of a rule's segments against the
    segments of a path, missing with [pathspec].  A rule that is used up
    matches the entry reached and everything below it; a final [**] asks
    for at least one more segment; any other [**] skips zero or more
    directories. *)
Fixpoint match_segs (pats path : list string) : bool :=
  match pats with
  | [] => true
  | p :: ps =>
      if (p =? "**")%string then
        match ps with
        | [] => negb (Nat.eqb (List.length path) 0)
        | _ :: _ =>
            (fix skip (rest : list string) : bool :=
               match_segs ps rest ||
               match rest with
               | [] => false
               | _ :: rest' => skip rest'
               end) path
        end
      else
        match path with
        | [] => false
        | s :: rest => glob p s && match_segs ps rest
        end
  end.

(** Modelled from the spec: the reading of one rule, missing with
    [pathspec]: [true] for an ignore rule, [false] for a negated one, with
    its normalised segments.  Blank lines, comments and a lone slash give
    no rule.  A rule of which nothing is left, such as a lone [!], cannot
    be read: it is reported by [None] for the segments. *)
Definition parse (pattern : string) : option (bool * option (list string)) :=
  let pattern := Py.strip pattern in
  if (pattern =? "")%string || Py.startswith pattern "#" || (pattern =? "/")%string
  then None
  else
    let '(include, body) :=
      match pattern with
      | String "!" rest => (false, rest)
      | _ => (true, pattern)
      end in
    let segs := Py.split "/" body in
    let segs :=
      match segs with
      | "" :: rest => rest                                  (* leading slash: anchored *)
      | [s] => if (s =? "**")%string then segs else "**" :: segs
      | [s; ""] => if (s =? "**")%string then segs else "**" :: segs
      | _ => segs                                           (* inner slash: anchored *)
      end in
    match segs with
    | [] => Some (include, None)
    | _ :: _ =>
        let segs :=
          match rev segs with
          | "" :: _ :: _ => removelast segs ++ ["**"]       (* trailing slash *)
          | _ => segs
          end in
        Some (include, Some segs)
    end.

(** Modelled from the spec: the rules in a list can all be read. *)
Definition readable (patterns : list string) : bool :=
  forallb (fun pattern =>
             match parse pattern with
             | Some (_, None) => false
             | _ => true
             end)
          patterns.

(** Modelled from the spec: the verdict of rules that can all be read,
    missing with [pathspec].  The last matching rule wins; no matching rule
    means not ignored. *)
Definition verdict (patterns : list string) (file : string) : bool :=
  fold_left
    (fun ignored pattern =>
       match parse pattern with
       | Some (include, Some segs) =>
           if match_segs segs (Py.split "/" file) then include else ignored
       | _ => ignored
       end)
    patterns false.

(** Modelled from the spec: [PathSpec.from_lines] followed by
    [match_file], missing with [pathspec]. *)
Definition match_file : Matcher :=
  fun patterns =>
    if readable patterns then Ok (verdict patterns)
    else Raise GitIgnorePatternError.

End GitWildMatch.

(** ** The project tree of the filter example *)

Module Example.

Definition root : Path := ["tmp"; "proj"].

Definition contents : list (Path * string) :=
  [ (["src"; "main.py"], "print('hello')");
    (["src"; "utils.js"], "console.log('hello');");
    (["docs"; "guide.md"], "# Guide");
    (["node_modules"; "lib.js"], "// lib");
    ([".env"], "SECRET=123");
    (["config.json"], ("{" ++ String "034" "key" ++ String "034" ": "
                           ++ String "034" "value" ++ String "034" "}")%string);
    ([".gitignore"], (".env" ++ String "010" "docs/")%string);
    ([".contextignore"], "config.json") ].

Definition path_eqb (p q : Path) : bool :=
  if list_eq_dec string_dec p q then true else false.

Fixpoint lookup (p : Path) (l : list (Path * string)) : option string :=
  match l with
  | [] => None
  | (q, text) :: l' => if path_eqb (root ++ q) p then Some text else lookup p l'
  end.

Definition directories : list Path := [["src"]; ["docs"]; ["node_modules"]].

Definition fs : FileSystem := {|
  walk := fun d => if path_eqb d root then directories ++ map fst contents else [];
  is_file := fun p => match lookup p contents with Some _ => true | None => false end;
  read_text := fun p => lookup p contents;
  st_size := fun p => option_map (fun text => Z.of_nat (String.length text)) (lookup p contents)
|}.

End Example.

(** ** Tree Renderer *)

(** The nested dictionary [tree]: keys in insertion order, each key once. *)
#[warnings="-register-all"]
Inductive Tree : Type :=
| Node (entries : list (string * Tree)).

Definition entries_of (t : Tree) : list (string * Tree) :=
  match t with Node entries => entries end.

Definition keys (t : Tree) : list string := map fst (entries_of t).

(** The inner loop over [parts]: create the missing levels, walk down. *)
Fixpoint add_parts (parts : list string) (current_level : Tree) : Tree :=
  match parts with
  | [] => current_level
  | part :: rest =>
      Node ((fix descend (entries : list (string * Tree)) : list (string * Tree) :=
               match entries with
               | [] => [(part, add_parts rest (Node []))]
               | (k, below) :: entries' =>
                   if (k =? part)%string
                   then (k, add_parts rest below) :: entries'
                   else (k, below) :: descend entries'
               end) (entries_of current_level))
  end.

(** [sorted(...)] on strings: code-point order, which on UTF-8 text is the
    order of the bytes. *)
Fixpoint insert_by_key {A : Type} (x : string * A) (l : list (string * A))
    : list (string * A) :=
  match l with
  | [] => [x]
  | y :: l' => if String.leb (fst x) (fst y) then x :: l else y :: insert_by_key x l'
  end.

Definition sort_by_key {A : Type} (l : list (string * A)) : list (string * A) :=
  fold_right insert_by_key [] l.

Definition sorted (l : list string) : list string :=
  map fst (sort_by_key (map (fun k => (k, tt)) l)).

Definition connector (is_last : bool) : string :=
  if is_last then "└── " else "├── ".

Definition extension (is_last : bool) : string :=
  if is_last then "    " else "│   ".

(** One level of [build_tree_lines]: the items in sorted order, each with
    the truth value of [structure[name]] and the rendering of what lies
    below it as a function of the prefix. *)
Fixpoint level_lines (prefix : string)
    (items : list (string * (bool * (string -> list string)))) : list string :=
  match items with
  | [] => []
  | (name, (nonempty, below)) :: rest =>
      let is_last := match rest with [] => true | _ :: _ => false end in
      ((prefix ++ connector is_last ++ name)%string
         :: (if nonempty then below (prefix ++ extension is_last)%string else []))
      ++ level_lines prefix rest
  end.

Definition is_nonempty (t : Tree) : bool :=
  match entries_of t with [] => false | _ :: _ => true end.

Fixpoint build_tree_lines (structure : Tree) : string -> list string :=
  match structure with
  | Node entries =>
      let items :=
        sort_by_key
          (map (fun e => (fst e, (is_nonempty (snd e), build_tree_lines (snd e))))
               entries) in
      fun prefix => level_lines prefix items
  end.

Fixpoint build_tree (root_dir : Path) (filtered_files : list Path) (tree : Tree)
    : result Tree :=
  match filtered_files with
  | [] => Ok tree
  | path :: rest =>
      relative_path <- relative_to path root_dir ;;
      build_tree root_dir rest (add_parts (parts relative_path) tree)
  end.

Definition LF : string := String "010" EmptyString.

Definition generate_tree_view (root_dir : Path) (filtered_files : list Path)
    : result string :=
  tree <- build_tree root_dir filtered_files (Node []) ;;
  let tree_lines := (name root_dir ++ "/")%string :: build_tree_lines tree "" in
  Ok (Py.join LF tree_lines).

(** ** Secret findings and per-file metadata *)

(** One entry of [potential_secrets]: [{"type": ..., "line": ...}]. *)
Record Finding : Type := {
  finding_type : string;
  finding_line : Z
}.

(** The dictionary [secrets_report]: keys in insertion order. *)
Definition SecretsReport : Type := list (string * list Finding).

(** [secrets_report.get(key, [])] *)
Fixpoint report_get (secrets_report : SecretsReport) (key : string) : list Finding :=
  match secrets_report with
  | [] => []
  | (k, found) :: rest => if (k =? key)%string then found else report_get rest key
  end.

(** The dictionary stored for the header and for every file; the header
    entry has no ["content"] key. *)
Record FileMeta : Type := {
  path : string;
  size_bytes : Z;
  sha256 : string;
  estimated_tokens : Z;
  potential_secrets : list Finding;
  content : option string
}.

(** [{"files": [...]}] *)
Record PartMeta : Type := {
  files : list FileMeta
}.

Definition HEADER_PATH : string := "_aicontext_header_".

(** ** Context Assembler *)

(** [tiktoken.get_encoding("cl100k_base")] either raises ([None]) or gives
    an encoding, of which only [len(encoding.encode(text))] is used. *)
Definition Encoding : Type := string -> Z.

(** The binding of the local name [_count] after the first statement of
    [generate_context]; [None] when no branch assigned it. *)
Definition bind_count (get_encoding : option Encoding) (count_tokens : bool)
    : list Message * option (string -> Z) :=
  if count_tokens then
    match get_encoding with
    | Some encoding => ([], Some encoding)
    | None => ([ErrorInitializingTiktoken], None)
    end
  else ([], Some (fun _ => 0%Z)).

(** Calling the local name [_count]. *)
Definition call_count (_count : option (string -> Z)) (text : string) : result Z :=
  match _count with
  | Some f => Ok (f text)
  | None => Raise UnboundLocalError
  end.

(** Truth value of an optional integer option ([None] and [0] are falsy). *)
Definition truthy (n : option Z) : bool :=
  match n with
  | Some v => negb (v =? 0)%Z
  | None => false
  end.

Definition value (n : option Z) : Z :=
  match n with Some v => v | None => 0%Z end.

Definition DQUOTE : string := String "034" EmptyString.

Definition META_PROMPT : string :=
  ("The following text is a collection of source code files from a software project. "
   ++ "Each file is delimited by a header line starting with "
   ++ DQUOTE ++ "--- FILE: [filepath]" ++ DQUOTE ++ "." ++ LF
   ++ "Use only this content as the source of truth when answering questions."
   ++ LF ++ LF)%string.

Definition OPEN_SENTINEL : string := ("<<<" ++ LF)%string.
Definition CLOSE_SENTINEL : string := (">>>" ++ LF)%string.

Definition preliminary_text (prompt_no_header : bool) (tree_view : string) : string :=
  ((if negb prompt_no_header then META_PROMPT else "")
   ++ (if negb (tree_view =? "")
       then "The project structure is as follows:" ++ LF ++ tree_view ++ LF ++ LF
       else "")
   ++ OPEN_SENTINEL)%string.

(** The local variables of [generate_context], and what it printed. *)
Record Assembler : Type := {
  context_parts : list string;
  token_counts : list Z;
  parts_meta : list PartMeta;
  current_part_builder : string;
  current_token_count : Z;
  current_part_files_meta : list FileMeta;
  warn_triggered : bool;
  console : list Message
}.

Definition echo (m : Message) (st : Assembler) : Assembler :=
  {| context_parts := context_parts st;
     token_counts := token_counts st;
     parts_meta := parts_meta st;
     current_part_builder := current_part_builder st;
     current_token_count := current_token_count st;
     current_part_files_meta := current_part_files_meta st;
     warn_triggered := warn_triggered st;
     console := console st ++ [m] |}.

(** The test that closes the current part before a block is inserted. *)
Definition must_split (max_tokens : option Z) (current_token_count block_tokens : Z)
    : bool :=
  truthy max_tokens
  && (current_token_count + block_tokens >? value max_tokens)%Z
  && (current_token_count >? 0)%Z.

(** Closing the current part: its text, count and metadata are appended to
    the result lists and the accumulators start afresh. *)
Definition finalize (max_tokens : option Z) (st : Assembler) : Assembler :=
  {| context_parts := context_parts st ++ [current_part_builder st];
     token_counts := token_counts st ++ [current_token_count st];
     parts_meta := parts_meta st ++ [{| files := current_part_files_meta st |}];
     current_part_builder := "";
     current_token_count := 0;
     current_part_files_meta := [];
     warn_triggered := warn_triggered st;
     console := console st
       ++ [TokenLimitReached (value max_tokens) (List.length (context_parts st) + 2)] |}.

(** Appending a block with its metadata to the current part. *)
Definition insert_block (file_meta : FileMeta) (file_block : string)
    (block_tokens : Z) (st : Assembler) : Assembler :=
  {| context_parts := context_parts st;
     token_counts := token_counts st;
     parts_meta := parts_meta st;
     current_part_builder := (current_part_builder st ++ file_block)%string;
     current_token_count := current_token_count st + block_tokens;
     current_part_files_meta := current_part_files_meta st ++ [file_meta];
     warn_triggered := warn_triggered st;
     console := console st |}.

Definition check_warn (warn_tokens : option Z) (st : Assembler) : Assembler :=
  if truthy warn_tokens
     && (current_token_count st >? value warn_tokens)%Z
     && negb (warn_triggered st)
  then
    {| context_parts := context_parts st;
       token_counts := token_counts st;
       parts_meta := parts_meta st;
       current_part_builder := current_part_builder st;
       current_token_count := current_token_count st;
       current_part_files_meta := current_part_files_meta st;
       warn_triggered := true;
       console := console st ++ [WarnThresholdExceeded (value warn_tokens)] |}
  else st.

Section ContextAssembler.

Variable fs : FileSystem.
Variable sha256_text : string -> string.

Variable root_dir : Path.
Variable secrets_report : SecretsReport.
Variable _count : option (string -> Z).
Variable max_tokens : option Z.
Variable warn_tokens : option Z.

(** The [except Exception] handler of the loop body. *)
Definition error_reading (file_path : Path) (st : Assembler) : Assembler :=
  echo (ErrorReading file_path) st.

Definition file_header (relative_path : Path) : string :=
  (LF ++ "--- FILE: " ++ as_posix relative_path ++ " ---" ++ LF)%string.

(** The body of the loop over [filtered_files]: every statement of the
    [try] block in order; what was done before an exception stays done. *)
Definition process_file (st : Assembler) (file_path : Path) : Assembler :=
  match relative_to file_path root_dir with
  | Raise _ => error_reading file_path st
  | Ok relative_path =>
      let header := file_header relative_path in
      match read_text fs file_path with
      | None => error_reading file_path st
      | Some content =>
          let file_block := (header ++ content ++ LF)%string in
          match call_count _count file_block with
          | Raise _ => error_reading file_path st
          | Ok block_tokens =>
              let st :=
                if truthy max_tokens && (block_tokens >? value max_tokens)%Z
                then echo (WarnLargerThanMax (as_posix relative_path) block_tokens
                                             (value max_tokens)) st
                else st in
              let st :=
                if must_split max_tokens (current_token_count st) block_tokens
                then finalize max_tokens st
                else st in
              let relative_path_str := as_posix relative_path in
              let potential_secrets := report_get secrets_report relative_path_str in
              match st_size fs file_path with
              | None => error_reading file_path st
              | Some size =>
                  let file_meta :=
                    {| path := as_posix relative_path;
                       size_bytes := size;
                       sha256 := sha256_text content;
                       estimated_tokens := block_tokens;
                       potential_secrets := potential_secrets;
                       content := Some content |} in
                  check_warn warn_tokens
                    (insert_block file_meta file_block block_tokens st)
              end
          end
      end
  end.

Definition process_files (st : Assembler) (filtered_files : list Path) : Assembler :=
  fold_left process_file filtered_files st.

Definition initial (printed : list Message) : Assembler :=
  {| context_parts := [];
     token_counts := [];
     parts_meta := [];
     current_part_builder := "";
     current_token_count := 0;
     current_part_files_meta := [];
     warn_triggered := false;
     console := printed |}.

(** The block [if preliminary_text: ...]; the call of [_count] is not
    inside any [try]. *)
Definition write_preliminary (prelim : string) (st : Assembler) : result Assembler :=
  if negb (prelim =? "")%string then
    prelim_tokens <- call_count _count prelim ;;
    Ok (insert_block
          {| path := HEADER_PATH;
             size_bytes := Z.of_nat (String.length prelim);
             sha256 := sha256_text prelim;
             estimated_tokens := prelim_tokens;
             potential_secrets := [];
             content := None |}
          prelim prelim_tokens st)
  else Ok st.

(** The statements after the loop. *)
Definition close (st : Assembler) : Assembler :=
  let builder := (current_part_builder st ++ CLOSE_SENTINEL)%string in
  if (0 <? String.length builder)%nat then
    {| context_parts := context_parts st ++ [builder];
       token_counts := token_counts st ++ [current_token_count st];
       parts_meta := parts_meta st ++ [{| files := current_part_files_meta st |}];
       current_part_builder := builder;
       current_token_count := current_token_count st;
       current_part_files_meta := current_part_files_meta st;
       warn_triggered := warn_triggered st;
       console := console st |}
  else
    {| context_parts := context_parts st;
       token_counts := token_counts st;
       parts_meta := parts_meta st;
       current_part_builder := builder;
       current_token_count := current_token_count st;
       current_part_files_meta := current_part_files_meta st;
       warn_triggered := warn_triggered st;
       console := console st |}.

(** Everything after the binding of [_count]: the final state, or the
    exception together with what had been printed. *)
Definition assemble (printed : list Message) (filtered_files : list Path)
    (prompt_no_header : bool) (tree_view : string)
    : list Message * result Assembler :=
  match write_preliminary (preliminary_text prompt_no_header tree_view)
                          (initial printed) with
  | Raise e => (printed, Raise e)
  | Ok st =>
      let st := echo (FoundFilesToInclude (List.length filtered_files)) st in
      let st := close (process_files st filtered_files) in
      (console st, Ok st)
  end.

End ContextAssembler.

(** [generate_context]: what was printed, and either the returned triple
    [(context_parts, token_counts, parts_meta)] or the exception raised. *)
Definition generate_context (fs : FileSystem) (sha256_text : string -> string)
    (get_encoding : option Encoding)
    (root_dir : Path) (filtered_files : list Path) (secrets_report : SecretsReport)
    (count_tokens : bool) (max_tokens warn_tokens : option Z)
    (prompt_no_header : bool) (tree_view : string)
    : list Message * result (list string * list Z * list PartMeta) :=
  let '(printed, _count) := bind_count get_encoding count_tokens in
  match assemble fs sha256_text root_dir secrets_report _count max_tokens warn_tokens
                 printed filtered_files prompt_no_header tree_view with
  | (out, Ok st) => (out, Ok (context_parts st, token_counts st, parts_meta st))
  | (out, Raise e) => (out, Raise e)
  end.

(** ** Secret Scanner Adapter *)

(** A [PotentialSecret] of the detection engine. *)
Record Secret : Type := {
  secret_kind : string;         (* [secret.type] *)
  line_number : Z;
  secret_value : string
}.

(** [SecretsCollection().scan_files] over the paths, then [.data]: the files
    with findings, each under the key the engine files it under; [None]
    when the engine raises. *)
Definition Classifier : Type := list string -> option (list (string * list Secret)).

Fixpoint report_mem (secrets_report : SecretsReport) (key : string) : bool :=
  match secrets_report with
  | [] => false
  | (k, _) :: rest => (k =? key)%string || report_mem rest key
  end.

(** [secrets_report[key].append(finding)] *)
Fixpoint report_append (secrets_report : SecretsReport) (key : string)
    (finding : Finding) : SecretsReport :=
  match secrets_report with
  | [] => []
  | (k, found) :: rest =>
      if (k =? key)%string then (k, found ++ [finding]) :: rest
      else (k, found) :: report_append rest key finding
  end.

(** The body of the loop over [secrets_found.items()]. *)
Definition report_file (acc : SecretsReport * list Message)
    (item : string * list Secret) : SecretsReport * list Message :=
  let '(file_path, secrets_set) := item in
  let rel_path := file_path in
  let secrets_report :=
    if report_mem (fst acc) rel_path then fst acc else fst acc ++ [(rel_path, [])] in
  fold_left
    (fun acc secret =>
       (report_append (fst acc) rel_path
          {| finding_type := secret_kind secret; finding_line := line_number secret |},
        snd acc ++ [PotentialSecret (secret_kind secret) rel_path
                      (line_number secret) (secret_value secret)]))
    secrets_set (secrets_report, snd acc).

Definition checkSecurityIssue (scan_files : Classifier) (filtered_files : list Path)
    : SecretsReport * list Message :=
  let filepaths_to_scan := map str filtered_files in
  match scan_files filepaths_to_scan with
  | Some secrets_found =>
      match secrets_found with
      | [] => ([], [PreScanning])
      | _ :: _ =>
          fold_left report_file secrets_found
                    ([], [PreScanning; ScanComplete (List.length secrets_found)])
      end
  | None => ([], [PreScanning; DetectSecretsError])
  end.

(** ** Interactive selection *)

(** [d[k] = v] on a dictionary with string keys. *)
Fixpoint dict_set {A : Type} (d : list (string * A)) (k : string) (v : A)
    : list (string * A) :=
  match d with
  | [] => [(k, v)]
  | (k', v') :: d' =>
      if (k' =? k)%string then (k', v) :: d' else (k', v') :: dict_set d' k v
  end.

(** [d[k]] *)
Fixpoint dict_item {A : Type} (d : list (string * A)) (k : string) : result A :=
  match d with
  | [] => Raise KeyError
  | (k', v) :: d' => if (k' =? k)%string then Ok v else dict_item d' k
  end.

(** [str(p)] of a relative path. *)
Definition str_relative (rel : Path) : string :=
  match rel with [] => "." | _ :: _ => as_posix rel end.

Fixpoint relative_labels (root_path : Path) (file_list : list Path)
    (file_map : list (string * Path)) : result (list (string * Path)) :=
  match file_list with
  | [] => Ok file_map
  | p :: rest =>
      rel <- relative_to p root_path ;;
      relative_labels root_path rest (dict_set file_map (str_relative rel) p)
  end.

Definition absolute_labels (file_list : list Path) : list (string * Path) :=
  fold_left (fun file_map p => dict_set file_map (str p) p) file_list [].

Fixpoint lookup_all (file_map : list (string * Path)) (selected : list string)
    : result (list Path) :=
  match selected with
  | [] => Ok []
  | path_str :: rest =>
      p <- dict_item file_map path_str ;;
      ps <- lookup_all file_map rest ;;
      Ok (p :: ps)
  end.

Record Prompt : Type := {
  (** [Path.cwd()] *)
  cwd : Path;
  (** [questionary.checkbox(..., choices=...).ask()]; [None] on cancel *)
  ask : list string -> option (list string);
  (** the order in which a [set] built from these paths is iterated *)
  set_order : list Path -> list Path
}.

Definition interactive_file_selector (ui : Prompt) (file_list : list Path)
    : result (list Path) :=
  match file_list with
  | [] => Ok (set_order ui [])
  | _ :: _ =>
      let root_path := cwd ui in
      let file_map :=
        match relative_labels root_path file_list [] with
        | Ok file_map => file_map
        | Raise _ => absolute_labels file_list
        end in
      let sorted_choices := sorted (map fst file_map) in
      match ask ui sorted_choices with
      | None => Raise SystemExit
      | Some selected_paths_str =>
          chosen <- lookup_all file_map selected_paths_str ;;
          Ok (set_order ui chosen)
      end
  end.

(** ** Output Writer *)

Record Warning : Type := {
  part_index : nat;
  file_path : string;
  reason : string;
  matches : list Finding
}.

Record PartInfo : Type := {
  index : nat;
  part_estimated_tokens : Z;
  part_files : list FileMeta
}.

(** The document [json_obj]. *)
Record JsonDoc : Type := {
  project_root : string;
  file_count : nat;
  tree : string;
  total_estimated_tokens : Z;
  warnings : list Warning;
  doc_parts : list PartInfo
}.

(** What a run does to the outside world, in order.  A file or a clipboard
    entry stands for an operation that completed; an operation that raised
    leaves no entry, and what it did before raising is not followed. *)
Inductive Effect : Type :=
| Say (m : Message)
| ClipboardCopy (text : string)
| TextFile (filename : string) (text : string)
| JsonFile (out_path : string) (doc : JsonDoc).

Definition say (ms : list Message) : list Effect := map Say ms.

(** [enumerate(xs)] *)
Definition enumerate {A : Type} (xs : list A) : list (nat * A) :=
  combine (seq 0 (List.length xs)) xs.

(** [sum(zs)] *)
Definition sum (zs : list Z) : Z := fold_left Z.add zs 0%Z.

Definition is_header (f : FileMeta) : bool := (path f =? HEADER_PATH)%string.

(** [sum(1 for f in files_in_part if f["path"] != "_aicontext_header_")] *)
Definition count_files (files_in_part : list FileMeta) : nat :=
  List.length (filter (fun f => negb (is_header f)) files_in_part).

Definition total_file_count (parts_meta : list PartMeta) : nat :=
  fold_left (fun total part_meta => total + count_files (files part_meta))
            parts_meta 0.

Definition part_warnings (i : nat) (part_meta : PartMeta) : list Warning :=
  flat_map
    (fun file_info =>
       match potential_secrets file_info with
       | [] => []
       | _ :: _ =>
           [{| part_index := i + 1;
               file_path := path file_info;
               reason := "Potential secrets detected in file";
               matches := potential_secrets file_info |}]
       end)
    (files part_meta).

Fixpoint part_infos (token_counts : list Z) (indexed : list (nat * PartMeta))
    : result (list PartInfo) :=
  match indexed with
  | [] => Ok []
  | (idx, part_meta) :: rest =>
      match nth_error token_counts idx with
      | None => Raise IndexError
      | Some tokens =>
          infos <- part_infos token_counts rest ;;
          Ok ({| index := idx + 1;
                 part_estimated_tokens := tokens;
                 part_files := files part_meta |} :: infos)
      end
  end.

(** [resolve] is [Path.resolve] and [write_json_output] the function of
    that name, which makes the parent directory, opens the file and dumps
    the document: any of these can raise. *)
Definition build_and_write_json (resolve : Path -> Path)
    (write_json_output : string -> JsonDoc -> result unit)
    (root_path : Path) (context_parts : list string)
    (token_counts : list Z) (parts_meta : list PartMeta) (tree_str : string)
    (out_path : string) : list Effect * result unit :=
  let found := flat_map (fun ip => part_warnings (fst ip) (snd ip)) (enumerate parts_meta) in
  match part_infos token_counts (enumerate parts_meta) with
  | Raise e => ([], Raise e)
  | Ok infos =>
      let json_obj :=
        {| project_root := str (resolve root_path);
           file_count := total_file_count parts_meta;
           tree := tree_str;
           total_estimated_tokens := sum token_counts;
           warnings := found;
           doc_parts := infos |} in
      match write_json_output out_path json_obj with
      | Raise e => ([], Raise e)
      | Ok _ => ([JsonFile out_path json_obj; Say (WroteJson out_path)], Ok tt)
      end
  end.

(** ** The command *)

(** [--format]: ["text"] or ["json"]. *)
Inductive Format : Type := TextFormat | JsonFormat.

Record Options : Type := {
  opt_output : string;
  opt_output_format : Format;
  opt_exclude : list string;
  opt_ext : list string;
  opt_copy : bool;
  opt_count_tokens : bool;
  opt_max_tokens : option Z;
  opt_warn_tokens : option Z;
  opt_interactive : bool;
  opt_tree_only : bool;
  opt_tree : bool;
  opt_prompt_no_header : bool
}.

(** Everything a run consults outside the program. *)
Record World : Type := {
  world_fs : FileSystem;
  world_match_file : Matcher;
  world_sha256 : string -> string;
  world_get_encoding : option Encoding;
  world_scan_files : Classifier;
  world_prompt : Prompt;
  (** [Path.resolve] *)
  world_resolve : Path -> Path;
  (** [pyperclip.copy(text)] *)
  world_copy : string -> result unit;
  (** [with open(filename, "w", encoding="utf-8") as f: f.write(text)] *)
  world_write_text : string -> string -> result unit;
  (** [write_json_output(path, data)] *)
  world_write_json : string -> JsonDoc -> result unit;
  (** [os.path.splitext], [Path(s).suffix], [str(Path(s).with_suffix(x))] *)
  splitext : string -> string * string;
  suffix : string -> string;
  with_suffix : string -> string -> string;
  (** [str(n)] for a part number *)
  decimal : nat -> string
}.

Definition json_out_path (w : World) (output : string) : string :=
  if (output =? "context.txt")%string then "context.json"
  else if negb (suffix w output =? ".json")%string then with_suffix w output ".json"
  else output.

(** The block [if copy:] of the text format; [copy] is [pyperclip.copy]. *)
Definition copy_first (copy : string -> result unit) (context_parts : list string)
    : list Effect * result unit :=
  match nth_error context_parts 0 with
  | None => ([], Raise IndexError)
  | Some first =>
      match copy first with
      | Raise e => ([], Raise e)
      | Ok _ =>
          ([ClipboardCopy first; Say CopiedFirstPart]
           ++ (if (1 <? List.length context_parts)%nat
               then [Say (OnlyFirstCopied (List.length context_parts))] else []),
           Ok tt)
      end
  end.

(** The loop that writes one file per part: it stops at the first write
    that raises. *)
Fixpoint save_numbered (w : World) (base_name extension : string)
    (indexed : list (nat * string)) : list Effect * result unit :=
  match indexed with
  | [] => ([], Ok tt)
  | (i, part) :: rest =>
      let part_filename :=
        (base_name ++ "-part-" ++ decimal w (i + 1) ++ extension)%string in
      match world_write_text w part_filename part with
      | Raise e => ([], Raise e)
      | Ok _ =>
          let '(saved, r) := save_numbered w base_name extension rest in
          ([TextFile part_filename part; Say (PartSavedTo (i + 1) part_filename)]
           ++ saved, r)
      end
  end.

Definition save_parts (w : World) (output : string) (context_parts : list string)
    : list Effect * result unit :=
  if (List.length context_parts =? 1)%nat then
    match nth_error context_parts 0 with
    | None => ([], Raise IndexError)
    | Some part =>
        match world_write_text w output part with
        | Raise e => ([], Raise e)
        | Ok _ => ([TextFile output part; Say (SavedTo output)], Ok tt)
        end
    end
  else
    let '(base_name, extension) := splitext w output in
    save_numbered w base_name extension (enumerate context_parts).

(** The branch [else:  # text format]. *)
Definition text_output (w : World) (o : Options) (context_parts : list string)
    : list Effect * result unit :=
  let '(copied, r) :=
    if opt_copy o then copy_first (world_copy w) context_parts else ([], Ok tt) in
  match r with
  | Raise e => (copied, Raise e)
  | Ok _ =>
      let '(saved, r) := save_parts w (opt_output o) context_parts in
      (copied ++ saved, r)
  end.

Definition json_output (w : World) (o : Options) (root_dir : Path)
    (context_parts : list string) (token_counts : list Z)
    (parts_meta : list PartMeta) (tree_view : string) : list Effect * result unit :=
  let output_path := json_out_path w (opt_output o) in
  let '(written, r) :=
    build_and_write_json (world_resolve w) (world_write_json w) root_dir
                         context_parts token_counts parts_meta
                         tree_view output_path in
  match r with
  | Raise e => (written, Raise e)
  | Ok _ => (written ++ (if opt_copy o then [Say CopyIgnored] else []), Ok tt)
  end.

Definition token_report (o : Options) (token_counts : list Z) : list Effect :=
  if opt_count_tokens o then
    [Say TokenReport]
    ++ (if (1 <? List.length token_counts)%nat
        then map (fun ic => Say (PartTokens (fst ic + 1) (snd ic))) (enumerate token_counts)
        else [])
    ++ [Say (TotalTokens (sum token_counts))]
  else [].

(** The files the assembler is given: the filter's output, reduced by the
    interactive selection when that is asked for. *)
Definition selected_files (w : World) (root_dir : Path) (o : Options)
    : result (list Path) :=
  filtered_files <-
    filter_project_files (world_match_file w) (world_fs w) root_dir
                         (opt_exclude o) (opt_ext o) ;;
  if opt_interactive o
  then interactive_file_selector (world_prompt w) filtered_files
  else Ok filtered_files.

Definition cli (w : World) (root_dir : Path) (o : Options)
    : list Effect * result unit :=
  let root_dir := world_resolve w root_dir in
  let out := Say (Starting (world_resolve w root_dir))
             :: say (snd (load_ignore_patterns (world_fs w) root_dir)) in
  match selected_files w root_dir o with
  | Raise e => (out, Raise e)
  | Ok [] => (out ++ [Say NoFilesFound], Ok tt)
  | Ok ((_ :: _) as filtered_files) =>
      let '(secrets_report, scanned) :=
        checkSecurityIssue (world_scan_files w) filtered_files in
      let out := out ++ say scanned in
      match (if opt_tree o || opt_tree_only o
             then generate_tree_view root_dir filtered_files else Ok "") with
      | Raise e => (out, Raise e)
      | Ok tree_view =>
          if opt_tree_only o then (out ++ [Say (TreeStructure tree_view)], Ok tt)
          else
            match generate_context (world_fs w) (world_sha256 w) (world_get_encoding w)
                    root_dir filtered_files secrets_report (opt_count_tokens o)
                    (opt_max_tokens o) (opt_warn_tokens o)
                    (opt_prompt_no_header o) tree_view with
            | (printed, Raise e) => (out ++ say printed, Raise e)
            | (printed, Ok (context_parts, token_counts, parts_meta)) =>
                let out := out ++ say printed in
                match context_parts with
                | [] => (out ++ [Say ContextEmpty], Ok tt)
                | _ :: _ =>
                    let '(delivered, r) :=
                      match opt_output_format o with
                      | JsonFormat =>
                          json_output w o root_dir context_parts token_counts
                                      parts_meta tree_view
                      | TextFormat => text_output w o context_parts
                      end in
                    match r with
                    | Raise e => (out ++ delivered, Raise e)
                    | Ok _ => (out ++ delivered ++ token_report o token_counts, Ok tt)
                    end
                end
            end
      end
  end.

(** ** The earlier module [aicontextator.py] at the top of the repository

    It has no metadata, no secret report and no sentinels; its tree view
    ends the root line with a dot. *)

Module Legacy.

Definition bind_count (get_encoding : option Encoding) (count_tokens : bool)
    : list Message * (string -> Z) :=
  if count_tokens then
    match get_encoding with
    | Some encoding => ([], encoding)
    | None => ([ErrorInitializingTiktoken], fun _ => 0%Z)
    end
  else ([], fun _ => 0%Z).

Definition generate_tree_view (root_dir : Path) (filtered_files : list Path)
    : result string :=
  tree <- build_tree root_dir filtered_files (Node []) ;;
  let tree_lines := (name root_dir ++ ".")%string :: build_tree_lines tree "" in
  Ok (Py.join LF tree_lines).

Definition header_text : string :=
  ("The following text is a collection of source code files from a software project. "
   ++ "Each file is delimited by a '--- FILE: [filepath] ---' header." ++ LF
   ++ "Please use this code as the primary source of truth to answer questions about the project."
   ++ LF ++ LF)%string.

Record Builder : Type := {
  context_parts : list string;
  token_counts : list Z;
  current_part_builder : string;
  current_token_count : Z;
  warn_triggered : bool;
  console : list Message
}.

Definition write (text : string) (tokens : Z) (st : Builder) : Builder :=
  {| context_parts := context_parts st;
     token_counts := token_counts st;
     current_part_builder := (current_part_builder st ++ text)%string;
     current_token_count := current_token_count st + tokens;
     warn_triggered := warn_triggered st;
     console := console st |}.

Definition echo (m : Message) (st : Builder) : Builder :=
  {| context_parts := context_parts st;
     token_counts := token_counts st;
     current_part_builder := current_part_builder st;
     current_token_count := current_token_count st;
     warn_triggered := warn_triggered st;
     console := console st ++ [m] |}.

Definition finalize (max_tokens : option Z) (st : Builder) : Builder :=
  {| context_parts := context_parts st ++ [current_part_builder st];
     token_counts := token_counts st ++ [current_token_count st];
     current_part_builder := "";
     current_token_count := 0;
     warn_triggered := warn_triggered st;
     console := console st
       ++ [TokenLimitReached (value max_tokens) (List.length (context_parts st) + 2)] |}.

Definition check_warn (warn_tokens : option Z) (st : Builder) : Builder :=
  if truthy warn_tokens
     && (current_token_count st >? value warn_tokens)%Z
     && negb (warn_triggered st)
  then
    {| context_parts := context_parts st;
       token_counts := token_counts st;
       current_part_builder := current_part_builder st;
       current_token_count := current_token_count st;
       warn_triggered := true;
       console := console st ++ [WarnThresholdExceeded (value warn_tokens)] |}
  else st.

Section Assembler.

Variable fs : FileSystem.
Variable root_dir : Path.
Variable _count : string -> Z.
Variable max_tokens : option Z.
Variable warn_tokens : option Z.

Definition process_file (st : Builder) (file_path : Path) : Builder :=
  match relative_to file_path root_dir with
  | Raise _ => echo (ErrorReading file_path) st
  | Ok relative_path =>
      let header :=
        ("--- FILE: " ++ as_posix relative_path ++ " ---" ++ LF ++ LF)%string in
      match read_text fs file_path with
      | None => echo (ErrorReading file_path) st
      | Some content =>
          let file_block := (header ++ content ++ LF ++ LF)%string in
          let block_tokens := _count file_block in
          let st :=
            if must_split max_tokens (current_token_count st) block_tokens
            then finalize max_tokens st
            else st in
          check_warn warn_tokens (write file_block block_tokens st)
      end
  end.

Definition write_header (filtered_files : list Path)
    (prompt_no_header tree : bool) (st : Builder) : result Builder :=
  if negb prompt_no_header then
    let st := write header_text (_count header_text) st in
    if tree then
      tree_view <- generate_tree_view root_dir filtered_files ;;
      let tree_header :=
        ("The project structure is as follows:" ++ LF ++ tree_view ++ LF ++ LF)%string in
      Ok (write tree_header (_count tree_header) st)
    else Ok st
  else Ok st.

Definition close (st : Builder) : list string * list Z :=
  if negb (current_part_builder st =? "")%string
  then (context_parts st ++ [current_part_builder st],
        token_counts st ++ [current_token_count st])
  else (context_parts st, token_counts st).

End Assembler.

Definition generate_context (fs : FileSystem) (get_encoding : option Encoding)
    (root_dir : Path) (filtered_files : list Path)
    (count_tokens : bool) (max_tokens warn_tokens : option Z)
    (prompt_no_header tree : bool)
    : list Message * result (list string * list Z) :=
  let '(printed, _count) := bind_count get_encoding count_tokens in
  let st0 :=
    {| context_parts := []; token_counts := []; current_part_builder := "";
       current_token_count := 0; warn_triggered := false; console := printed |} in
  match write_header root_dir _count filtered_files prompt_no_header tree st0 with
  | Raise e => (printed, Raise e)
  | Ok st =>
      let st := echo (FoundFilesToInclude (List.length filtered_files)) st in
      let st := fold_left (process_file fs root_dir _count max_tokens warn_tokens)
                          filtered_files st in
      (console st, Ok (close st))
  end.

End Legacy.

(** ** Notions used to state the properties *)

(** A file the loop body gets through: it lies under the root, it can be
    read and its size can be taken. *)
Definition processable (fs : FileSystem) (root_dir file_path : Path) : bool :=
  match relative_to file_path root_dir, read_text fs file_path, st_size fs file_path with
  | Ok _, Some _, Some _ => true
  | _, _, _ => false
  end.

Definition relative_posix (root_dir file_path : Path) : string :=
  match relative_to file_path root_dir with
  | Ok rel => as_posix rel
  | Raise _ => ""
  end.

(** Every metadata entry of a run in order, and the entries after the
    header entry that opens the first part. *)
Definition all_entries (parts_meta : list PartMeta) : list FileMeta :=
  List.concat (map files parts_meta).

Definition recorded_files (parts_meta : list PartMeta) : list FileMeta :=
  tl (all_entries parts_meta).

(** The entries of a part that stand for files. *)
Definition file_blocks (part_meta : PartMeta) : list FileMeta :=
  filter (fun f => negb (is_header f)) (files part_meta).

Definition cost (entries : list FileMeta) : Z :=
  fold_right (fun f total => (estimated_tokens f + total)%Z) 0%Z entries.

(** A part within the budget, or one whose only file block is over it. *)
Definition within_budget_or_single_file (max_tokens count : Z) (part_meta : PartMeta)
    : Prop :=
  (count <= max_tokens)%Z
  \/ exists f, file_blocks part_meta = [f] /\ (max_tokens < estimated_tokens f)%Z.

(** A part within the budget, or one that ends with a block over the budget
    (a file block or the header block) after blocks that cost nothing. *)
Definition within_budget_or_single_block (max_tokens count : Z) (part_meta : PartMeta)
    : Prop :=
  (count <= max_tokens)%Z
  \/ exists before b,
       files part_meta = before ++ [b]
       /\ Forall (fun f => estimated_tokens f = 0%Z) before
       /\ (max_tokens < estimated_tokens b)%Z
       /\ count = estimated_tokens b.

(** The finalized parts as (token count, metadata) pairs. *)
Definition finalized (token_counts : list Z) (parts_meta : list PartMeta)
    : list (Z * PartMeta) :=
  combine token_counts parts_meta.

(** The metadata entry and the block the loop body makes for a file it gets
    through, [None] for a file it skips. *)
Definition file_block_of (fs : FileSystem) (root_dir file_path : Path) : option string :=
  match relative_to file_path root_dir, read_text fs file_path with
  | Ok rel, Some text => Some (file_header rel ++ text ++ LF)%string
  | _, _ => None
  end.

Definition file_entry (fs : FileSystem) (sha256_text : string -> string)
    (secrets_report : SecretsReport) (counter : string -> Z)
    (root_dir file_path : Path) : option FileMeta :=
  match relative_to file_path root_dir, read_text fs file_path, st_size fs file_path with
  | Ok rel, Some text, Some size =>
      Some {| path := as_posix rel;
              size_bytes := size;
              sha256 := sha256_text text;
              estimated_tokens := counter (file_header rel ++ text ++ LF)%string;
              potential_secrets := report_get secrets_report (as_posix rel);
              content := Some text |}
  | _, _, _ => None
  end.

Definition entry_list (e : option FileMeta) : list FileMeta :=
  match e with Some m => [m] | None => [] end.

(** The header entry of a run. *)
Definition header_entry (sha256_text : string -> string) (counter : string -> Z)
    (prelim : string) : FileMeta :=
  {| path := HEADER_PATH;
     size_bytes := Z.of_nat (String.length prelim);
     sha256 := sha256_text prelim;
     estimated_tokens := counter prelim;
     potential_secrets := [];
     content := None |}.

(** The entries an assembler state holds, finalized parts first. *)
Definition held_entries (st : Assembler) : list FileMeta :=
  all_entries (parts_meta st) ++ current_part_files_meta st.

(** A state with what it printed forgotten. *)
Definition silent (st : Assembler) : Assembler :=
  {| context_parts := context_parts st;
     token_counts := token_counts st;
     parts_meta := parts_meta st;
     current_part_builder := current_part_builder st;
     current_token_count := current_token_count st;
     current_part_files_meta := current_part_files_meta st;
     warn_triggered := warn_triggered st;
     console := [] |}.

(** The bookkeeping of one part under a budget. *)
Definition part_accounted (max_tokens count : Z) (part_entries : list FileMeta) : Prop :=
  count = cost part_entries
  /\ Forall (fun f => (0 <= estimated_tokens f)%Z) part_entries
  /\ within_budget_or_single_block max_tokens count {| files := part_entries |}.

(** What holds of the assembler state throughout a run under a budget. *)
Definition budget_invariant (max_tokens : Z) (st : Assembler) : Prop :=
  List.length (token_counts st) = List.length (parts_meta st)
  /\ List.length (context_parts st) = List.length (parts_meta st)
  /\ Forall (fun cp => part_accounted max_tokens (fst cp) (files (snd cp)))
            (finalized (token_counts st) (parts_meta st))
  /\ part_accounted max_tokens (current_token_count st) (current_part_files_meta st)
  /\ Forall (fun part => part <> "") (context_parts st)
  /\ (current_part_files_meta st <> [] -> current_part_builder st <> "").

(** The state [generate_context] ends in when [_count] is bound. *)
Definition final_state (fs : FileSystem) (sha256_text : string -> string)
    (root_dir : Path) (secrets_report : SecretsReport) (counter : string -> Z)
    (max_tokens warn_tokens : option Z) (printed : list Message)
    (filtered_files : list Path) (prompt_no_header : bool) (tree_view : string)
    : Assembler :=
  let prelim := preliminary_text prompt_no_header tree_view in
  close
    (process_files fs sha256_text root_dir secrets_report (Some counter)
       max_tokens warn_tokens
       (echo (FoundFilesToInclude (List.length filtered_files))
          (insert_block (header_entry sha256_text counter prelim) prelim
                        (counter prelim) (initial printed)))
       filtered_files).

(** An effect that delivers context: a file written or the clipboard set. *)
Definition delivers (e : Effect) : bool :=
  match e with
  | Say _ => false
  | ClipboardCopy _ | TextFile _ _ | JsonFile _ _ => true
  end.

(** [structure.get(k)] on one level of the tree. *)
Fixpoint child (k : string) (entries : list (string * Tree)) : option Tree :=
  match entries with
  | [] => None
  | (k', below) :: rest => if (k' =? k)%string then Some below else child k rest
  end.

(** The chains of segments that lead from the top of a tree to a node. *)
Fixpoint has_path (p : list string) (t : Tree) : bool :=
  match p with
  | [] => true
  | k :: p' =>
      match child k (entries_of t) with
      | Some below => has_path p' below
      | None => false
      end
  end.

Fixpoint is_prefix (p q : list string) : bool :=
  match p, q with
  | [], _ => true
  | k :: p', k' :: q' => (k =? k')%string && is_prefix p' q'
  | _ :: _, [] => false
  end.

(** A dictionary tree: no key twice on any level. *)
#[warnings="-register-all"]
Inductive dict_tree : Tree -> Prop :=
| dict_node entries :
    NoDup (map fst entries) ->
    Forall (fun e => dict_tree (snd e)) entries ->
    dict_tree (Node entries).

(** The diagram of one level as the specification words it: for each
    sibling its line, with the connector of a last or an inner sibling,
    then the diagram of what lies below it under the continued prefix. *)
Fixpoint render_siblings (prefix : string) (items : list (string * Tree))
    : list string :=
  match items with
  | [] => []
  | (name, below) :: rest =>
      let is_last := match rest with [] => true | _ :: _ => false end in
      ((prefix ++ connector is_last ++ name)%string
         :: build_tree_lines below (prefix ++ extension is_last)%string)
      ++ render_siblings prefix rest
  end.

Definition string_le (a b : string) : Prop := String.leb a b = true.

Definition key_le {A : Type} (x y : string * A) : Prop :=
  string_le (fst x) (fst y).

(** ** Concrete inputs for the examples *)

Module Run.

Definition main_py : Path := Example.root ++ ["src"; "main.py"].
Definition utils_js : Path := Example.root ++ ["src"; "utils.js"].
Definition config_json : Path := Example.root ++ ["config.json"].
(** a path of the list whose file is gone when it is opened *)
Definition ghost_py : Path := Example.root ++ ["ghost.py"].

(** a stand-in digest *)
Definition digest (text : string) : string := "".

(** the stubbed encoder of the test-suite: 15 tokens for every text *)
Definition fifteen : Encoding := fun _ => 15%Z.

Definition hello : string := "print('hello')".

(** an engine that reports one finding in [src/main.py], filed under the
    path it was asked to scan *)
Definition aws_key : Secret :=
  {| secret_kind := "AWS Access Key"; line_number := 1; secret_value := "AKIA" |}.

Definition engine : Classifier :=
  fun paths =>
    Some (map (fun p => (p, [aws_key]))
              (filter (fun p => (p =? str main_py)%string) paths)).

(** [os.path.splitext] on a plain file name: cut at the last dot that is
    not the first character. *)
Fixpoint cut_at_last_dot (s : string) : option (string * string) :=
  match s with
  | EmptyString => None
  | String c s' =>
      match cut_at_last_dot s' with
      | Some (base, extension) => Some (String c base, extension)
      | None => if (c =? ".")%char then Some (EmptyString, s) else None
      end
  end.

Definition split_extension (s : string) : string * string :=
  match s with
  | EmptyString => (s, "")
  | String c s' =>
      match cut_at_last_dot s' with
      | Some (base, extension) => (String c base, extension)
      | None => (s, "")
      end
  end.

(** the example project with one more file, [locked.py], that passes the
    filter but cannot be opened for reading *)
Definition locked_py : Path := Example.root ++ ["locked.py"].

Definition locked_fs : FileSystem :=
  {| walk := fun d => walk Example.fs d
                      ++ (if Example.path_eqb d Example.root then [["locked.py"]] else []);
     is_file := fun p => is_file Example.fs p || Example.path_eqb p locked_py;
     read_text := read_text Example.fs;
     st_size := fun p => if Example.path_eqb p locked_py then Some 5%Z
                         else st_size Example.fs p |}.



Definition prompt : Prompt :=
  {| cwd := Example.root;
     ask := fun choices => Some choices;
     set_order := fun chosen => chosen |}.

Definition world (get_encoding : option Encoding) : World :=
  {| world_fs := Example.fs;
     world_match_file := GitWildMatch.match_file;
     world_sha256 := digest;
     world_get_encoding := get_encoding;
     world_scan_files := engine;
     world_prompt := prompt;
     world_resolve := fun p => p;
     world_copy := fun _ => Ok tt;
     world_write_text := fun _ _ => Ok tt;
     world_write_json := fun _ _ => Ok tt;
     splitext := split_extension;
     suffix := fun s => snd (split_extension s);
     with_suffix := fun s x => (fst (split_extension s) ++ x)%string;
     decimal := fun n => NilEmpty.string_of_uint (Nat.to_uint n) |}.

(** the same world on a disk that is full when the second part is written *)
Definition full_disk : World :=
  {| world_fs := Example.fs;
     world_match_file := GitWildMatch.match_file;
     world_sha256 := digest;
     world_get_encoding := Some fifteen;
     world_scan_files := engine;
     world_prompt := prompt;
     world_resolve := fun p => p;
     world_copy := fun _ => Ok tt;
     world_write_text := fun filename _ =>
       if (filename =? "context-part-2.txt")%string then Raise OSError else Ok tt;
     world_write_json := fun _ _ => Ok tt;
     splitext := split_extension;
     suffix := fun s => snd (split_extension s);
     with_suffix := fun s x => (fst (split_extension s) ++ x)%string;
     decimal := fun n => NilEmpty.string_of_uint (Nat.to_uint n) |}.

Definition options (count_tokens : bool) (max_tokens : option Z) : Options :=
  {| opt_output := "context.txt";
     opt_output_format := TextFormat;
     opt_exclude := ["src/utils.js"];
     opt_ext := [];
     opt_copy := true;
     opt_count_tokens := count_tokens;
     opt_max_tokens := max_tokens;
     opt_warn_tokens := None;
     opt_interactive := false;
     opt_tree_only := false;
     opt_tree := false;
     opt_prompt_no_header := true |}.

(** [--tree-only --copy --count-tokens] *)
Definition tree_only_options : Options :=
  {| opt_output := "context.txt";
     opt_output_format := TextFormat;
     opt_exclude := [];
     opt_ext := [];
     opt_copy := true;
     opt_count_tokens := true;
     opt_max_tokens := None;
     opt_warn_tokens := None;
     opt_interactive := false;
     opt_tree_only := true;
     opt_tree := false;
     opt_prompt_no_header := false |}.

(** [--format json --copy --count-tokens] with the default output name *)
Definition json_options : Options :=
  {| opt_output := "context.txt";
     opt_output_format := JsonFormat;
     opt_exclude := [];
     opt_ext := [];
     opt_copy := true;
     opt_count_tokens := true;
     opt_max_tokens := None;
     opt_warn_tokens := None;
     opt_interactive := false;
     opt_tree_only := false;
     opt_tree := true;
     opt_prompt_no_header := false |}.

End Run.

(** ** Notions used to state further properties *)

(** [''.join(parts)]: the parts written one after the other. *)
Definition joined (parts : list string) : string := Py.join "" parts.



(** The text an assembler state holds: the closed parts, then the buffer. *)
Definition held_text (st : Assembler) : string :=
  (joined (context_parts st) ++ current_part_builder st)%string.

(** The blocks of the files that get through the loop body, in order. *)
Definition blocks_through (fs : FileSystem) (root_dir : Path)
    (filtered_files : list Path) : list string :=
  flat_map
    (fun f => if processable fs root_dir f
              then match file_block_of fs root_dir f with
                   | Some block => [block]
                   | None => []
                   end
              else [])
    filtered_files.

Definition is_threshold_warning (m : Message) : bool :=
  match m with
  | WarnThresholdExceeded _ => true
  | _ => false
  end.

(** How often the threshold warning was printed. *)
Definition threshold_warnings (printed : list Message) : nat :=
  List.length (filter is_threshold_warning printed).

(** Every closed part's token count is the sum of the estimates of its
    entries, and so is the running count of the current part. *)
Definition counts_accounted (st : Assembler) : Prop :=
  Forall2 (fun count part_meta => count = cost (files part_meta))
          (token_counts st) (parts_meta st)
  /\ current_token_count st = cost (current_part_files_meta st).

(** The threshold warning was printed once if [warn_triggered] is set, and
    never otherwise; without a threshold it is never set. *)
Definition warned_once (warn_tokens : option Z) (st : Assembler) : Prop :=
  threshold_warnings (console st) = (if warn_triggered st then 1 else 0)
  /\ (truthy warn_tokens = false -> warn_triggered st = false).

(** What the report keeps of a secret: its type and its line. *)
Definition to_finding (secret : Secret) : Finding :=
  {| finding_type := secret_kind secret; finding_line := line_number secret |}.

(** The secrets the engine filed under a key. *)
Definition secrets_under (key : string) (secrets_found : list (string * list Secret))
    : list Secret :=
  flat_map (fun item => if (fst item =? key)%string then snd item else [])
           secrets_found.

(** The files the text format is to write, with their texts: [output]
    itself for a single part, otherwise one file per part, numbered from 1
    between the base name and the extension of [output]. *)
Definition text_targets (w : World) (output : string) (context_parts : list string)
    : list (string * string) :=
  match context_parts with
  | [part] => [(output, part)]
  | _ =>
      map (fun numbered =>
             ((fst (splitext w output) ++ "-part-" ++ decimal w (fst numbered + 1)
               ++ snd (splitext w output))%string,
              snd numbered))
          (combine (seq 0 (List.length context_parts)) context_parts)
  end.


(** The block the loop body of the earlier module writes for a file: the
    empty text for a file it skips. *)
Definition legacy_block (fs : FileSystem) (root_dir file_path : Path) : string :=
  match relative_to file_path root_dir, read_text fs file_path with
  | Ok relative_path, Some content =>
      ("--- FILE: " ++ as_posix relative_path ++ " ---" ++ LF ++ LF
       ++ content ++ LF ++ LF)%string
  | _, _ => ""
  end.

(** What the earlier module writes before the first file. *)
Definition legacy_preamble (root_dir : Path) (filtered_files : list Path)
    (prompt_no_header tree : bool) : result string :=
  if prompt_no_header then Ok ""
  else if tree then
    tree_view <- Legacy.generate_tree_view root_dir filtered_files ;;
    Ok (Legacy.header_text ++ "The project structure is as follows:" ++ LF
        ++ tree_view ++ LF ++ LF)%string
  else Ok Legacy.header_text.

(** The text a builder of the earlier module holds. *)
Definition legacy_held_text (st : Legacy.Builder) : string :=
  (joined (Legacy.context_parts st) ++ Legacy.current_part_builder st)%string.

(** The invariants of the earlier module's loop: as many counts as parts,
    no empty part, and an empty buffer costs nothing. *)
Definition legacy_invariant (st : Legacy.Builder) : Prop :=
  List.length (Legacy.context_parts st) = List.length (Legacy.token_counts st)
  /\ Forall (fun part => part <> ""%string) (Legacy.context_parts st)
  /\ (Legacy.current_part_builder st = ""%string -> Legacy.current_token_count st = 0%Z).

(** A builder of the earlier module that never closed a part and counted
    nothing. *)
Definition legacy_uncounted (st : Legacy.Builder) : Prop :=
  Legacy.context_parts st = [] /\ Legacy.token_counts st = []
  /\ Legacy.current_token_count st = 0%Z.

(** The text a metadata entry stands for: the preliminary text for the
    header entry (the one without content), the block rebuilt from path and
    content for a file entry. *)
Definition entry_text (prelim : string) (e : FileMeta) : string :=
  match content e with
  | Some text => (LF ++ "--- FILE: " ++ path e ++ " ---" ++ LF ++ text ++ LF)%string
  | None => prelim
  end.

Definition part_text (prelim : string) (part_entries : list FileMeta) : string :=
  joined (map (entry_text prelim) part_entries).

(** Every closed part and the buffer are the texts of their entries. *)
Definition text_follows_metadata (prelim : string) (st : Assembler) : Prop :=
  Forall2 (fun part part_meta => part = part_text prelim (files part_meta))
          (context_parts st) (parts_meta st)
  /\ current_part_builder st = part_text prelim (current_part_files_meta st).

(** * Properties *)

(** ** Strings and paths *)


Lemma relative_to_app (root_dir rel : Path) :
  relative_to (root_dir ++ rel) root_dir = Ok rel.
Proof.
  induction root_dir as [| r root_dir IH]; simpl.
  - now destruct rel.
  - now rewrite String.eqb_refl.
Qed.

Lemma relative_to_Ok (root_dir path rel : Path) :
  relative_to path root_dir = Ok rel -> path = root_dir ++ rel.
Proof.
  revert path. induction root_dir as [| r root_dir IH]; intros path.
  - destruct path; simpl; now intros [= <-].
  - destruct path as [| p path]; simpl; [intros [=] |].
    destruct (String.eqb_spec r p) as [-> | _]; [| intros [=]].
    intros E. now rewrite (IH _ E).
Qed.

(** ** File Filter *)

Section FileFilterFacts.

Variable spec : string -> bool.
Variable exts : list string.
Variable root_dir : Path.


End FileFilterFacts.







(** ** Tree Renderer *)

(** *** The order of [sorted] *)

Lemma ascii_compare_N (a b : ascii) :
  Ascii.compare a b = N.compare (N_of_ascii a) (N_of_ascii b).
Proof. reflexivity. Qed.

Lemma N_of_ascii_inj (a b : ascii) : N_of_ascii a = N_of_ascii b -> a = b.
Proof.
  intros E. rewrite <- (ascii_N_embedding a), <- (ascii_N_embedding b). now rewrite E.
Qed.

Lemma string_compare_trans_le (a b c : string) :
  String.compare a b <> Gt -> String.compare b c <> Gt -> String.compare a c <> Gt.
Proof.
  revert b c. induction a as [| x a IH]; intros [| y b] [| z c]; simpl;
    try congruence.
  rewrite !ascii_compare_N.
  destruct (N.compare_spec (N_of_ascii x) (N_of_ascii y)) as [Exy | Lxy | Gxy];
    destruct (N.compare_spec (N_of_ascii y) (N_of_ascii z)) as [Eyz | Lyz | Gyz];
    destruct (N.compare_spec (N_of_ascii x) (N_of_ascii z)) as [Exz | Lxz | Gxz];
    try congruence; try lia.
  apply IH.
Qed.

Lemma string_le_trans (a b c : string) :
  string_le a b -> string_le b c -> string_le a c.
Proof.
  unfold string_le, String.leb. intros Hab Hbc.
  pose proof (string_compare_trans_le a b c) as H.
  destruct (String.compare a b), (String.compare b c), (String.compare a c);
    try reflexivity; try discriminate; exfalso; apply H; congruence.
Qed.

Lemma string_le_antisym (a b : string) : string_le a b -> string_le b a -> a = b.
Proof. apply String.leb_antisym. Qed.

Lemma string_le_total (a b : string) : string_le a b \/ string_le b a.
Proof. apply String.leb_total. Qed.

Lemma string_le_refl (a : string) : string_le a a.
Proof. destruct (string_le_total a a); assumption. Qed.

(** *** [sort_by_key] sorts and only rearranges *)

Section SortByKey.

Context {A : Type}.

Lemma insert_by_key_perm (x : string * A) (l : list (string * A)) :
  Permutation (x :: l) (insert_by_key x l).
Proof.
  induction l as [| y l IH]; simpl.
  - reflexivity.
  - destruct (String.leb (fst x) (fst y)); [reflexivity |].
    rewrite perm_swap. now apply perm_skip.
Qed.

Lemma sort_by_key_perm (l : list (string * A)) : Permutation l (sort_by_key l).
Proof.
  induction l as [| x l IH]; simpl.
  - reflexivity.
  - rewrite <- insert_by_key_perm. now apply perm_skip.
Qed.

Lemma insert_by_key_sorted (x : string * A) (l : list (string * A)) :
  StronglySorted key_le l -> StronglySorted key_le (insert_by_key x l).
Proof.
  induction 1 as [| y l Hl IH Hy]; simpl.
  - repeat constructor.
  - destruct (String.leb (fst x) (fst y)) eqn:E.
    + constructor; [now constructor |].
      constructor; [exact E |].
      eapply Forall_impl; [| exact Hy].
      intros z Hz. eapply string_le_trans; [exact E | exact Hz].
    + constructor; [exact IH |].
      rewrite <- insert_by_key_perm. constructor; [| exact Hy].
      destruct (string_le_total (fst x) (fst y)) as [H | H]; [| exact H].
      unfold string_le in H. congruence.
Qed.

Lemma sort_by_key_sorted (l : list (string * A)) :
  StronglySorted key_le (sort_by_key l).
Proof.
  induction l as [| x l IH]; simpl.
  - constructor.
  - now apply insert_by_key_sorted.
Qed.

End SortByKey.

Lemma insert_by_key_map {A B : Type} (g : A -> B) (x : string * A)
    (l : list (string * A)) :
  insert_by_key (fst x, g (snd x)) (map (fun e => (fst e, g (snd e))) l)
  = map (fun e => (fst e, g (snd e))) (insert_by_key x l).
Proof.
  induction l as [| y l IH]; simpl.
  - reflexivity.
  - destruct (String.leb (fst x) (fst y)); simpl; [reflexivity |].
    now rewrite IH.
Qed.

Lemma sort_by_key_map {A B : Type} (g : A -> B) (l : list (string * A)) :
  sort_by_key (map (fun e => (fst e, g (snd e))) l)
  = map (fun e => (fst e, g (snd e))) (sort_by_key l).
Proof.
  induction l as [| x l IH]; simpl.
  - reflexivity.
  - rewrite IH. apply insert_by_key_map.
Qed.

(** *** One level of the diagram *)

Lemma build_tree_lines_leaf (t : Tree) (prefix : string) :
  is_nonempty t = false -> build_tree_lines t prefix = [].
Proof. destruct t as [[| e es]]; [reflexivity | discriminate]. Qed.

Lemma level_lines_render (prefix : string) (items : list (string * Tree)) :
  level_lines prefix
    (map (fun e => (fst e, (is_nonempty (snd e), build_tree_lines (snd e)))) items)
  = render_siblings prefix items.
Proof.
  induction items as [| [k below] rest IH]; simpl.
  - reflexivity.
  - rewrite IH. f_equal.
    + f_equal. now destruct rest.
    + destruct (is_nonempty below) eqn:E.
      * now destruct rest.
      * rewrite build_tree_lines_leaf by exact E. reflexivity.
Qed.

Lemma build_tree_lines_eq (entries : list (string * Tree)) (prefix : string) :
  build_tree_lines (Node entries) prefix
  = render_siblings prefix (sort_by_key entries).
Proof.
  simpl.
  rewrite (sort_by_key_map (fun t => (is_nonempty t, build_tree_lines t))).
  apply level_lines_render.
Qed.

(** *** The tree as a set of paths *)

Lemma Tree_nested_ind (P : Tree -> Prop) :
  (forall entries, Forall (fun e => P (snd e)) entries -> P (Node entries)) ->
  forall t, P t.
Proof.
  intros step. fix IH 1. intros [entries]. apply step.
  induction entries as [| [k below] entries IHentries]; constructor.
  - apply IH.
  - exact IHentries.
Qed.

Lemma child_In (k : string) (entries : list (string * Tree)) (below : Tree) :
  child k entries = Some below -> In (k, below) entries.
Proof.
  induction entries as [| [k' c] entries IH]; simpl; [discriminate |].
  destruct (String.eqb_spec k' k) as [-> | _].
  - intros [= ->]. now left.
  - intros H. right. now apply IH.
Qed.

Lemma In_child (k : string) (entries : list (string * Tree)) (below : Tree) :
  NoDup (map fst entries) -> In (k, below) entries -> child k entries = Some below.
Proof.
  induction entries as [| [k' c] entries IH]; simpl; [contradiction |].
  intros Hnd [E | Hin]; inversion_clear Hnd as [| ? ? Hk Hrest].
  - injection E as -> ->. now rewrite String.eqb_refl.
  - destruct (String.eqb_spec k' k) as [-> | _]; [| now apply IH].
    exfalso. apply Hk. change k with (fst (k, below)). now apply in_map.
Qed.

Lemma child_None (k : string) (entries : list (string * Tree)) :
  child k entries = None <-> ~ In k (map fst entries).
Proof.
  induction entries as [| [k' c] entries IH]; simpl; [tauto |].
  destruct (String.eqb_spec k' k) as [-> | Hne].
  - split; [discriminate | intros H; exfalso; apply H; now left].
  - rewrite IH. tauto.
Qed.

Lemma has_path_key (k : string) (t : Tree) :
  has_path [k] t = true <-> In k (keys t).
Proof.
  unfold keys. simpl. destruct (child k (entries_of t)) eqn:E.
  - split; [| reflexivity]. intros _. apply child_In in E.
    change k with (fst (k, t0)). now apply in_map.
  - apply child_None in E. split; [discriminate | contradiction].
Qed.

(** What [add_parts] does to one level. *)
Lemma child_add_parts (k part : string) (rest : list string) (t : Tree) :
  child k (entries_of (add_parts (part :: rest) t))
  = if (part =? k)%string
    then Some (add_parts rest
                 (match child part (entries_of t) with
                  | Some below => below
                  | None => Node []
                  end))
    else child k (entries_of t).
Proof.
  simpl. generalize (entries_of t) as entries.
  induction entries as [| [k' c] entries IH]; simpl.
  - destruct (String.eqb_spec part k); reflexivity.
  - destruct (String.eqb_spec k' part) as [-> | Hne]; simpl.
    + destruct (String.eqb_spec part k); reflexivity.
    + rewrite IH. destruct (String.eqb_spec part k) as [-> | _]; [| reflexivity].
      destruct (String.eqb_spec k' k); [contradiction | reflexivity].
Qed.

Lemma has_path_leaf (p : list string) :
  has_path p (Node []) = match p with [] => true | _ :: _ => false end.
Proof. now destruct p. Qed.

Lemma is_prefix_nil (q : list string) : is_prefix [] q = true.
Proof. now destruct q. Qed.

Lemma has_path_add_parts (q p : list string) (t : Tree) :
  has_path p (add_parts q t) = has_path p t || is_prefix p q.
Proof.
  revert p t. induction q as [| part rest IH]; intros [| k p] t.
  - reflexivity.
  - simpl. now rewrite orb_false_r.
  - reflexivity.
  - cbn [has_path is_prefix]. rewrite child_add_parts.
    rewrite String.eqb_sym.
    destruct (String.eqb_spec k part) as [-> | _]; [| now rewrite orb_false_r].
    rewrite IH. simpl.
    destruct (child part (entries_of t)); [reflexivity |].
    rewrite has_path_leaf. destruct p; [now rewrite is_prefix_nil | reflexivity].
Qed.

Lemma keys_add_parts (part : string) (rest : list string) (t : Tree) :
  keys (add_parts (part :: rest) t)
  = if in_dec string_dec part (keys t) then keys t else keys t ++ [part].
Proof.
  unfold keys. simpl. generalize (entries_of t) as entries.
  induction entries as [| [k c] entries IH]; simpl.
  - reflexivity.
  - destruct (String.eqb_spec k part) as [-> | Hne]; simpl.
    + destruct (string_dec part part); [reflexivity | contradiction].
    + rewrite IH. destruct (string_dec k part); [contradiction |].
      now destruct (in_dec string_dec part (map fst entries)).
Qed.

Lemma dict_tree_add_parts (q : list string) (t : Tree) :
  dict_tree t -> dict_tree (add_parts q t).
Proof.
  revert t. induction q as [| part rest IH]; intros t Ht; [exact Ht |].
  pose proof (keys_add_parts part rest t) as Hkeys.
  destruct Ht as [entries Hnd Hsub].
  unfold keys in Hkeys. simpl in Hkeys. simpl.
  constructor.
  - rewrite Hkeys. destruct (in_dec string_dec part (map fst entries)) as [| Hnew];
      [exact Hnd |].
    apply NoDup_app; [exact Hnd | repeat constructor; intros [] | ].
    intros x Hx [<- | []]. contradiction.
  - clear Hkeys Hnd. induction Hsub as [| [k c] entries Hc Hsub IHsub]; simpl.
    + repeat constructor. apply IH. constructor; constructor.
    + destruct (k =? part)%string; constructor; simpl in *; auto.
Qed.

(** *** Sorted levels with the same keys line up *)

Lemma sorted_levels_align {A : Type} (Q : A -> A -> Prop)
    (s1 s2 : list (string * A)) :
  StronglySorted key_le s1 -> StronglySorted key_le s2 ->
  NoDup (map fst s1) -> NoDup (map fst s2) ->
  (forall k, In k (map fst s1) <-> In k (map fst s2)) ->
  (forall k a b, In (k, a) s1 -> In (k, b) s2 -> Q a b) ->
  Forall2 (fun x y => fst x = fst y /\ Q (snd x) (snd y)) s1 s2.
Proof.
  intros H1. revert s2.
  induction H1 as [| [k1 a] s1 Hs1 IH Hmin1]; intros s2 H2 Hnd1 Hnd2 Hkeys HQ.
  - destruct s2 as [| [k2 b] s2]; [constructor |].
    exfalso. apply (Hkeys k2). now left.
  - destruct H2 as [| [k2 b] s2 Hs2 Hmin2].
    + exfalso. apply (Hkeys k1). now left.
    + simpl in *.
      inversion_clear Hnd1 as [| ? ? Hk1 Hnd1'].
      inversion_clear Hnd2 as [| ? ? Hk2 Hnd2'].
      assert (k1 = k2) as <-.
      { apply string_le_antisym.
        - destruct (proj2 (Hkeys k2) (or_introl eq_refl)) as [-> | Hin];
            [apply string_le_refl |].
          apply in_map_iff in Hin as ([k c] & E & Hin). simpl in E. subst k.
          rewrite Forall_forall in Hmin1. exact (Hmin1 _ Hin).
        - destruct (proj1 (Hkeys k1) (or_introl eq_refl)) as [-> | Hin];
            [apply string_le_refl |].
          apply in_map_iff in Hin as ([k c] & E & Hin). simpl in E. subst k.
          rewrite Forall_forall in Hmin2. exact (Hmin2 _ Hin). }
      constructor.
      * split; [reflexivity |]. simpl. apply (HQ k1); now left.
      * apply IH; try assumption.
        -- intros k. split; intros Hin.
           ++ destruct (proj1 (Hkeys k) (or_intror Hin)) as [<- | H]; [contradiction | exact H].
           ++ destruct (proj2 (Hkeys k) (or_intror Hin)) as [<- | H]; [contradiction | exact H].
        -- intros k x y Hx Hy. apply (HQ k); now right.
Qed.

Lemma render_siblings_align (prefix : string) (s1 s2 : list (string * Tree)) :
  Forall2 (fun x y => fst x = fst y
                      /\ forall p, build_tree_lines (snd x) p = build_tree_lines (snd y) p)
          s1 s2 ->
  render_siblings prefix s1 = render_siblings prefix s2.
Proof.
  induction 1 as [| [k1 c1] [k2 c2] s1 s2 [Hk Hc] Hrest IH]; simpl in *.
  - reflexivity.
  - subst k2. rewrite IH, Hc. now destruct Hrest.
Qed.

(** The diagram of a dictionary tree is fixed by its set of paths. *)
Lemma build_tree_lines_ext (t1 : Tree) :
  forall t2, dict_tree t1 -> dict_tree t2 ->
    (forall p, has_path p t1 = has_path p t2) ->
    forall prefix, build_tree_lines t1 prefix = build_tree_lines t2 prefix.
Proof.
  induction t1 as [entries1 IH] using Tree_nested_ind.
  intros [entries2] Hd1 Hd2 Hsame prefix.
  inversion_clear Hd1 as [? Hnd1 Hsub1]. inversion_clear Hd2 as [? Hnd2 Hsub2].
  rewrite !build_tree_lines_eq. apply render_siblings_align.
  pose proof (sort_by_key_perm entries1) as P1.
  pose proof (sort_by_key_perm entries2) as P2.
  apply (sorted_levels_align
           (fun a b => forall p, build_tree_lines a p = build_tree_lines b p)).
  - apply sort_by_key_sorted.
  - apply sort_by_key_sorted.
  - eapply Permutation_NoDup; [apply Permutation_map, P1 | exact Hnd1].
  - eapply Permutation_NoDup; [apply Permutation_map, P2 | exact Hnd2].
  - intros k.
    rewrite <- (Permutation_in' eq_refl (Permutation_map fst P1)).
    rewrite <- (Permutation_in' eq_refl (Permutation_map fst P2)).
    rewrite <- (has_path_key k (Node entries1)), <- (has_path_key k (Node entries2)).
    now rewrite Hsame.
  - intros k c1 c2 Hin1 Hin2.
    apply (Permutation_in _ (Permutation_sym P1)) in Hin1.
    apply (Permutation_in _ (Permutation_sym P2)) in Hin2.
    rewrite Forall_forall in IH, Hsub1, Hsub2.
    apply (IH _ Hin1 c2 (Hsub1 _ Hin1) (Hsub2 _ Hin2)).
    intros p. specialize (Hsame (k :: p)). simpl in Hsame.
    now rewrite (@In_child _ _ _ Hnd1 Hin1), (@In_child _ _ _ Hnd2 Hin2) in Hsame.
Qed.

(** *** The tree built from a list of files *)

Lemma relative_to_raises (path root_dir : Path) (e : exn) :
  relative_to path root_dir = Raise e -> e = ValueError.
Proof.
  revert path. induction root_dir as [| r root_dir IH]; intros [| p path]; simpl;
    try congruence.
  destruct (r =? p)%string; [apply IH | congruence].
Qed.

Lemma build_tree_raises (root_dir : Path) (filtered_files : list Path) (t : Tree) :
  (exists f, In f filtered_files /\ relative_to f root_dir = Raise ValueError) ->
  build_tree root_dir filtered_files t = Raise ValueError.
Proof.
  revert t. induction filtered_files as [| f rest IH]; intros t (g & Hin & Hg).
  - destruct Hin.
  - simpl. destruct (relative_to f root_dir) as [rel | e] eqn:E; simpl.
    + destruct Hin as [-> | Hin]; [congruence |]. apply IH. now exists g.
    + now rewrite (relative_to_raises _ _ E).
Qed.

Lemma build_tree_returns (root_dir : Path) (filtered_files : list Path) (t : Tree) :
  (forall f, In f filtered_files -> exists rel, relative_to f root_dir = Ok rel) ->
  exists built,
    build_tree root_dir filtered_files t = Ok built
    /\ (dict_tree t -> dict_tree built)
    /\ forall p, has_path p built
                 = has_path p t
                   || existsb (fun f => match relative_to f root_dir with
                                        | Ok rel => is_prefix p rel
                                        | Raise _ => false
                                        end) filtered_files.
Proof.
  revert t. induction filtered_files as [| f rest IH]; intros t Hall; simpl.
  - exists t. repeat split; [auto |]. intros p. now rewrite orb_false_r.
  - destruct (Hall f (or_introl eq_refl)) as [rel E]. rewrite E. simpl.
    destruct (IH (add_parts (parts rel) t)) as (built & Hrun & Hdict & Hpaths).
    { intros g Hg. apply Hall. now right. }
    exists built. split; [exact Hrun |]. split.
    + intros Ht. now apply Hdict, dict_tree_add_parts.
    + intros p. rewrite Hpaths. unfold parts. rewrite has_path_add_parts.
      now rewrite orb_assoc.
Qed.

Lemma all_or_one_outside (root_dir : Path) (filtered_files : list Path) :
  (forall f, In f filtered_files -> exists rel, relative_to f root_dir = Ok rel)
  \/ (exists f, In f filtered_files /\ relative_to f root_dir = Raise ValueError).
Proof.
  induction filtered_files as [| f rest [IH | (g & Hin & Hg)]].
  - left. intros f [].
  - destruct (relative_to f root_dir) as [rel | e] eqn:E.
    + left. intros g [<- | Hg]; [now exists rel | now apply IH].
    + right. exists f. split; [now left |]. now rewrite <- (relative_to_raises _ _ E).
  - right. exists g. split; [now right | exact Hg].
Qed.

(** The rendering depends on the set of files only, not on their order or
    on repetitions in the list. *)
Lemma generate_tree_view_set (root_dir : Path) (files1 files2 : list Path) :
  (forall f, In f files1 <-> In f files2) ->
  generate_tree_view root_dir files1 = generate_tree_view root_dir files2.
Proof.
  intros Hset. unfold generate_tree_view.
  destruct (all_or_one_outside root_dir files1) as [Hall | (g & Hin & Hg)].
  - destruct (build_tree_returns root_dir files1 (Node []) Hall)
      as (t1 & -> & Hd1 & Hp1).
    destruct (build_tree_returns root_dir files2 (Node []))
      as (t2 & -> & Hd2 & Hp2).
    { intros f Hf. apply Hall. now apply Hset. }
    assert (build_tree_lines t1 "" = build_tree_lines t2 "") as E.
    { apply build_tree_lines_ext.
      - apply Hd1. repeat constructor.
      - apply Hd2. repeat constructor.
      - intros p. rewrite Hp1, Hp2. f_equal.
        apply eq_true_iff_eq. rewrite !existsb_exists.
        split; intros (f & Hf & H); exists f; (split; [now apply Hset | exact H]). }
    unfold bind. now rewrite E.
  - rewrite (build_tree_raises root_dir files1 (Node [])) by now exists g.
    rewrite (build_tree_raises root_dir files2 (Node [])); [reflexivity |].
    exists g. split; [now apply Hset | exact Hg].
Qed.

Lemma sorted_keys {A : Type} (l : list (string * A)) :
  StronglySorted key_le l -> StronglySorted string_le (map fst l).
Proof.
  induction 1 as [| x l Hl IH Hx]; simpl; constructor.
  - exact IH.
  - rewrite Forall_map. exact Hx.
Qed.

Lemma generate_tree_view_returns (root_dir : Path) (rels : list Path) :
  exists tree,
    build_tree root_dir (map (app root_dir) rels) (Node []) = Ok tree
    /\ generate_tree_view root_dir (map (app root_dir) rels)
       = Ok (Py.join LF ((name root_dir ++ "/")%string :: build_tree_lines tree "")).
Proof.
  destruct (build_tree_returns root_dir (map (app root_dir) rels) (Node []))
    as (tree & Hrun & _).
  - intros f Hf. apply in_map_iff in Hf as (rel & <- & _).
    exists rel. apply relative_to_app.
  - exists tree. split; [exact Hrun |].
    unfold generate_tree_view. now rewrite Hrun.
Qed.

(** C9. Tree rendering is deterministic: the text is a function of the root
    and of the set of files, whatever their order in the list.  The first
    line is the root's name followed by a slash; on every level the
    siblings, files and directories alike, come in the lexicographic
    (byte-wise, hence case-sensitive) order of their names, each on a line
    made of the prefix, the connector [├── ], or [└── ] for the last
    sibling, and the name, followed by the lines of what lies below it under
    the prefix continued by [│   ], or by four spaces below a last sibling.
    The files [src/main.py] and [config.json] under the root [proj] render
    as the four lines of the specification. *)
Theorem tree_rendering_is_deterministic_and_sorted :
  (forall root_dir files1 files2,
      (forall f, In f files1 <-> In f files2) ->
      generate_tree_view root_dir files1 = generate_tree_view root_dir files2)
  /\ (forall root_dir rels,
         exists tree,
           build_tree root_dir (map (app root_dir) rels) (Node []) = Ok tree
           /\ generate_tree_view root_dir (map (app root_dir) rels)
              = Ok (Py.join LF ((name root_dir ++ "/")%string
                                  :: build_tree_lines tree "")))
  /\ (forall entries prefix,
         build_tree_lines (Node entries) prefix
         = render_siblings prefix (sort_by_key entries)
         /\ Permutation entries (sort_by_key entries)
         /\ StronglySorted string_le (map fst (sort_by_key entries)))
  /\ (forall prefix name below,
         render_siblings prefix [(name, below)]
         = (prefix ++ "└── " ++ name)%string
             :: build_tree_lines below (prefix ++ "    ")%string)
  /\ (forall prefix name below next rest,
         render_siblings prefix ((name, below) :: next :: rest)
         = ((prefix ++ "├── " ++ name)%string
              :: build_tree_lines below (prefix ++ "│   ")%string)
           ++ render_siblings prefix (next :: rest))
  /\ sorted ["b"; "a"; "B"; "ab"] = ["B"; "a"; "ab"; "b"]
  /\ generate_tree_view ["tmp"; "proj"]
       [["tmp"; "proj"; "src"; "main.py"]; ["tmp"; "proj"; "config.json"]]
     = Ok ("proj/" ++ LF ++ "├── config.json" ++ LF ++ "└── src" ++ LF
           ++ "    └── main.py")%string.
Proof.
  split; [exact generate_tree_view_set |].
  split; [exact generate_tree_view_returns |].
  split.
  { intros entries prefix. split; [apply build_tree_lines_eq |].
    split; [apply sort_by_key_perm | apply sorted_keys, sort_by_key_sorted]. }
  split.
  { intros prefix k below. simpl. now rewrite app_nil_r. }
  split; [reflexivity |].
  split; reflexivity.
Qed.

Lemma tree_rendering_is_deterministic_and_sorted_witness :
  generate_tree_view Example.root [Run.main_py; Run.config_json]
  = generate_tree_view Example.root [Run.config_json; Run.main_py; Run.config_json].
Proof.
  apply (proj1 tree_rendering_is_deterministic_and_sorted).
  intros f. simpl. tauto.
Defined.

(** ** Context Assembler *)

(** *** The loop body, case by case *)

Section LoopBody.

Variable fs : FileSystem.
Variable sha256_text : string -> string.
Variable root_dir : Path.
Variable secrets_report : SecretsReport.
Variable counter : string -> Z.
Variable max_tokens : option Z.
Variable warn_tokens : option Z.

(** A file whose read raises leaves every variable of the assembler as it
    was; only the handler's message is printed. *)
Lemma process_file_unreadable (_count : option (string -> Z)) (st : Assembler)
    (file_path : Path) :
  read_text fs file_path = None ->
  process_file fs sha256_text root_dir secrets_report _count max_tokens
               warn_tokens st file_path
  = echo (ErrorReading file_path) st.
Proof.
  intros Hread. unfold process_file, error_reading. rewrite Hread.
  now destruct (relative_to file_path root_dir).
Qed.

(** What was printed never decides what is assembled. *)
Lemma process_file_silent (_count : option (string -> Z)) (st : Assembler)
    (file_path : Path) :
  silent (process_file fs sha256_text root_dir secrets_report _count max_tokens
                       warn_tokens st file_path)
  = silent (process_file fs sha256_text root_dir secrets_report _count max_tokens
                         warn_tokens (silent st) file_path).
Proof.
  unfold process_file, error_reading.
  destruct (relative_to file_path root_dir) as [rel |]; [| reflexivity].
  destruct (read_text fs file_path) as [text |]; [| reflexivity].
  destruct (call_count _count _) as [tokens |]; [| reflexivity].
  destruct (truthy max_tokens && (tokens >? value max_tokens)%Z);
    cbn [echo silent current_token_count];
    destruct (must_split max_tokens (current_token_count st) tokens);
    destruct (st_size fs file_path); try reflexivity;
    unfold check_warn; cbn;
    destruct (truthy warn_tokens && _ && _); reflexivity.
Qed.

Lemma process_files_silent (_count : option (string -> Z)) (files : list Path) :
  forall st st',
    silent st = silent st' ->
    silent (process_files fs sha256_text root_dir secrets_report _count max_tokens
                          warn_tokens st files)
    = silent (process_files fs sha256_text root_dir secrets_report _count
                            max_tokens warn_tokens st' files).
Proof.
  induction files as [| f files IH]; intros st st' E; simpl; [exact E |].
  apply IH. rewrite process_file_silent, E, <- process_file_silent. reflexivity.
Qed.

(** The entries held grow by the entry of the file, if it gets through. *)
Lemma process_file_entries (st : Assembler) (file_path : Path) :
  held_entries (process_file fs sha256_text root_dir secrets_report (Some counter)
                             max_tokens warn_tokens st file_path)
  = held_entries st
    ++ entry_list (file_entry fs sha256_text secrets_report counter root_dir file_path).
Proof.
  unfold process_file, error_reading, file_entry, held_entries, all_entries.
  destruct (relative_to file_path root_dir) as [rel |]; simpl;
    [| now rewrite app_nil_r].
  destruct (read_text fs file_path) as [text |]; simpl; [| now rewrite app_nil_r].
  set (tokens := counter _).
  destruct (truthy max_tokens && (tokens >? value max_tokens)%Z);
    cbn [echo current_token_count];
    destruct (must_split max_tokens (current_token_count st) tokens);
    destruct (st_size fs file_path); simpl; rewrite ?app_nil_r;
    try reflexivity;
    unfold check_warn; cbn;
    try (destruct (truthy warn_tokens && _ && _));
    cbn; rewrite ?map_app, ?concat_app; cbn; rewrite ?app_nil_r, <- ?app_assoc;
    reflexivity.
Qed.

Lemma process_files_entries (files : list Path) (st : Assembler) :
  held_entries (process_files fs sha256_text root_dir secrets_report (Some counter)
                              max_tokens warn_tokens st files)
  = held_entries st
    ++ flat_map (fun f => entry_list (file_entry fs sha256_text secrets_report
                                                 counter root_dir f)) files.
Proof.
  revert st. induction files as [| f files IH]; intros st; simpl.
  - now rewrite app_nil_r.
  - rewrite IH, process_file_entries. now rewrite <- app_assoc.
Qed.

End LoopBody.

(** *** The run as a whole *)

Lemma append_nonempty (a b : string) : b <> "" -> (a ++ b)%string <> "".
Proof. destruct a; [trivial | discriminate]. Qed.

Lemma preliminary_text_nonempty (prompt_no_header : bool) (tree_view : string) :
  (preliminary_text prompt_no_header tree_view =? "")%string = false.
Proof.
  apply String.eqb_neq. unfold preliminary_text.
  do 2 apply append_nonempty. discriminate.
Qed.

(** [generate_context] raises exactly when [_count] was left unbound, and
    otherwise returns the lists of its final state. *)
Lemma generate_context_unfold (fs : FileSystem) (sha256_text : string -> string)
    (get_encoding : option Encoding) (root_dir : Path) (filtered_files : list Path)
    (secrets_report : SecretsReport) (count_tokens : bool)
    (max_tokens warn_tokens : option Z) (prompt_no_header : bool)
    (tree_view : string) :
  generate_context fs sha256_text get_encoding root_dir filtered_files secrets_report
                   count_tokens max_tokens warn_tokens prompt_no_header tree_view
  = match bind_count get_encoding count_tokens with
    | (printed, Some counter) =>
        let st := final_state fs sha256_text root_dir secrets_report counter
                              max_tokens warn_tokens printed filtered_files
                              prompt_no_header tree_view in
        (console st, Ok (context_parts st, token_counts st, parts_meta st))
    | (printed, None) => (printed, Raise UnboundLocalError)
    end.
Proof.
  unfold generate_context, assemble, write_preliminary, final_state.
  rewrite preliminary_text_nonempty.
  destruct (bind_count get_encoding count_tokens) as [printed [counter |]];
    reflexivity.
Qed.

Lemma bind_count_bound (get_encoding : option Encoding) (count_tokens : bool)
    (printed : list Message) (counter : string -> Z) :
  bind_count get_encoding count_tokens = (printed, Some counter) ->
  printed = []
  /\ (count_tokens = true /\ get_encoding = Some counter
      \/ count_tokens = false /\ counter = fun _ => 0%Z).
Proof.
  unfold bind_count. destruct count_tokens; [destruct get_encoding |];
    intros [= <- <-]; auto.
Qed.

Lemma bind_count_unbound (get_encoding : option Encoding) (count_tokens : bool)
    (printed : list Message) :
  bind_count get_encoding count_tokens = (printed, None) ->
  count_tokens = true /\ get_encoding = None /\ printed = [ErrorInitializingTiktoken].
Proof.
  unfold bind_count. destruct count_tokens; [destruct get_encoding |];
    intros [= <-]; auto.
Qed.

(** *** Closing *)

Lemma close_appends (st : Assembler) :
  context_parts (close st)
  = context_parts st ++ [(current_part_builder st ++ CLOSE_SENTINEL)%string]
  /\ token_counts (close st) = token_counts st ++ [current_token_count st]
  /\ parts_meta (close st)
     = parts_meta st ++ [{| files := current_part_files_meta st |}]
  /\ console (close st) = console st.
Proof.
  unfold close.
  destruct (0 <? String.length (current_part_builder st ++ CLOSE_SENTINEL))%nat eqn:E.
  - repeat split.
  - exfalso. apply Nat.ltb_ge in E.
    destruct (current_part_builder st); simpl in E; lia.
Qed.

Lemma all_entries_app (a b : list PartMeta) :
  all_entries (a ++ b) = all_entries a ++ all_entries b.
Proof. unfold all_entries. now rewrite map_app, concat_app. Qed.

Lemma close_entries (st : Assembler) :
  all_entries (parts_meta (close st)) = held_entries st.
Proof.
  destruct (close_appends st) as (_ & _ & -> & _).
  rewrite all_entries_app. unfold held_entries, all_entries. simpl.
  now rewrite app_nil_r.
Qed.

(** Every entry of a run: the header entry, then one entry per file that got
    through, in the order of the input list. *)
Lemma final_state_entries (fs : FileSystem) (sha256_text : string -> string)
    (root_dir : Path) (secrets_report : SecretsReport) (counter : string -> Z)
    (max_tokens warn_tokens : option Z) (printed : list Message)
    (filtered_files : list Path) (prompt_no_header : bool) (tree_view : string) :
  all_entries (parts_meta (final_state fs sha256_text root_dir secrets_report counter
                             max_tokens warn_tokens printed filtered_files
                             prompt_no_header tree_view))
  = header_entry sha256_text counter (preliminary_text prompt_no_header tree_view)
    :: flat_map (fun f => entry_list (file_entry fs sha256_text secrets_report
                                                 counter root_dir f))
                filtered_files.
Proof.
  unfold final_state. rewrite close_entries.
  rewrite process_files_entries. reflexivity.
Qed.

(** *** A file that gets through *)

Lemma check_warn_keeps (warn_tokens : option Z) (st : Assembler) :
  context_parts (check_warn warn_tokens st) = context_parts st
  /\ token_counts (check_warn warn_tokens st) = token_counts st
  /\ parts_meta (check_warn warn_tokens st) = parts_meta st
  /\ current_part_builder (check_warn warn_tokens st) = current_part_builder st
  /\ current_token_count (check_warn warn_tokens st) = current_token_count st
  /\ current_part_files_meta (check_warn warn_tokens st) = current_part_files_meta st.
Proof. unfold check_warn. destruct (truthy warn_tokens && _ && _); repeat split. Qed.

Lemma file_entry_block (fs : FileSystem) (sha256_text : string -> string)
    (secrets_report : SecretsReport) (counter : string -> Z)
    (root_dir file_path : Path) (m : FileMeta) :
  file_entry fs sha256_text secrets_report counter root_dir file_path = Some m ->
  exists block,
    file_block_of fs root_dir file_path = Some block
    /\ estimated_tokens m = counter block
    /\ block <> ""
    /\ path m = relative_posix root_dir file_path
    /\ potential_secrets m = report_get secrets_report (relative_posix root_dir file_path).
Proof.
  unfold file_entry, file_block_of, relative_posix.
  destruct (relative_to file_path root_dir) as [rel |]; [| discriminate].
  destruct (read_text fs file_path) as [text |]; [| discriminate].
  destruct (st_size fs file_path) as [size |]; [| discriminate].
  intros [= <-]. eexists. split; [reflexivity |]. repeat split. discriminate.
Qed.

Section FileThrough.

Variable fs : FileSystem.
Variable sha256_text : string -> string.
Variable root_dir : Path.
Variable secrets_report : SecretsReport.
Variable counter : string -> Z.
Variable max_tokens : option Z.
Variable warn_tokens : option Z.

(** The part is closed first exactly when [must_split] says so; then the
    block, its cost and its entry join the current part. *)
Lemma process_file_through (st : Assembler) (file_path : Path) (m : FileMeta)
    (block : string) :
  file_entry fs sha256_text secrets_report counter root_dir file_path = Some m ->
  file_block_of fs root_dir file_path = Some block ->
  let st' := process_file fs sha256_text root_dir secrets_report (Some counter)
                          max_tokens warn_tokens st file_path in
  let split := must_split max_tokens (current_token_count st) (estimated_tokens m) in
  context_parts st'
    = (if split then context_parts st ++ [current_part_builder st]
       else context_parts st)
  /\ token_counts st'
     = (if split then token_counts st ++ [current_token_count st]
        else token_counts st)
  /\ parts_meta st'
     = (if split then parts_meta st ++ [{| files := current_part_files_meta st |}]
        else parts_meta st)
  /\ current_part_builder st'
     = ((if split then "" else current_part_builder st) ++ block)%string
  /\ current_token_count st'
     = ((if split then 0 else current_token_count st) + estimated_tokens m)%Z
  /\ current_part_files_meta st'
     = (if split then [] else current_part_files_meta st) ++ [m].
Proof.
  unfold file_entry, file_block_of, process_file.
  destruct (relative_to file_path root_dir) as [rel |]; [| discriminate].
  destruct (read_text fs file_path) as [text |]; [| discriminate].
  destruct (st_size fs file_path) as [size |]; [| discriminate].
  intros [= <-] [= <-]. cbn [call_count estimated_tokens].
  set (tokens := counter _).
  destruct (truthy max_tokens && (tokens >? value max_tokens)%Z);
    cbn [echo current_token_count];
    destruct (must_split max_tokens (current_token_count st) tokens);
    match goal with
    | |- context [check_warn ?w ?s] =>
        destruct (check_warn_keeps w s) as (-> & -> & -> & -> & -> & ->)
    end; repeat split.
Qed.

End FileThrough.

(** *** A file that cannot be read *)

Lemma close_silent (st st' : Assembler) :
  silent st = silent st' ->
  context_parts (close st) = context_parts (close st')
  /\ token_counts (close st) = token_counts (close st')
  /\ parts_meta (close st) = parts_meta (close st').
Proof.
  intros E.
  destruct (close_appends st) as (-> & -> & -> & _).
  destruct (close_appends st') as (-> & -> & -> & _).
  change (context_parts st) with (context_parts (silent st)).
  change (token_counts st) with (token_counts (silent st)).
  change (parts_meta st) with (parts_meta (silent st)).
  change (current_part_builder st) with (current_part_builder (silent st)).
  change (current_token_count st) with (current_token_count (silent st)).
  change (current_part_files_meta st) with (current_part_files_meta (silent st)).
  rewrite E. repeat split.
Qed.

Section ConsoleGrows.

Variable fs : FileSystem.
Variable sha256_text : string -> string.
Variable root_dir : Path.
Variable secrets_report : SecretsReport.
Variable _count : option (string -> Z).
Variable max_tokens : option Z.
Variable warn_tokens : option Z.

Lemma process_file_console (st : Assembler) (file_path : Path) (m : Message) :
  In m (console st) ->
  In m (console (process_file fs sha256_text root_dir secrets_report _count
                              max_tokens warn_tokens st file_path)).
Proof.
  intros Hin. unfold process_file, error_reading.
  destruct (relative_to file_path root_dir) as [rel |];
    [| simpl; apply in_or_app; now left].
  destruct (read_text fs file_path) as [text |];
    [| simpl; apply in_or_app; now left].
  destruct (call_count _count _) as [tokens |];
    [| simpl; apply in_or_app; now left].
  destruct (truthy max_tokens && (tokens >? value max_tokens)%Z);
    cbn [echo current_token_count];
    destruct (must_split max_tokens (current_token_count st) tokens);
    destruct (st_size fs file_path);
    unfold check_warn; cbn;
    try (destruct (truthy warn_tokens && _ && _)); cbn;
    repeat (apply in_or_app; left); exact Hin.
Qed.

Lemma process_files_console (files : list Path) (st : Assembler) (m : Message) :
  In m (console st) ->
  In m (console (process_files fs sha256_text root_dir secrets_report _count
                               max_tokens warn_tokens st files)).
Proof.
  revert st. induction files as [| f files IH]; intros st Hin; simpl.
  - exact Hin.
  - apply IH. now apply process_file_console.
Qed.

End ConsoleGrows.

(** C8. A file whose read raises is skipped entirely: the loop body leaves
    the buffers, the token counts and the metadata lists exactly as they
    were and prints the non-fatal [Error reading] warning; the lists
    [generate_context] returns are those it returns for the input list
    without that file, and whenever it returns the warning is among what it
    printed. *)
Theorem unreadable_file_is_skipped_with_a_warning :
  forall (fs : FileSystem) (sha256_text : string -> string)
         (get_encoding : option Encoding) (root_dir : Path)
         (secrets_report : SecretsReport) (count_tokens : bool)
         (max_tokens warn_tokens : option Z) (prompt_no_header : bool)
         (tree_view : string) (before after : list Path) (file_path : Path),
    read_text fs file_path = None ->
    let run files :=
      generate_context fs sha256_text get_encoding root_dir files secrets_report
                       count_tokens max_tokens warn_tokens prompt_no_header
                       tree_view in
    (forall _count st,
        process_file fs sha256_text root_dir secrets_report _count max_tokens
                     warn_tokens st file_path
        = echo (ErrorReading file_path) st)
    /\ snd (run (before ++ file_path :: after)) = snd (run (before ++ after))
    /\ (forall returned,
           snd (run (before ++ file_path :: after)) = Ok returned ->
           In (ErrorReading file_path) (fst (run (before ++ file_path :: after)))).
Proof.
  intros fs sha enc root report ct max warn nh tv before after f Hread run.
  split; [intros; now apply process_file_unreadable |].
  unfold run. rewrite !generate_context_unfold.
  destruct (bind_count enc ct) as [printed [counter |]];
    [| split; [reflexivity | discriminate]].
  cbn [fst snd]. unfold final_state, process_files.
  rewrite !fold_left_app. cbn [fold_left].
  rewrite process_file_unreadable by exact Hread.
  split.
  - match goal with
    | |- Ok (context_parts (close ?a), _, _) = Ok (context_parts (close ?b), _, _) =>
        destruct (@close_silent a b) as (-> & -> & ->); [| reflexivity]
    end.
    apply process_files_silent.
    change (silent (echo (ErrorReading f) ?s)) with (silent s).
    apply process_files_silent. reflexivity.
  - intros _ _.
    destruct (close_appends
                (fold_left
                   (process_file fs sha root report (Some counter) max warn) after
                   (echo (ErrorReading f)
                      (fold_left
                         (process_file fs sha root report (Some counter) max warn)
                         before
                         (echo (FoundFilesToInclude
                                  (List.length (before ++ f :: after)))
                            (insert_block
                               (header_entry sha counter (preliminary_text nh tv))
                               (preliminary_text nh tv)
                               (counter (preliminary_text nh tv))
                               (initial printed)))))))
      as (_ & _ & _ & ->).
    apply (process_files_console fs sha root report (Some counter) max warn after).
    simpl. apply in_or_app. right. now left.
Qed.

Lemma unreadable_file_is_skipped_with_a_warning_witness :
  snd (generate_context Example.fs Run.digest (Some Run.fifteen) Example.root
         ([Run.main_py] ++ Run.ghost_py :: [Run.utils_js]) [] true (Some 20%Z)
         None true "")
  = snd (generate_context Example.fs Run.digest (Some Run.fifteen) Example.root
           ([Run.main_py] ++ [Run.utils_js]) [] true (Some 20%Z) None true "").
Proof.
  refine (proj1 (proj2 (unreadable_file_is_skipped_with_a_warning
                          Example.fs Run.digest (Some Run.fifteen) Example.root
                          [] true (Some 20%Z) None true ""
                          [Run.main_py] [Run.utils_js] Run.ghost_py _))).
  reflexivity.
Defined.

(** *** Token counting when the encoder cannot be set up *)

Lemma delivers_say (ms : list Message) : filter delivers (say ms) = [].
Proof. induction ms as [| m ms IH]; [reflexivity | exact IH]. Qed.

Lemma filter_delivers_app (a b : list Effect) :
  filter delivers (a ++ b) = filter delivers a ++ filter delivers b.
Proof. apply filter_app. Qed.

(** With token counting on and no encoder the command delivers nothing,
    whatever the project holds. *)
Lemma cli_delivers_nothing_without_encoder (w : World) (root_dir : Path) (o : Options) :
  world_get_encoding w = None -> opt_count_tokens o = true ->
  filter delivers (fst (cli w root_dir o)) = [].
Proof.
  intros Henc Hcount. unfold cli. cbv zeta.
  set (out := Say (Starting _) :: _).
  assert (filter delivers out = []) as Hout by apply (delivers_say (_ :: _)).
  clearbody out.
  destruct (selected_files w _ o) as [[| f files] | e]; cbn [fst].
  - now rewrite filter_delivers_app, Hout.
  - destruct (checkSecurityIssue _ _) as [report scanned].
    destruct (if opt_tree o || opt_tree_only o then _ else _) as [tree_view | e];
      cbn [fst].
    + destruct (opt_tree_only o); cbn [fst].
      * now rewrite !filter_delivers_app, Hout, delivers_say.
      * rewrite generate_context_unfold, Henc, Hcount. cbn.
        now rewrite !filter_delivers_app, Hout, delivers_say.
    + now rewrite filter_delivers_app, Hout, delivers_say.
  - exact Hout.
Qed.

(** C1 (what the code does). With token counting enabled and an encoder
    that fails to initialize, [generate_context] prints the error and then
    raises [UnboundLocalError] at its first call of [_count]: no token count
    is reported and nothing is returned; the command ends with that
    exception and writes no file.  The earlier module of the repository
    binds the zero-cost fallback in the same handler and completes with all
    counts zero. *)
Theorem encoder_failure_aborts_the_run :
  (forall fs sha256_text root_dir filtered_files secrets_report max_tokens
          warn_tokens prompt_no_header tree_view,
      generate_context fs sha256_text None root_dir filtered_files secrets_report
                       true max_tokens warn_tokens prompt_no_header tree_view
      = ([ErrorInitializingTiktoken], Raise UnboundLocalError))
  /\ snd (cli (Run.world None) Example.root (Run.options true None))
     = Raise UnboundLocalError
  /\ filter delivers (fst (cli (Run.world None) Example.root (Run.options true None)))
     = []
  /\ snd (cli (Run.world None) Example.root (Run.options false None)) = Ok tt
  /\ snd (Legacy.bind_count None true) "any text" = 0%Z
  /\ Legacy.generate_context Example.fs None Example.root [Run.main_py]
                             true None None true false
     = ([ErrorInitializingTiktoken; FoundFilesToInclude 1],
        Ok ([("--- FILE: src/main.py ---" ++ LF ++ LF ++ Run.hello ++ LF ++ LF)%string],
            [0%Z])).
Proof.
  split.
  { intros. now rewrite generate_context_unfold. }
  repeat split; vm_compute; reflexivity.
Qed.

(** *** Runs on one and on two files *)

Lemma must_split_at_zero (max_tokens : option Z) (block_tokens : Z) :
  must_split max_tokens 0 block_tokens = false.
Proof. unfold must_split. apply andb_false_r. Qed.

(** C3 (amended). A single file [src/main.py] holding [print('hello')],
    assembled with the header suppressed, no tree and token counting off,
    gives exactly one part: the opening sentinel line, the block made of an
    empty line, the line [--- FILE: src/main.py ---], the raw content and a
    line end, then the closing sentinel line; its token count is zero and
    its metadata holds the header entry and the entry of the file. *)
Theorem single_file_part_is_the_block_between_sentinels :
  forall (fs : FileSystem) (sha256_text : string -> string)
         (get_encoding : option Encoding) (root_dir : Path)
         (secrets_report : SecretsReport) (max_tokens warn_tokens : option Z)
         (size : Z),
    read_text fs (root_dir ++ ["src"; "main.py"]) = Some "print('hello')" ->
    st_size fs (root_dir ++ ["src"; "main.py"]) = Some size ->
    snd (generate_context fs sha256_text get_encoding root_dir
           [root_dir ++ ["src"; "main.py"]] secrets_report false
           max_tokens warn_tokens true "")
    = Ok ([("<<<" ++ LF
            ++ LF ++ "--- FILE: src/main.py ---" ++ LF ++ "print('hello')" ++ LF
            ++ ">>>" ++ LF)%string],
          [0%Z],
          [{| files :=
                [ header_entry sha256_text (fun _ => 0%Z) OPEN_SENTINEL;
                  {| path := "src/main.py";
                     size_bytes := size;
                     sha256 := sha256_text "print('hello')";
                     estimated_tokens := 0;
                     potential_secrets := report_get secrets_report "src/main.py";
                     content := Some "print('hello')" |} ] |}]).
Proof.
  intros fs sha enc root report max warn size Hread Hsize.
  rewrite generate_context_unfold. cbn [bind_count snd].
  unfold final_state, process_files. cbn [fold_left].
  match goal with
  | |- context [process_file _ _ _ _ _ _ _ ?st0 ?f] =>
      edestruct (process_file_through fs sha root report (fun _ => 0%Z) max warn st0 f)
        as (E1 & E2 & E3 & E4 & E5 & E6)
  end.
  { unfold file_entry. rewrite relative_to_app, Hread, Hsize. reflexivity. }
  { unfold file_block_of. rewrite relative_to_app, Hread. reflexivity. }
  match goal with
  | |- context [close ?st] => destruct (close_appends st) as (-> & -> & -> & _)
  end.
  rewrite E1, E2, E3, E4, E5, E6. cbn.
  rewrite must_split_at_zero. reflexivity.
Qed.

Lemma single_file_part_is_the_block_between_sentinels_witness :
  snd (generate_context Example.fs Run.digest None Example.root
         [Example.root ++ ["src"; "main.py"]] [] false None None true "")
  = Ok ([("<<<" ++ LF
          ++ LF ++ "--- FILE: src/main.py ---" ++ LF ++ "print('hello')" ++ LF
          ++ ">>>" ++ LF)%string],
        [0%Z],
        [{| files :=
              [ header_entry Run.digest (fun _ => 0%Z) OPEN_SENTINEL;
                {| path := "src/main.py";
                   size_bytes := 14;
                   sha256 := Run.digest "print('hello')";
                   estimated_tokens := 0;
                   potential_secrets := [];
                   content := Some "print('hello')" |} ] |}]).
Proof.
  apply (single_file_part_is_the_block_between_sentinels
           Example.fs Run.digest None Example.root [] None None (size := 14));
    reflexivity.
Defined.

(** The text C3 states is not what the single-file run returns. *)
Lemma single_file_part_is_not_the_bare_block :
  exists parts counts metas,
    snd (generate_context Example.fs Run.digest None Example.root [Run.main_py]
           [] false None None true "")
    = Ok (parts, counts, metas)
    /\ parts <> [("--- FILE: src/main.py ---" ++ LF ++ LF
                  ++ "print('hello')" ++ LF ++ LF)%string].
Proof.
  do 3 eexists. split; [vm_compute; reflexivity | discriminate].
Qed.

(** The earlier module does return the bare block. *)
Lemma legacy_single_file_part_is_the_bare_block :
  snd (Legacy.generate_context Example.fs None Example.root [Run.main_py]
         false None None true false)
  = Ok ([("--- FILE: src/main.py ---" ++ LF ++ LF
          ++ "print('hello')" ++ LF ++ LF)%string], [0%Z]).
Proof. vm_compute. reflexivity. Qed.

(** C5 (amended). With the stubbed counter that gives 15 tokens for every
    text and a budget of 20, two files that get through produce exactly
    three parts of 15 tokens each: the first holds only the header entry
    (the preamble with the opening sentinel), the second exactly the first
    file, the third exactly the second file and the closing sentinel. *)
Theorem two_files_under_budget_20_make_three_parts :
  forall (fs : FileSystem) (sha256_text : string -> string) (root_dir : Path)
         (secrets_report : SecretsReport) (warn_tokens : option Z)
         (prompt_no_header : bool) (tree_view : string)
         (file1 file2 : Path) (m1 m2 : FileMeta) (block1 block2 : string),
    let stub : Encoding := fun _ => 15%Z in
    file_entry fs sha256_text secrets_report stub root_dir file1 = Some m1 ->
    file_entry fs sha256_text secrets_report stub root_dir file2 = Some m2 ->
    file_block_of fs root_dir file1 = Some block1 ->
    file_block_of fs root_dir file2 = Some block2 ->
    snd (generate_context fs sha256_text (Some stub) root_dir [file1; file2]
           secrets_report true (Some 20%Z) warn_tokens prompt_no_header tree_view)
    = Ok ([ preliminary_text prompt_no_header tree_view;
            block1;
            (block2 ++ CLOSE_SENTINEL)%string ],
          [15%Z; 15%Z; 15%Z],
          [ {| files := [header_entry sha256_text stub
                           (preliminary_text prompt_no_header tree_view)] |};
            {| files := [m1] |};
            {| files := [m2] |} ]).
Proof.
  intros fs sha root report warn nh tv f1 f2 m1 m2 b1 b2 stub H1 H2 B1 B2.
  pose (cnt := fun _ : string => 15%Z).
  change stub with cnt in *. clear stub.
  destruct (file_entry_block _ _ _ _ _ _ H1) as (b1' & B1' & T1 & _).
  destruct (file_entry_block _ _ _ _ _ _ H2) as (b2' & B2' & T2 & _).
  rewrite generate_context_unfold. cbn [bind_count snd].
  unfold final_state, process_files. cbn [fold_left].
  match goal with
  | |- context [process_file _ _ _ _ _ _ _ (process_file _ _ _ _ _ _ _ ?st0 _) _] =>
      destruct (process_file_through fs sha root report cnt (Some 20%Z) warn
                  st0 f1 H1 B1) as (E1 & E2 & E3 & E4 & E5 & E6);
      destruct (process_file_through fs sha root report cnt (Some 20%Z) warn
                  (process_file fs sha root report (Some cnt) (Some 20%Z) warn st0 f1)
                  f2 H2 B2) as (F1 & F2 & F3 & F4 & F5 & F6)
  end.
  match goal with
  | |- context [close ?st] => destruct (close_appends st) as (-> & -> & -> & _)
  end.
  rewrite F1, F2, F3, F4, F5, F6, E1, E2, E3, E4, E5, E6, T1, T2.
  reflexivity.
Qed.

Lemma two_files_under_budget_20_make_three_parts_witness :
  exists first second third,
    snd (generate_context Example.fs Run.digest (Some Run.fifteen) Example.root
           [Run.main_py; Run.utils_js] [] true (Some 20%Z) None true "")
    = Ok ([first; second; third], [15%Z; 15%Z; 15%Z],
          [ {| files := [header_entry Run.digest Run.fifteen OPEN_SENTINEL] |};
            {| files := [{| path := "src/main.py"; size_bytes := 14;
                            sha256 := ""; estimated_tokens := 15;
                            potential_secrets := [];
                            content := Some "print('hello')" |}] |};
            {| files := [{| path := "src/utils.js"; size_bytes := 21;
                            sha256 := ""; estimated_tokens := 15;
                            potential_secrets := [];
                            content := Some "console.log('hello');" |}] |} ]).
Proof.
  do 3 eexists.
  apply (two_files_under_budget_20_make_three_parts
           Example.fs Run.digest Example.root [] None true ""
           Run.main_py Run.utils_js); reflexivity.
Defined.

(** The two-file run of C5 does not give two parts. *)
Lemma two_files_under_budget_20_do_not_make_two_parts :
  exists parts counts metas,
    snd (generate_context Example.fs Run.digest (Some Run.fifteen) Example.root
           [Run.main_py; Run.utils_js] [] true (Some 20%Z) None true "")
    = Ok (parts, counts, metas)
    /\ List.length parts <> 2
    /\ nth_error (map file_blocks metas) 0 = Some [].
Proof.
  do 3 eexists. split; [vm_compute; reflexivity |].
  split; [discriminate | reflexivity].
Qed.

(** The earlier module, which has no sentinel, splits the two files into
    two parts under the same stub and budget. *)
Lemma legacy_two_files_under_budget_20_make_two_parts :
  exists first second,
    snd (Legacy.generate_context Example.fs (Some Run.fifteen) Example.root
           [Run.main_py; Run.utils_js] true (Some 20%Z) None true false)
    = Ok ([first; second], [15%Z; 15%Z]).
Proof. do 2 eexists. vm_compute. reflexivity. Qed.

(** ** Secret Scanner Adapter *)

(** What the assembler records for a file is what the report holds under the
    file's root-relative POSIX path. *)
Lemma recorded_secrets_are_looked_up_by_relative_path
    (fs : FileSystem) (sha256_text : string -> string) (root_dir : Path)
    (secrets_report : SecretsReport) (counter : string -> Z)
    (max_tokens warn_tokens : option Z) (printed : list Message)
    (filtered_files : list Path) (prompt_no_header : bool) (tree_view : string)
    (m : FileMeta) :
  In m (recorded_files
          (parts_meta (final_state fs sha256_text root_dir secrets_report counter
                         max_tokens warn_tokens printed filtered_files
                         prompt_no_header tree_view))) ->
  exists file_path,
    In file_path filtered_files
    /\ path m = relative_posix root_dir file_path
    /\ potential_secrets m = report_get secrets_report (relative_posix root_dir file_path).
Proof.
  unfold recorded_files. rewrite final_state_entries. cbn [tl].
  intros Hin. apply in_flat_map in Hin as (f & Hf & Hm).
  destruct (file_entry fs sha256_text secrets_report counter root_dir f) as [m' |] eqn:E;
    [| destruct Hm].
  destruct Hm as [<- | []].
  destruct (file_entry_block _ _ _ _ _ _ E) as (_ & _ & _ & _ & Hp & Hs).
  now exists f.
Qed.

(** The adapter files the findings under the engine's own keys. *)
Lemma report_file_keys (acc : SecretsReport * list Message)
    (item : string * list Secret) (k : string) :
  In k (map fst (fst (report_file acc item)))
  <-> In k (map fst (fst acc)) \/ k = fst item.
Proof.
  destruct item as [file_path secrets_set]. unfold report_file. cbn [fst].
  set (start := if report_mem (fst acc) file_path then fst acc
                else fst acc ++ [(file_path, [])]).
  assert (forall l msgs (r : SecretsReport),
             map fst (fst (fold_left
               (fun acc0 secret =>
                  (report_append (fst acc0) file_path
                     {| finding_type := secret_kind secret;
                        finding_line := line_number secret |},
                   snd acc0 ++ [PotentialSecret (secret_kind secret) file_path
                                  (line_number secret) (secret_value secret)]))
               l (r, msgs)))
             = map fst r) as Hfold.
  { induction l as [| s l IH]; intros msgs r; simpl; [reflexivity |].
    rewrite IH. clear IH. induction r as [| [k' found] r IHr]; simpl; [reflexivity |].
    destruct (k' =? file_path)%string; simpl; [reflexivity | now rewrite IHr]. }
  rewrite Hfold. subst start.
  assert (report_mem (fst acc) file_path = true <-> In file_path (map fst (fst acc)))
    as Hmem.
  { induction (fst acc) as [| [k' found] r IHr]; simpl; [split; [discriminate | tauto] |].
    rewrite orb_true_iff, IHr, String.eqb_eq. tauto. }
  destruct (report_mem (fst acc) file_path) eqn:E.
  - split; [tauto |]. intros [H | ->]; [exact H | now apply Hmem].
  - rewrite map_app, in_app_iff. simpl. split; [intros [H | [<- | []]]; tauto |].
    intros [H | ->]; tauto.
Qed.

Lemma checkSecurityIssue_keys (scan_files : Classifier) (filtered_files : list Path)
    (k : string) :
  In k (map fst (fst (checkSecurityIssue scan_files filtered_files)))
  <-> exists secrets_found,
        scan_files (map str filtered_files) = Some secrets_found
        /\ In k (map fst secrets_found).
Proof.
  unfold checkSecurityIssue.
  destruct (scan_files (map str filtered_files)) as [found |].
  - assert (forall l acc,
               In k (map fst (fst (fold_left report_file l acc)))
               <-> In k (map fst (fst acc)) \/ In k (map fst l)) as Hfold.
    { induction l as [| item l IH]; intros acc; simpl; [tauto |].
      rewrite IH, report_file_keys. intuition. }
    destruct found as [| item found].
    + simpl. split; [tauto |]. intros (f & [= <-] & []).
    + rewrite Hfold. simpl. split.
      * intros [[] | H]. now exists (item :: found).
      * intros (f & [= <-] & H). now right.
  - simpl. split; [tauto |]. intros (f & [=] & _).
Qed.

(** C2 (what the code does). The adapter scans the files under [str(p)],
    their full paths, and files every finding under the key the engine
    reports, without making it relative to the root.  For the project at
    [/tmp/proj] and an engine that reports one finding in the file it was
    given as [/tmp/proj/src/main.py], the report has the single key
    [/tmp/proj/src/main.py]; the assembler looks [src/main.py] up, finds
    nothing, and records an empty findings list for the file. *)
Theorem findings_filed_under_scanned_path_are_not_recorded :
  let report := fst (checkSecurityIssue Run.engine [Run.main_py]) in
  Run.engine (map str [Run.main_py])
  = Some [("/tmp/proj/src/main.py", [Run.aws_key])]
  /\ report
     = [("/tmp/proj/src/main.py",
         [{| finding_type := "AWS Access Key"; finding_line := 1 |}])]
  /\ relative_posix Example.root Run.main_py = "src/main.py"
  /\ report_get report "src/main.py" = []
  /\ snd (generate_context Example.fs Run.digest None Example.root [Run.main_py]
            report false None None true "")
     = Ok ([("<<<" ++ LF ++ LF ++ "--- FILE: src/main.py ---" ++ LF
             ++ "print('hello')" ++ LF ++ ">>>" ++ LF)%string],
           [0%Z],
           [{| files :=
                 [ header_entry Run.digest (fun _ => 0%Z) OPEN_SENTINEL;
                   {| path := "src/main.py"; size_bytes := 14; sha256 := "";
                      estimated_tokens := 0; potential_secrets := [];
                      content := Some "print('hello')" |} ] |}]).
Proof. repeat split; vm_compute; reflexivity. Qed.

(** ** Splitting under a budget *)

Lemma cost_app (a b : list FileMeta) : cost (a ++ b) = (cost a + cost b)%Z.
Proof. induction a as [| f a IH]; simpl; [reflexivity | rewrite IH; lia]. Qed.

Lemma cost_nonneg (l : list FileMeta) :
  Forall (fun f => (0 <= estimated_tokens f)%Z) l -> (0 <= cost l)%Z.
Proof. induction 1; simpl; lia. Qed.

Lemma cost_zero (l : list FileMeta) :
  Forall (fun f => (0 <= estimated_tokens f)%Z) l -> cost l = 0%Z ->
  Forall (fun f => estimated_tokens f = 0%Z) l.
Proof.
  induction 1 as [| f l Hf Hl IH]; simpl; intros E; constructor.
  - pose proof (cost_nonneg Hl). lia.
  - apply IH. pose proof (cost_nonneg Hl). lia.
Qed.

Lemma must_split_iff (max_tokens count block_tokens : Z) :
  max_tokens <> 0%Z ->
  must_split (Some max_tokens) count block_tokens = true
  <-> (0 < count /\ max_tokens < count + block_tokens)%Z.
Proof.
  intros Hmax. unfold must_split, truthy, value.
  rewrite !andb_true_iff, negb_true_iff, Z.eqb_neq, !Z.gtb_lt. tauto.
Qed.

Lemma combine_snoc {A B : Type} (l : list A) (l' : list B) (a : A) (b : B) :
  List.length l = List.length l' ->
  combine (l ++ [a]) (l' ++ [b]) = combine l l' ++ [(a, b)].
Proof.
  revert l'. induction l as [| x l IH]; intros [| y l']; simpl; try discriminate.
  - reflexivity.
  - intros [= E]. now rewrite IH.
Qed.

Section Budget.

Variable max_tokens : Z.
Hypothesis budget_positive : (0 < max_tokens)%Z.

Lemma initial_budget (printed : list Message) :
  budget_invariant max_tokens (initial printed).
Proof.
  unfold budget_invariant, part_accounted, within_budget_or_single_block. simpl.
  repeat split; try constructor; try lia. congruence.
Qed.

Lemma insert_block_budget (st : Assembler) (m : FileMeta) (block : string) :
  budget_invariant max_tokens st ->
  (0 <= estimated_tokens m)%Z ->
  block <> "" ->
  (current_token_count st = 0
   \/ current_token_count st + estimated_tokens m <= max_tokens)%Z ->
  budget_invariant max_tokens (insert_block m block (estimated_tokens m) st).
Proof.
  intros (L1 & L2 & F & (Hc & Hnn & Hw) & T & Hb) Hm Hblock Hroom.
  unfold budget_invariant. cbn [insert_block context_parts token_counts parts_meta
    current_part_builder current_token_count current_part_files_meta].
  repeat split; try assumption.
  - rewrite cost_app, Hc. simpl. lia.
  - apply Forall_app. split; [assumption | now constructor].
  - unfold within_budget_or_single_block. cbn [files].
    destruct (Z_le_gt_dec (current_token_count st + estimated_tokens m) max_tokens)
      as [Hle | Hgt]; [now left |].
    right. exists (current_part_files_meta st), m.
    assert (current_token_count st = 0%Z) as Hzero by lia.
    repeat split; [| lia | lia].
    apply cost_zero; [assumption | congruence].
  - intros _. now apply append_nonempty.
Qed.

Lemma finalize_budget (limit : option Z) (st : Assembler) :
  budget_invariant max_tokens st ->
  (0 < current_token_count st)%Z ->
  budget_invariant max_tokens (finalize limit st).
Proof.
  intros (L1 & L2 & F & (Hc & Hnn & Hw) & T & Hb) Hpos.
  unfold budget_invariant, finalized. cbn [finalize context_parts token_counts
    parts_meta current_part_builder current_token_count current_part_files_meta].
  rewrite !length_app, L1, L2, combine_snoc by exact L1.
  repeat split; try reflexivity.
  - apply Forall_app. split; [exact F |]. constructor; [| constructor].
    repeat split; assumption.
  - constructor.
  - left. lia.
  - apply Forall_app. split; [exact T |]. constructor; [| constructor].
    apply Hb. intros E. rewrite E in Hc. simpl in Hc. lia.
  - congruence.
Qed.

Section Loop.

Variable fs : FileSystem.
Variable sha256_text : string -> string.
Variable root_dir : Path.
Variable secrets_report : SecretsReport.
Variable counter : string -> Z.
Variable warn_tokens : option Z.
Hypothesis counter_nonneg : forall text, (0 <= counter text)%Z.

Lemma check_warn_budget (st : Assembler) :
  budget_invariant max_tokens st ->
  budget_invariant max_tokens (check_warn warn_tokens st).
Proof.
  unfold check_warn. now destruct (truthy warn_tokens && _ && _).
Qed.

Lemma process_file_budget (st : Assembler) (file_path : Path) :
  budget_invariant max_tokens st ->
  budget_invariant max_tokens
    (process_file fs sha256_text root_dir secrets_report (Some counter)
                  (Some max_tokens) warn_tokens st file_path).
Proof.
  intros Hinv. unfold process_file, error_reading.
  destruct (relative_to file_path root_dir) as [rel |]; [| exact Hinv].
  destruct (read_text fs file_path) as [text |]; [| exact Hinv].
  cbn [call_count]. set (block := (file_header rel ++ text ++ LF)%string).
  set (tokens := counter block).
  set (st1 := if truthy (Some max_tokens) && (tokens >? value (Some max_tokens))%Z
              then echo _ st else st).
  assert (budget_invariant max_tokens st1) as H1.
  { subst st1. destruct (truthy _ && _); exact Hinv. }
  clearbody st1.
  assert (max_tokens <> 0%Z) as Hmax by lia.
  pose proof (must_split_iff (current_token_count st1) tokens Hmax) as Hsplit.
  destruct (must_split (Some max_tokens) (current_token_count st1) tokens) eqn:E.
  - destruct (proj1 Hsplit eq_refl) as [Hpos _].
    pose proof (finalize_budget (Some max_tokens) H1 Hpos) as H2.
    destruct (st_size fs file_path) as [size |]; [| exact H2].
    apply check_warn_budget.
    apply (@insert_block_budget _
             {| path := as_posix rel; size_bytes := size;
                sha256 := sha256_text text; estimated_tokens := tokens;
                potential_secrets := report_get secrets_report (as_posix rel);
                content := Some text |} block H2).
    + apply counter_nonneg.
    + discriminate.
    + now left.
  - destruct (st_size fs file_path) as [size |]; [| exact H1].
    apply check_warn_budget.
    apply (@insert_block_budget _
             {| path := as_posix rel; size_bytes := size;
                sha256 := sha256_text text; estimated_tokens := tokens;
                potential_secrets := report_get secrets_report (as_posix rel);
                content := Some text |} block H1).
    + apply counter_nonneg.
    + discriminate.
    + cbn [estimated_tokens].
      destruct (Z_le_gt_dec (current_token_count st1) 0) as [Hle | Hgt].
      * left. destruct H1 as (_ & _ & _ & (Hc & Hnn & _) & _).
        pose proof (cost_nonneg Hnn). lia.
      * right.
        destruct (Z_le_gt_dec (current_token_count st1 + tokens) max_tokens)
          as [Hfit | Hover]; [exact Hfit |].
        assert (false = true) by (apply Hsplit; lia).
        discriminate.
Qed.

Lemma process_files_budget (filtered_files : list Path) (st : Assembler) :
  budget_invariant max_tokens st ->
  budget_invariant max_tokens
    (process_files fs sha256_text root_dir secrets_report (Some counter)
                   (Some max_tokens) warn_tokens st filtered_files).
Proof.
  revert st. induction filtered_files as [| f rest IH]; intros st Hinv; simpl.
  - exact Hinv.
  - apply IH. now apply process_file_budget.
Qed.

(** The parts of a run under a budget. *)
Lemma final_state_budget (printed : list Message) (filtered_files : list Path)
    (prompt_no_header : bool) (tree_view : string) :
  let st := final_state fs sha256_text root_dir secrets_report counter
                        (Some max_tokens) warn_tokens printed filtered_files
                        prompt_no_header tree_view in
  List.length (token_counts st) = List.length (parts_meta st)
  /\ List.length (context_parts st) = List.length (parts_meta st)
  /\ Forall (fun cp => fst cp = cost (files (snd cp))
                       /\ within_budget_or_single_block max_tokens (fst cp) (snd cp))
            (finalized (token_counts st) (parts_meta st))
  /\ Forall (fun part => part <> "") (context_parts st).
Proof.
  unfold final_state.
  match goal with
  | |- context [close ?s] =>
      assert (budget_invariant max_tokens s) as (L1 & L2 & F & (Hc & Hnn & Hw) & T & _);
      [| destruct (close_appends s) as (-> & -> & -> & _)]
  end.
  - apply process_files_budget.
    change (budget_invariant max_tokens
              (insert_block
                 (header_entry sha256_text counter
                    (preliminary_text prompt_no_header tree_view))
                 (preliminary_text prompt_no_header tree_view)
                 (estimated_tokens
                    (header_entry sha256_text counter
                       (preliminary_text prompt_no_header tree_view)))
                 (initial printed))).
    apply insert_block_budget.
    + apply initial_budget.
    + apply counter_nonneg.
    + apply String.eqb_neq, preliminary_text_nonempty.
    + now left.
  - cbv zeta. unfold finalized in *.
    rewrite !length_app, L1, L2, combine_snoc by exact L1.
    repeat split.
    + apply Forall_app. split.
      * eapply Forall_impl; [| exact F].
        intros [c [part]] (H1 & _ & H3). now split.
      * constructor; [| constructor]. now split.
    + apply Forall_app. split; [exact T |]. constructor; [| constructor].
      apply append_nonempty. discriminate.
Qed.

End Loop.

End Budget.

(** C4 (amended). Under a configured, positive budget the assembler closes
    the current part before it inserts a file block if and only if the
    part's running token count is positive and adding the block's cost would
    exceed the budget.  Consequently, for a token counter that never goes
    below zero, every part returned has a token count that is the sum of
    the costs of its entries and is either at most the budget or the cost of
    one block over the budget, its last, which may be a file block or the
    header block, all earlier blocks of the part costing nothing; and no
    part has an empty text. *)
Theorem budget_split_rule_and_part_bounds :
  forall (fs : FileSystem) (sha256_text : string -> string)
         (get_encoding : option Encoding) (root_dir : Path)
         (secrets_report : SecretsReport) (count_tokens : bool)
         (max_tokens : Z) (warn_tokens : option Z),
    (0 < max_tokens)%Z ->
    (forall counter text, get_encoding = Some counter -> (0 <= counter text)%Z) ->
    (forall count block_tokens,
        must_split (Some max_tokens) count block_tokens = true
        <-> (0 < count /\ max_tokens < count + block_tokens)%Z)
    /\ (forall counter st file_path m block,
           file_entry fs sha256_text secrets_report counter root_dir file_path = Some m ->
           file_block_of fs root_dir file_path = Some block ->
           let st' := process_file fs sha256_text root_dir secrets_report
                                   (Some counter) (Some max_tokens) warn_tokens
                                   st file_path in
           let split := must_split (Some max_tokens) (current_token_count st)
                                   (estimated_tokens m) in
           context_parts st'
             = (if split then context_parts st ++ [current_part_builder st]
                else context_parts st)
           /\ token_counts st'
              = (if split then token_counts st ++ [current_token_count st]
                 else token_counts st)
           /\ parts_meta st'
              = (if split
                 then parts_meta st ++ [{| files := current_part_files_meta st |}]
                 else parts_meta st)
           /\ current_part_builder st'
              = ((if split then "" else current_part_builder st) ++ block)%string
           /\ current_token_count st'
              = ((if split then 0 else current_token_count st) + estimated_tokens m)%Z
           /\ current_part_files_meta st'
              = (if split then [] else current_part_files_meta st) ++ [m])
    /\ (forall filtered_files prompt_no_header tree_view parts counts metas,
           snd (generate_context fs sha256_text get_encoding root_dir filtered_files
                  secrets_report count_tokens (Some max_tokens) warn_tokens
                  prompt_no_header tree_view)
           = Ok (parts, counts, metas) ->
           List.length counts = List.length metas
           /\ List.length parts = List.length metas
           /\ Forall (fun cp => fst cp = cost (files (snd cp))
                                /\ within_budget_or_single_block max_tokens
                                     (fst cp) (snd cp))
                     (finalized counts metas)
           /\ Forall (fun part => part <> "") parts).
Proof.
  intros fs sha enc root report ct max warn Hmax Hnonneg.
  split; [intros; apply must_split_iff; lia |].
  split; [intros; now apply process_file_through |].
  intros filtered nh tv parts counts metas.
  rewrite generate_context_unfold.
  destruct (bind_count enc ct) as [printed [counter |]] eqn:Hbind; [| discriminate].
  cbn [snd]. intros [= <- <- <-].
  apply final_state_budget; [exact Hmax |].
  apply bind_count_bound in Hbind as (_ & [[_ Henc] | [_ ->]]).
  - intros text. now apply (Hnonneg counter).
  - intros _. lia.
Qed.

Lemma budget_split_rule_and_part_bounds_witness :
  exists parts counts metas,
    snd (generate_context Example.fs Run.digest (Some Run.fifteen) Example.root
           [Run.main_py; Run.utils_js] [] true (Some 35%Z) None false "")
    = Ok (parts, counts, metas)
    /\ counts = [30%Z; 15%Z]
    /\ Forall (fun cp => fst cp = cost (files (snd cp))
                         /\ within_budget_or_single_block 35 (fst cp) (snd cp))
              (finalized counts metas)
    /\ Forall (fun part => part <> "") parts.
Proof.
  do 3 eexists. split; [vm_compute; reflexivity |]. split; [reflexivity |].
  assert (forall counter text, Some Run.fifteen = Some counter -> (0 <= counter text)%Z)
    as Hnonneg.
  { intros counter text [= <-]. unfold Run.fifteen. lia. }
  destruct (budget_split_rule_and_part_bounds
              Example.fs Run.digest Example.root [] true None
              (max_tokens := 35) eq_refl Hnonneg) as (_ & _ & Hparts).
  destruct (Hparts [Run.main_py; Run.utils_js] false "" _ _ _ eq_refl)
    as (_ & _ & Hbound & Htext).
  split; [exact Hbound | exact Htext].
Defined.

(** A header that costs more than the budget is closed into a part of its
    own: that part is over the budget and holds no file block at all. *)
Lemma header_part_is_over_budget_without_a_file :
  exists parts counts metas,
    snd (generate_context Example.fs Run.digest (Some Run.fifteen) Example.root
           [Run.main_py] [] true (Some 10%Z) None true "")
    = Ok (parts, counts, metas)
    /\ ~ Forall (fun cp => within_budget_or_single_file 10 (fst cp) (snd cp))
                (finalized counts metas).
Proof.
  do 3 eexists. split; [vm_compute; reflexivity |].
  intros H. inversion_clear H as [| ? ? Hfirst _].
  destruct Hfirst as [Hle | (f & Hf & _)].
  - simpl in Hle. lia.
  - vm_compute in Hf. discriminate.
Qed.

(** ** What the metadata records *)

Lemma entry_path (fs : FileSystem) (sha256_text : string -> string)
    (secrets_report : SecretsReport) (counter : string -> Z)
    (root_dir file_path : Path) :
  map path (entry_list (file_entry fs sha256_text secrets_report counter
                                   root_dir file_path))
  = if processable fs root_dir file_path
    then [relative_posix root_dir file_path] else [].
Proof.
  unfold file_entry, processable, relative_posix.
  destruct (relative_to file_path root_dir) as [rel |]; [| reflexivity].
  destruct (read_text fs file_path) as [text |]; [| reflexivity].
  destruct (st_size fs file_path) as [size |]; reflexivity.
Qed.

Lemma recorded_paths (fs : FileSystem) (sha256_text : string -> string)
    (secrets_report : SecretsReport) (counter : string -> Z) (root_dir : Path)
    (filtered_files : list Path) :
  map path (flat_map (fun f => entry_list (file_entry fs sha256_text secrets_report
                                                      counter root_dir f))
                     filtered_files)
  = map (relative_posix root_dir) (filter (processable fs root_dir) filtered_files).
Proof.
  induction filtered_files as [| f rest IH]; simpl; [reflexivity |].
  rewrite map_app, IH, entry_path.
  now destruct (processable fs root_dir f).
Qed.

Lemma total_file_count_entries (parts_meta : list PartMeta) :
  total_file_count parts_meta
  = List.length (filter (fun f => negb (is_header f)) (all_entries parts_meta)).
Proof.
  unfold total_file_count.
  assert (forall n,
             fold_left (fun total part_meta => total + count_files (files part_meta))
                       parts_meta n
             = n + List.length (filter (fun f => negb (is_header f))
                                       (all_entries parts_meta))) as H.
  { induction parts_meta as [| part rest IH]; intros n; simpl.
    - lia.
    - rewrite IH. unfold all_entries, count_files. simpl.
      rewrite filter_app, length_app. lia. }
  apply H.
Qed.

Lemma filter_all {A : Type} (keep : A -> bool) (l : list A) :
  forallb keep l = true -> filter keep l = l.
Proof.
  induction l as [| x l IH]; simpl; [reflexivity |].
  intros H. apply andb_true_iff in H as [-> H]. now rewrite IH.
Qed.

Lemma part_infos_returns (token_counts : list Z) (metas : list PartMeta) (start : nat) :
  start + List.length metas <= List.length token_counts ->
  exists infos,
    part_infos token_counts (combine (seq start (List.length metas)) metas) = Ok infos.
Proof.
  revert start. induction metas as [| part rest IH]; intros start Hlen; simpl in *.
  - now exists [].
  - destruct (nth_error token_counts start) as [tokens |] eqn:E.
    + destruct (IH (S start)) as [infos ->]; [lia |]. simpl. eauto.
    + apply nth_error_None in E. lia.
Qed.

Section Lengths.

Variable fs : FileSystem.
Variable sha256_text : string -> string.
Variable root_dir : Path.
Variable secrets_report : SecretsReport.
Variable _count : option (string -> Z).
Variable max_tokens : option Z.
Variable warn_tokens : option Z.

Lemma process_file_lengths (st : Assembler) (file_path : Path) :
  List.length (token_counts st) = List.length (parts_meta st) ->
  let st' := process_file fs sha256_text root_dir secrets_report _count max_tokens
                          warn_tokens st file_path in
  List.length (token_counts st') = List.length (parts_meta st').
Proof.
  intros E. unfold process_file, error_reading.
  destruct (relative_to file_path root_dir) as [rel |]; [| exact E].
  destruct (read_text fs file_path) as [content |]; [| exact E].
  destruct (call_count _count _) as [tokens |]; [| exact E].
  destruct (truthy max_tokens && (tokens >? value max_tokens)%Z);
    cbn [echo current_token_count];
    destruct (must_split max_tokens (current_token_count st) tokens);
    destruct (st_size fs file_path);
    unfold check_warn; cbn;
    try (destruct (truthy warn_tokens && _ && _)); cbn;
    rewrite ?length_app; cbn; lia.
Qed.

Lemma process_files_lengths (filtered_files : list Path) (st : Assembler) :
  List.length (token_counts st) = List.length (parts_meta st) ->
  let st' := process_files fs sha256_text root_dir secrets_report _count max_tokens
                           warn_tokens st filtered_files in
  List.length (token_counts st') = List.length (parts_meta st').
Proof.
  revert st. induction filtered_files as [| f rest IH]; intros st E; simpl.
  - exact E.
  - apply IH. now apply process_file_lengths.
Qed.

End Lengths.

Lemma final_state_lengths (fs : FileSystem) (sha256_text : string -> string)
    (root_dir : Path) (secrets_report : SecretsReport) (counter : string -> Z)
    (max_tokens warn_tokens : option Z) (printed : list Message)
    (filtered_files : list Path) (prompt_no_header : bool) (tree_view : string) :
  let st := final_state fs sha256_text root_dir secrets_report counter max_tokens
                        warn_tokens printed filtered_files prompt_no_header
                        tree_view in
  List.length (token_counts st) = List.length (parts_meta st).
Proof.
  unfold final_state.
  match goal with
  | |- context [close ?s] =>
      assert (List.length (token_counts s) = List.length (parts_meta s)) as E;
      [| destruct (close_appends s) as (_ & -> & -> & _)]
  end.
  - now apply process_files_lengths.
  - cbv zeta. rewrite !length_app, E. reflexivity.
Qed.

Lemma filter_header_paths (l : list FileMeta) :
  List.length (filter (fun f => negb (is_header f)) l)
  = List.length (filter (fun p => negb (p =? HEADER_PATH)%string) (map path l)).
Proof.
  induction l as [| f l IH]; simpl; [reflexivity |].
  unfold is_header at 1. destruct (path f =? HEADER_PATH)%string; simpl; now rewrite IH.
Qed.

(** C6 (amended). Whenever [generate_context] returns, the metadata of its
    parts, read in order, is the header entry followed by one entry for each
    file of its input list that got through the loop body (a path under the
    root, a read and a size that did not raise), under its root-relative
    POSIX path: no file twice, none out of order, and only the files whose
    processing raised left out.  The file count of the JSON document, which
    is written unless the writing itself raises, is the
    number of those entries whose path is not the reserved
    [_aicontext_header_], hence the number of recorded files when no file
    has that path, and the length of the input list when in addition every
    file got through. *)
Theorem recorded_files_are_the_files_that_got_through :
  forall (fs : FileSystem) (sha256_text : string -> string)
         (get_encoding : option Encoding) (root_dir : Path)
         (filtered_files : list Path) (secrets_report : SecretsReport)
         (count_tokens : bool) (max_tokens warn_tokens : option Z)
         (prompt_no_header : bool) (tree_view : string)
         (parts : list string) (counts : list Z) (metas : list PartMeta),
    snd (generate_context fs sha256_text get_encoding root_dir filtered_files
           secrets_report count_tokens max_tokens warn_tokens prompt_no_header
           tree_view)
    = Ok (parts, counts, metas) ->
    (exists header,
        all_entries metas = header :: recorded_files metas
        /\ path header = HEADER_PATH)
    /\ map path (recorded_files metas)
       = map (relative_posix root_dir) (filter (processable fs root_dir) filtered_files)
    /\ (forallb (processable fs root_dir) filtered_files = true ->
        map path (recorded_files metas) = map (relative_posix root_dir) filtered_files)
    /\ (forall resolve write_json_output tree_str out_path,
           exists doc,
             build_and_write_json resolve write_json_output root_dir parts counts
                                  metas tree_str out_path
             = match write_json_output out_path doc with
               | Raise e => ([], Raise e)
               | Ok _ => ([JsonFile out_path doc; Say (WroteJson out_path)], Ok tt)
               end
             /\ file_count doc
                = List.length (filter (fun p => negb (p =? HEADER_PATH)%string)
                                      (map path (recorded_files metas)))
             /\ (Forall (fun f => relative_posix root_dir f <> HEADER_PATH)
                        filtered_files ->
                 file_count doc = List.length (recorded_files metas))
             /\ (Forall (fun f => relative_posix root_dir f <> HEADER_PATH)
                        filtered_files ->
                 forallb (processable fs root_dir) filtered_files = true ->
                 file_count doc = List.length filtered_files)).
Proof.
  intros fs sha enc root filtered report ct max warn nh tv parts counts metas.
  rewrite generate_context_unfold.
  destruct (bind_count enc ct) as [printed [counter |]]; [| discriminate].
  cbn [snd]. intros [= <- <- <-].
  pose proof (final_state_entries fs sha root report counter max warn printed
                filtered nh tv) as Hall.
  pose proof (final_state_lengths fs sha root report counter max warn printed
                filtered nh tv) as Hlen. cbv zeta in Hlen.
  set (st := final_state fs sha root report counter max warn printed filtered nh tv)
    in *.
  assert (map path (recorded_files (parts_meta st))
          = map (relative_posix root) (filter (processable fs root) filtered)) as Hrec.
  { unfold recorded_files. rewrite Hall. cbn [tl]. apply recorded_paths. }
  split; [| split; [exact Hrec | split]].
  - eexists. unfold recorded_files. rewrite Hall. split; reflexivity.
  - intros Hthrough. rewrite Hrec. now rewrite (filter_all _ _ Hthrough).
  - intros resolve write_json_output tree_str out_path. unfold build_and_write_json.
    destruct (part_infos_returns (token_counts st) (parts_meta st) 0) as [infos Hinfos];
      [rewrite Hlen; lia |].
    unfold enumerate. rewrite Hinfos. eexists. split; [reflexivity |].
    cbn [file_count].
    assert (total_file_count (parts_meta st)
            = List.length (filter (fun p => negb (p =? HEADER_PATH)%string)
                                  (map path (recorded_files (parts_meta st))))) as Hcount.
    { rewrite total_file_count_entries, filter_header_paths.
      unfold recorded_files. rewrite Hall. reflexivity. }
    assert (Forall (fun f => relative_posix root f <> HEADER_PATH) filtered ->
            total_file_count (parts_meta st)
            = List.length (recorded_files (parts_meta st))) as Hplain.
    { intros Hnames. rewrite Hcount, filter_all; [apply length_map |].
      rewrite Hrec. apply forallb_forall. intros p Hp.
      apply in_map_iff in Hp as (f & <- & Hf). apply filter_In in Hf as [Hf _].
      rewrite Forall_forall in Hnames. apply negb_true_iff, String.eqb_neq.
      now apply Hnames. }
    split; [exact Hcount | split; [exact Hplain |]].
    intros Hnames Hthrough. rewrite (Hplain Hnames).
    rewrite <- (length_map path), Hrec, (filter_all _ _ Hthrough).
    apply length_map.
Qed.

Lemma recorded_files_are_the_files_that_got_through_witness :
  exists metas,
    map path (recorded_files metas) = ["src/main.py"; "src/utils.js"]
    /\ total_file_count metas = 2.
Proof.
  edestruct (recorded_files_are_the_files_that_got_through
               Example.fs Run.digest (Some Run.fifteen) Example.root
               [Run.main_py; Run.ghost_py; Run.utils_js] [] true (Some 20%Z) None
               true "") as (_ & Hrec & _ & Hdoc).
  - vm_compute. reflexivity.
  - eexists. split; [exact Hrec |]. reflexivity.
Defined.

(** A file of the filter's output that cannot be read has no entry in the
    metadata and is not counted. *)
Lemma unreadable_file_is_not_recorded :
  filter_project_files GitWildMatch.match_file Run.locked_fs Example.root
                       ["src/utils.js"] []
  = Ok [Run.main_py; Run.locked_py]
  /\ exists parts counts metas,
       snd (generate_context Run.locked_fs Run.digest None Example.root
              [Run.main_py; Run.locked_py] [] false None None true "")
       = Ok (parts, counts, metas)
       /\ map path (recorded_files metas)
          <> map (relative_posix Example.root) [Run.main_py; Run.locked_py]
       /\ total_file_count metas <> List.length [Run.main_py; Run.locked_py].
Proof.
  split; [vm_compute; reflexivity |].
  do 3 eexists. split; [vm_compute; reflexivity |].
  split; vm_compute; discriminate.
Qed.

(** ** The list of parts is never empty *)

Lemma final_state_parts (fs : FileSystem) (sha256_text : string -> string)
    (root_dir : Path) (secrets_report : SecretsReport) (counter : string -> Z)
    (max_tokens warn_tokens : option Z) (printed : list Message)
    (filtered_files : list Path) (prompt_no_header : bool) (tree_view : string) :
  exists first rest,
    context_parts (final_state fs sha256_text root_dir secrets_report counter
                     max_tokens warn_tokens printed filtered_files
                     prompt_no_header tree_view)
    = first :: rest.
Proof.
  unfold final_state.
  match goal with
  | |- context [close ?s] => destruct (close_appends s) as (-> & _)
  end.
  match goal with
  | |- context [?l ++ [?x]] => destruct l as [| first rest]; simpl; eauto
  end.
Qed.

(** C10 (what the code does). Whenever the local name [_count] is bound,
    that is with token counting off or with an encoder that initialized,
    [generate_context] returns a list of parts that is not empty, for every
    file list, header choice and tree view, and taking its first part for
    the clipboard cannot fail: the copy raises only what the clipboard
    itself raises.  With token counting on and an encoder that
    failed to initialize it returns no list: the call of [_count] on the
    preliminary text raises [UnboundLocalError] before the opening sentinel
    is written, as for the empty file list below. *)
Theorem parts_are_nonempty_unless_the_counter_is_unbound :
  (forall fs sha256_text get_encoding root_dir filtered_files secrets_report
          count_tokens max_tokens warn_tokens prompt_no_header tree_view,
      let returned :=
        snd (generate_context fs sha256_text get_encoding root_dir filtered_files
               secrets_report count_tokens max_tokens warn_tokens
               prompt_no_header tree_view) in
      (exists first rest counts metas,
          returned = Ok (first :: rest, counts, metas)
          /\ forall copy,
               copy_first copy (first :: rest)
               = match copy first with
                 | Raise e => ([], Raise e)
                 | Ok _ =>
                     (ClipboardCopy first :: Say CopiedFirstPart
                        :: (if (1 <? List.length (first :: rest))%nat
                            then [Say (OnlyFirstCopied (List.length (first :: rest)))]
                            else []),
                      Ok tt)
                 end)
      \/ (count_tokens = true /\ get_encoding = None
          /\ returned = Raise UnboundLocalError))
  /\ generate_context Example.fs Run.digest None Example.root [] [] true None None
                      true ""
     = ([ErrorInitializingTiktoken], Raise UnboundLocalError)
  /\ generate_context Example.fs Run.digest None Example.root [] [] false None None
                      true ""
     = ([FoundFilesToInclude 0],
        Ok ([("<<<" ++ LF ++ ">>>" ++ LF)%string], [0%Z],
            [{| files := [header_entry Run.digest (fun _ => 0%Z) OPEN_SENTINEL] |}])).
Proof.
  split; [| split; vm_compute; reflexivity].
  intros fs sha enc root filtered report ct max warn nh tv returned.
  subst returned. rewrite generate_context_unfold.
  destruct (bind_count enc ct) as [printed [counter |]] eqn:Hbind; cbn [snd].
  - left.
    destruct (final_state_parts fs sha root report counter max warn printed
                filtered nh tv) as (first & rest & ->).
    exists first, rest, (token_counts (final_state fs sha root report counter max
                                         warn printed filtered nh tv)),
           (parts_meta (final_state fs sha root report counter max warn printed
                          filtered nh tv)).
    split; [reflexivity |]. intros copy. unfold copy_first. cbn [nth_error].
    now destruct (copy first).
  - right. apply bind_count_unbound in Hbind as (-> & -> & _). auto.
Qed.

(** ** Interactive selection *)

Lemma dict_set_In {A : Type} (d : list (string * A)) (k : string) (v : A)
    (k' : string) (v' : A) :
  In (k', v') (dict_set d k v) -> In (k', v') d \/ v' = v.
Proof.
  induction d as [| [k0 v0] d IH]; simpl.
  - intros [[= <- <-] | []]. now right.
  - destruct (k0 =? k)%string; simpl.
    + intros [[= <- <-] | H]; [now right | left; now right].
    + intros [H | H]; [left; now left |].
      destruct (IH H) as [H' | H']; [left; now right | now right].
Qed.

Lemma dict_item_In {A : Type} (d : list (string * A)) (k : string) (v : A) :
  dict_item d k = Ok v -> In (k, v) d.
Proof.
  induction d as [| [k0 v0] d IH]; simpl; [discriminate |].
  destruct (String.eqb_spec k0 k) as [-> | _].
  - intros [= ->]. now left.
  - intros H. right. now apply IH.
Qed.

Lemma relative_labels_values (root_path : Path) (file_list : list Path) :
  forall file_map labelled,
    relative_labels root_path file_list file_map = Ok labelled ->
    forall k p, In (k, p) labelled -> In (k, p) file_map \/ In p file_list.
Proof.
  induction file_list as [| f rest IH]; intros file_map labelled; simpl.
  - intros [= <-]. auto.
  - destruct (relative_to f root_path) as [rel |]; simpl; [| discriminate].
    intros H k p Hin. destruct (IH _ _ H k p Hin) as [H' | H']; [| auto].
    apply dict_set_In in H' as [H' | ->]; auto.
Qed.

Lemma absolute_labels_values (file_list : list Path) :
  forall k p, In (k, p) (absolute_labels file_list) -> In p file_list.
Proof.
  unfold absolute_labels.
  assert (forall file_map k p,
             In (k, p) (fold_left (fun m q => dict_set m (str q) q) file_list file_map) ->
             In (k, p) file_map \/ In p file_list) as H.
  { induction file_list as [| f rest IH]; intros file_map k p; simpl; [auto |].
    intros Hin. destruct (IH _ _ _ Hin) as [H' | H']; [| auto].
    apply dict_set_In in H' as [H' | ->]; auto. }
  intros k p Hin. destruct (H [] k p Hin) as [[] | H']. exact H'.
Qed.

Lemma lookup_all_values (file_map : list (string * Path)) (selected : list string) :
  forall chosen,
    lookup_all file_map selected = Ok chosen ->
    forall p, In p chosen -> exists k, In (k, p) file_map.
Proof.
  induction selected as [| s rest IH]; intros chosen; simpl.
  - intros [= <-] p [].
  - destruct (dict_item file_map s) as [q |] eqn:E; simpl; [| discriminate].
    destruct (lookup_all file_map rest) as [qs |]; simpl; [| discriminate].
    intros [= <-] p [<- | Hin].
    + exists s. now apply dict_item_In.
    + now apply (IH qs).
Qed.

(** The interactive selection only reduces the list it is given, as long as
    iterating a set yields its elements only. *)
Lemma interactive_selection_reduces (ui : Prompt) (file_list chosen : list Path) :
  (forall elements p, In p (set_order ui elements) -> In p elements) ->
  interactive_file_selector ui file_list = Ok chosen ->
  forall p, In p chosen -> In p file_list.
Proof.
  intros Hset. unfold interactive_file_selector.
  destruct file_list as [| f rest].
  - intros [= <-] p Hp. now apply Hset in Hp.
  - set (file_list := f :: rest).
    destruct (ask ui _) as [selected |]; [| discriminate].
    match goal with
    | |- context [lookup_all ?m selected] =>
        assert (forall k p, In (k, p) m -> In p file_list) as Hmap;
        [| destruct (lookup_all m selected) as [picked |] eqn:E; simpl; [| discriminate]]
    end.
    + destruct (relative_labels (cwd ui) file_list []) as [labelled |] eqn:E.
      * intros k p Hin.
        destruct (relative_labels_values _ _ _ E _ _ Hin) as [[] | H]. exact H.
      * apply absolute_labels_values.
    + intros [= <-] p Hp. apply Hset in Hp.
      destruct (lookup_all_values _ _ E _ Hp) as [k Hk]. now apply (Hmap k).
Qed.

(** * Further properties *)

(** ** Strings *)

Lemma string_app_assoc (a b c : string) : ((a ++ b) ++ c = a ++ b ++ c)%string.
Proof. induction a as [| x a IH]; simpl; [reflexivity | now rewrite IH]. Qed.

Lemma string_app_nil_r (a : string) : (a ++ "")%string = a.
Proof. induction a as [| x a IH]; simpl; [reflexivity | now rewrite IH]. Qed.

Lemma joined_cons (x : string) (l : list string) :
  joined (x :: l) = (x ++ joined l)%string.
Proof.
  unfold joined, Py.join. destruct l as [| y l]; simpl.
  - now rewrite string_app_nil_r.
  - reflexivity.
Qed.

Lemma joined_app (a b : list string) : joined (a ++ b) = (joined a ++ joined b)%string.
Proof.
  induction a as [| x a IH].
  - reflexivity.
  - rewrite <- app_comm_cons, !joined_cons, IH. now rewrite string_app_assoc.
Qed.

Lemma joined_snoc (l : list string) (x : string) :
  joined (l ++ [x]) = (joined l ++ x)%string.
Proof. rewrite joined_app, joined_cons. simpl. now rewrite string_app_nil_r. Qed.

(** ** The loop body on a file it skips *)

Lemma processable_entry (fs : FileSystem) (sha256_text : string -> string)
    (secrets_report : SecretsReport) (counter : string -> Z)
    (root_dir file_path : Path) :
  processable fs root_dir file_path = true
  <-> exists m, file_entry fs sha256_text secrets_report counter root_dir file_path
                = Some m.
Proof.
  unfold processable, file_entry.
  destruct (relative_to file_path root_dir) as [rel |];
    [| split; [discriminate | intros [m [=]]]].
  destruct (read_text fs file_path) as [text |];
    [| split; [discriminate | intros [m [=]]]].
  destruct (st_size fs file_path) as [size |];
    [| split; [discriminate | intros [m [=]]]].
  split; eauto.
Qed.

Section Skipped.

Variable fs : FileSystem.
Variable sha256_text : string -> string.
Variable root_dir : Path.
Variable secrets_report : SecretsReport.
Variable counter : string -> Z.
Variable max_tokens : option Z.
Variable warn_tokens : option Z.

(** A file that does not get through changes nothing, or, when only its
    size lookup raised, at most closes the current part. *)
Lemma process_file_skipped (st : Assembler) (file_path : Path) :
  file_entry fs sha256_text secrets_report counter root_dir file_path = None ->
  let st' := process_file fs sha256_text root_dir secrets_report (Some counter)
                          max_tokens warn_tokens st file_path in
  (silent st' = silent st
   /\ threshold_warnings (console st') = threshold_warnings (console st))
  \/ (truthy max_tokens = true
      /\ (0 < current_token_count st)%Z
      /\ silent st' = silent (finalize max_tokens st)
      /\ threshold_warnings (console st') = threshold_warnings (console st)).
Proof.
  unfold file_entry, process_file, error_reading, threshold_warnings.
  destruct (relative_to file_path root_dir) as [rel |];
    [| intros _; left; cbn; rewrite filter_app, length_app; cbn; auto with arith].
  destruct (read_text fs file_path) as [text |];
    [| intros _; left; cbn; rewrite filter_app, length_app; cbn; auto with arith].
  destruct (st_size fs file_path) as [size |]; [discriminate |]. intros _.
  cbn [call_count]. set (tokens := counter _).
  destruct (truthy max_tokens && (tokens >? value max_tokens)%Z);
    cbn [echo current_token_count];
    destruct (must_split max_tokens (current_token_count st) tokens) eqn:E;
    cbn; rewrite ?filter_app, ?length_app; cbn;
    try (left; repeat split; lia);
    right; unfold must_split in E;
    apply andb_true_iff in E as [E Hpos]; apply andb_true_iff in E as [Htruthy _];
    apply Z.gtb_lt in Hpos; repeat split; try assumption; lia.
Qed.

End Skipped.

(** ** The text of the parts *)

Section HeldText.

Variable fs : FileSystem.
Variable sha256_text : string -> string.
Variable root_dir : Path.
Variable secrets_report : SecretsReport.
Variable counter : string -> Z.
Variable max_tokens : option Z.
Variable warn_tokens : option Z.

Lemma process_file_text (st : Assembler) (file_path : Path) :
  held_text (process_file fs sha256_text root_dir secrets_report (Some counter)
                          max_tokens warn_tokens st file_path)
  = (held_text st ++ joined (blocks_through fs root_dir [file_path]))%string.
Proof.
  unfold blocks_through. cbn [flat_map]. rewrite app_nil_r.
  destruct (file_entry fs sha256_text secrets_report counter root_dir file_path)
    as [m |] eqn:E.
  - rewrite (proj2 (processable_entry fs sha256_text secrets_report counter
                      root_dir file_path) (ex_intro _ m E)).
    destruct (file_entry_block _ _ _ _ _ _ E) as (block & B & _).
    rewrite B.
    destruct (process_file_through fs sha256_text root_dir secrets_report counter
                max_tokens warn_tokens st file_path E B) as (P & _ & _ & T & _).
    unfold held_text. rewrite P, T.
    destruct (must_split max_tokens (current_token_count st) (estimated_tokens m)).
    + rewrite joined_snoc, joined_cons. cbn. now rewrite string_app_nil_r.
    + rewrite joined_cons. cbn. now rewrite string_app_nil_r, string_app_assoc.
  - assert (processable fs root_dir file_path = false) as ->.
    { destruct (processable fs root_dir file_path) eqn:P; [| reflexivity].
      apply (processable_entry fs sha256_text secrets_report counter) in P
        as [m Hm]. congruence. }
    cbn. rewrite string_app_nil_r.
    destruct (process_file_skipped fs sha256_text root_dir secrets_report counter
                max_tokens warn_tokens st file_path E) as [[S _] | (_ & _ & S & _)];
      match goal with
      | |- held_text ?s = _ => change (held_text s) with (held_text (silent s))
      end; rewrite S.
    + reflexivity.
    + unfold held_text. cbn. now rewrite joined_snoc, string_app_nil_r.
Qed.

Lemma blocks_through_cons (file_path : Path) (rest : list Path) :
  blocks_through fs root_dir (file_path :: rest)
  = blocks_through fs root_dir [file_path] ++ blocks_through fs root_dir rest.
Proof. unfold blocks_through. cbn [flat_map]. now rewrite app_nil_r. Qed.

Lemma process_files_text (filtered_files : list Path) (st : Assembler) :
  held_text (process_files fs sha256_text root_dir secrets_report (Some counter)
                           max_tokens warn_tokens st filtered_files)
  = (held_text st ++ joined (blocks_through fs root_dir filtered_files))%string.
Proof.
  revert st. induction filtered_files as [| f rest IH]; intros st.
  - cbn. now rewrite string_app_nil_r.
  - cbn [process_files fold_left]. unfold process_files in IH. rewrite IH.
    rewrite process_file_text, string_app_assoc.
    rewrite (blocks_through_cons f rest), joined_app. reflexivity.
Qed.

End HeldText.

(** X1. Splitting only cuts the text: whenever [generate_context] returns,
    its parts written one after the other are the preliminary text, the
    blocks of the files that got through in the order of the input list,
    and the closing sentinel, whatever the budget, the warning threshold
    and the token counter are. *)
Theorem parts_joined_are_the_blocks_in_order :
  forall (fs : FileSystem) (sha256_text : string -> string)
         (get_encoding : option Encoding) (root_dir : Path)
         (filtered_files : list Path) (secrets_report : SecretsReport)
         (count_tokens : bool) (max_tokens warn_tokens : option Z)
         (prompt_no_header : bool) (tree_view : string)
         (parts : list string) (counts : list Z) (metas : list PartMeta),
    snd (generate_context fs sha256_text get_encoding root_dir filtered_files
           secrets_report count_tokens max_tokens warn_tokens prompt_no_header
           tree_view)
    = Ok (parts, counts, metas) ->
    joined parts
    = (preliminary_text prompt_no_header tree_view
       ++ joined (blocks_through fs root_dir filtered_files)
       ++ CLOSE_SENTINEL)%string.
Proof.
  intros fs sha enc root filtered report ct max warn nh tv parts counts metas.
  rewrite generate_context_unfold.
  destruct (bind_count enc ct) as [printed [counter |]]; [| discriminate].
  cbn [snd]. intros [= <- _ _]. unfold final_state.
  match goal with
  | |- context [close ?s] => destruct (close_appends s) as (-> & _)
  end.
  rewrite joined_snoc, <- !string_app_assoc. f_equal.
  match goal with
  | |- (joined (context_parts (process_files _ _ _ _ _ _ _ ?s0 _)) ++ _)%string = _ =>
      pose proof (process_files_text fs sha root report counter max warn filtered s0)
        as H
  end.
  unfold held_text in H. rewrite H. reflexivity.
Qed.

Lemma parts_joined_are_the_blocks_in_order_witness :
  exists parts counts metas,
    snd (generate_context Example.fs Run.digest (Some Run.fifteen) Example.root
           [Run.main_py; Run.ghost_py; Run.utils_js] [] true (Some 20%Z) None
           true "")
    = Ok (parts, counts, metas)
    /\ List.length parts = 3
    /\ joined parts
       = ("<<<" ++ LF
          ++ LF ++ "--- FILE: src/main.py ---" ++ LF ++ "print('hello')" ++ LF
          ++ LF ++ "--- FILE: src/utils.js ---" ++ LF ++ "console.log('hello');" ++ LF
          ++ ">>>" ++ LF)%string.
Proof.
  do 3 eexists. split; [vm_compute; reflexivity |]. split; [reflexivity |].
  apply (parts_joined_are_the_blocks_in_order
           Example.fs Run.digest (Some Run.fifteen) Example.root
           [Run.main_py; Run.ghost_py; Run.utils_js] [] true (Some 20%Z) None
           true "" (counts := [15%Z; 15%Z; 15%Z])
           (metas := [ {| files := [header_entry Run.digest Run.fifteen OPEN_SENTINEL] |};
                       {| files := [{| path := "src/main.py"; size_bytes := 14;
                                       sha256 := ""; estimated_tokens := 15;
                                       potential_secrets := [];
                                       content := Some "print('hello')" |}] |};
                       {| files := [{| path := "src/utils.js"; size_bytes := 21;
                                       sha256 := ""; estimated_tokens := 15;
                                       potential_secrets := [];
                                       content := Some "console.log('hello');" |}] |} ])).
  reflexivity.
Defined.

(** ** Token accounting *)

Lemma sum_snoc (zs : list Z) (z : Z) : sum (zs ++ [z]) = (sum zs + z)%Z.
Proof. unfold sum. now rewrite fold_left_app. Qed.

Lemma cost_all_entries_snoc (metas : list PartMeta) (part_meta : PartMeta) :
  cost (all_entries (metas ++ [part_meta]))
  = (cost (all_entries metas) + cost (files part_meta))%Z.
Proof.
  rewrite all_entries_app, cost_app. unfold all_entries. cbn.
  now rewrite app_nil_r.
Qed.

Lemma accounted_sum (counts : list Z) (metas : list PartMeta) :
  Forall2 (fun count part_meta => count = cost (files part_meta)) counts metas ->
  sum counts = cost (all_entries metas).
Proof.
  intros H. apply Forall2_length in H as Hlen. revert metas H Hlen.
  induction counts as [| c counts IH] using rev_ind; intros metas H Hlen.
  - destruct metas; [reflexivity | discriminate].
  - destruct metas as [| pm metas _] using rev_ind.
    + rewrite length_app in Hlen. simpl in Hlen. lia.
    + apply Forall2_app_inv_l in H as (m1 & m2 & H1 & H2 & E).
      inversion H2 as [| ? y ? l' Hc Hnil]; subst. inversion Hnil; subst.
      apply app_inj_tail in E as [<- <-].
      rewrite sum_snoc, cost_all_entries_snoc, (IH metas H1 (Forall2_length H1)).
      reflexivity.
Qed.

Section Accounting.

Variable fs : FileSystem.
Variable sha256_text : string -> string.
Variable root_dir : Path.
Variable secrets_report : SecretsReport.
Variable counter : string -> Z.
Variable max_tokens : option Z.
Variable warn_tokens : option Z.

Lemma finalize_accounted (st : Assembler) :
  counts_accounted st -> counts_accounted (finalize max_tokens st).
Proof.
  intros [H C]. split; cbn.
  - apply Forall2_app; [exact H | now constructor].
  - reflexivity.
Qed.

Lemma process_file_accounted (st : Assembler) (file_path : Path) :
  counts_accounted st ->
  counts_accounted (process_file fs sha256_text root_dir secrets_report (Some counter)
                                 max_tokens warn_tokens st file_path).
Proof.
  intros Hst.
  destruct (file_entry fs sha256_text secrets_report counter root_dir file_path)
    as [m |] eqn:E.
  - destruct (file_entry_block _ _ _ _ _ _ E) as (block & B & _).
    destruct (process_file_through fs sha256_text root_dir secrets_report counter
                max_tokens warn_tokens st file_path E B)
      as (_ & T & M & _ & C & F).
    destruct Hst as [H Hc]. unfold counts_accounted. rewrite T, M, C, F.
    destruct (must_split max_tokens (current_token_count st) (estimated_tokens m)).
    + split; [apply Forall2_app; [exact H | now constructor] |].
      cbn. lia.
    + split; [exact H |]. rewrite cost_app, Hc. cbn. lia.
  - destruct (process_file_skipped fs sha256_text root_dir secrets_report counter
                max_tokens warn_tokens st file_path E) as [[S _] | (_ & _ & S & _)];
      match goal with
      | |- counts_accounted ?s => change (counts_accounted (silent s))
      end; rewrite S.
    + exact Hst.
    + now apply finalize_accounted.
Qed.

Lemma process_files_accounted (filtered_files : list Path) (st : Assembler) :
  counts_accounted st ->
  counts_accounted (process_files fs sha256_text root_dir secrets_report (Some counter)
                                  max_tokens warn_tokens st filtered_files).
Proof.
  revert st. induction filtered_files as [| f rest IH]; intros st H; simpl.
  - exact H.
  - apply IH. now apply process_file_accounted.
Qed.

End Accounting.

(** X2. Token accounting: whenever [generate_context] returns, each part's
    token count is the sum of the [estimated_tokens] of the entries in that
    part's metadata, and the total over all parts is the sum over every
    entry of the run, the header entry included, however the budget split
    the parts. *)
Theorem part_token_counts_add_up :
  forall (fs : FileSystem) (sha256_text : string -> string)
         (get_encoding : option Encoding) (root_dir : Path)
         (filtered_files : list Path) (secrets_report : SecretsReport)
         (count_tokens : bool) (max_tokens warn_tokens : option Z)
         (prompt_no_header : bool) (tree_view : string)
         (parts : list string) (counts : list Z) (metas : list PartMeta),
    snd (generate_context fs sha256_text get_encoding root_dir filtered_files
           secrets_report count_tokens max_tokens warn_tokens prompt_no_header
           tree_view)
    = Ok (parts, counts, metas) ->
    Forall2 (fun count part_meta => count = cost (files part_meta)) counts metas
    /\ sum counts = cost (all_entries metas).
Proof.
  intros fs sha enc root filtered report ct max warn nh tv parts counts metas.
  rewrite generate_context_unfold.
  destruct (bind_count enc ct) as [printed [counter |]]; [| discriminate].
  cbn [snd]. intros [= _ <- <-]. unfold final_state.
  match goal with
  | |- context [close ?s] => set (st := s)
  end.
  assert (counts_accounted st) as [H C].
  { apply process_files_accounted. split; cbn; [constructor | lia]. }
  destruct (close_appends st) as (_ & -> & -> & _).
  assert (Forall2 (fun count part_meta => count = cost (files part_meta))
                  (token_counts st ++ [current_token_count st])
                  (parts_meta st ++ [{| files := current_part_files_meta st |}]))
    as Hall.
  { apply Forall2_app; [exact H | now constructor]. }
  split; [exact Hall | now apply accounted_sum].
Qed.

Lemma part_token_counts_add_up_witness :
  exists parts counts metas,
    snd (generate_context Example.fs Run.digest (Some Run.fifteen) Example.root
           [Run.main_py; Run.utils_js] [] true (Some 35%Z) None false "")
    = Ok (parts, counts, metas)
    /\ counts = [30%Z; 15%Z]
    /\ sum counts = cost (all_entries metas).
Proof.
  do 3 eexists. split; [vm_compute; reflexivity |]. split; [reflexivity |].
  refine (proj2 (part_token_counts_add_up
                   Example.fs Run.digest (Some Run.fifteen) Example.root
                   [Run.main_py; Run.utils_js] [] true (Some 35%Z) None false ""
                   (parts := _) _)).
  reflexivity.
Defined.

(** ** Without a budget *)

Lemma must_split_unbudgeted (max_tokens : option Z) (count block_tokens : Z) :
  truthy max_tokens = false -> must_split max_tokens count block_tokens = false.
Proof. unfold must_split. now intros ->. Qed.

Section Unbudgeted.

Variable fs : FileSystem.
Variable sha256_text : string -> string.
Variable root_dir : Path.
Variable secrets_report : SecretsReport.
Variable counter : string -> Z.
Variable max_tokens : option Z.
Variable warn_tokens : option Z.
Hypothesis no_budget : truthy max_tokens = false.

Lemma process_file_unbudgeted (st : Assembler) (file_path : Path) :
  context_parts st = [] /\ token_counts st = [] /\ parts_meta st = [] ->
  let st' := process_file fs sha256_text root_dir secrets_report (Some counter)
                          max_tokens warn_tokens st file_path in
  context_parts st' = [] /\ token_counts st' = [] /\ parts_meta st' = [].
Proof.
  intros Hst.
  destruct (file_entry fs sha256_text secrets_report counter root_dir file_path)
    as [m |] eqn:E.
  - destruct (file_entry_block _ _ _ _ _ _ E) as (block & B & _).
    destruct (process_file_through fs sha256_text root_dir secrets_report counter
                max_tokens warn_tokens st file_path E B) as (P & T & M & _).
    cbv zeta. rewrite P, T, M, must_split_unbudgeted by exact no_budget. exact Hst.
  - destruct (process_file_skipped fs sha256_text root_dir secrets_report counter
                max_tokens warn_tokens st file_path E) as [[S _] | (T & _)].
    + cbv zeta.
      match goal with
      | |- context_parts ?s = _ /\ _ =>
          change (context_parts (silent s) = [] /\ token_counts (silent s) = []
                  /\ parts_meta (silent s) = [])
      end. rewrite S. exact Hst.
    + congruence.
Qed.

Lemma process_files_unbudgeted (filtered_files : list Path) (st : Assembler) :
  context_parts st = [] /\ token_counts st = [] /\ parts_meta st = [] ->
  let st' := process_files fs sha256_text root_dir secrets_report (Some counter)
                           max_tokens warn_tokens st filtered_files in
  context_parts st' = [] /\ token_counts st' = [] /\ parts_meta st' = [].
Proof.
  revert st. induction filtered_files as [| f rest IH]; intros st H; simpl.
  - exact H.
  - apply IH. now apply process_file_unbudgeted.
Qed.

End Unbudgeted.

(** X3. Without a budget ([--max-tokens] absent or zero) the context is never
    split: whenever [generate_context] returns, it returns exactly one part,
    one token count and one metadata record, however many files there are
    and whatever they cost. *)
Theorem no_budget_gives_a_single_part :
  forall (fs : FileSystem) (sha256_text : string -> string)
         (get_encoding : option Encoding) (root_dir : Path)
         (filtered_files : list Path) (secrets_report : SecretsReport)
         (count_tokens : bool) (max_tokens warn_tokens : option Z)
         (prompt_no_header : bool) (tree_view : string)
         (parts : list string) (counts : list Z) (metas : list PartMeta),
    truthy max_tokens = false ->
    snd (generate_context fs sha256_text get_encoding root_dir filtered_files
           secrets_report count_tokens max_tokens warn_tokens prompt_no_header
           tree_view)
    = Ok (parts, counts, metas) ->
    List.length parts = 1 /\ List.length counts = 1 /\ List.length metas = 1.
Proof.
  intros fs sha enc root filtered report ct max warn nh tv parts counts metas Hmax.
  rewrite generate_context_unfold.
  destruct (bind_count enc ct) as [printed [counter |]]; [| discriminate].
  cbn [snd]. intros [= <- <- <-]. unfold final_state.
  match goal with
  | |- context [close (process_files _ _ _ _ _ _ _ ?s0 _)] =>
      destruct (process_files_unbudgeted fs sha root report counter max warn Hmax
                  filtered s0) as (P & T & M); [repeat split |]
  end.
  match goal with
  | |- context [close ?s] => destruct (close_appends s) as (-> & -> & -> & _)
  end.
  rewrite P, T, M. repeat split.
Qed.

Lemma no_budget_gives_a_single_part_witness :
  exists parts counts metas,
    snd (generate_context Example.fs Run.digest (Some Run.fifteen) Example.root
           [Run.main_py; Run.utils_js] [] true (Some 0%Z) (Some 20%Z) false "")
    = Ok (parts, counts, metas)
    /\ counts = [45%Z]
    /\ List.length parts = 1.
Proof.
  do 3 eexists. split; [vm_compute; reflexivity |]. split; [reflexivity |].
  refine (proj1 (no_budget_gives_a_single_part
                   Example.fs Run.digest (Some Run.fifteen) Example.root
                   [Run.main_py; Run.utils_js] [] true (Some 0%Z) (Some 20%Z)
                   false "" (counts := _) (metas := _) _ _)); reflexivity.
Defined.

(** ** The threshold warning *)

Section Threshold.

Variable fs : FileSystem.
Variable sha256_text : string -> string.
Variable root_dir : Path.
Variable secrets_report : SecretsReport.
Variable _count : option (string -> Z).
Variable max_tokens : option Z.
Variable warn_tokens : option Z.

Lemma check_warn_once (st : Assembler) :
  warned_once warn_tokens st -> warned_once warn_tokens (check_warn warn_tokens st).
Proof.
  intros [H N]. unfold check_warn.
  destruct (truthy warn_tokens && (current_token_count st >? value warn_tokens)%Z
            && negb (warn_triggered st)) eqn:W; [| now split].
  apply andb_true_iff in W as [W T]. apply andb_true_iff in W as [W _].
  apply negb_true_iff in T. rewrite T in H.
  split; cbn.
  - unfold threshold_warnings in *. rewrite filter_app, length_app. cbn. lia.
  - congruence.
Qed.

Lemma echo_once (m : Message) (st : Assembler) :
  is_threshold_warning m = false ->
  warned_once warn_tokens st -> warned_once warn_tokens (echo m st).
Proof.
  intros Hm [H N]. split; [| exact N]. cbn.
  unfold threshold_warnings in *. rewrite filter_app, length_app. cbn.
  rewrite Hm. cbn. lia.
Qed.

Lemma finalize_once (limit : option Z) (st : Assembler) :
  warned_once warn_tokens st -> warned_once warn_tokens (finalize limit st).
Proof.
  intros [H N]. split; [| exact N]. cbn.
  unfold threshold_warnings in *. rewrite filter_app, length_app. cbn. lia.
Qed.

Lemma process_file_once (st : Assembler) (file_path : Path) :
  warned_once warn_tokens st ->
  warned_once warn_tokens
    (process_file fs sha256_text root_dir secrets_report _count max_tokens
                  warn_tokens st file_path).
Proof.
  intros H. unfold process_file, error_reading.
  destruct (relative_to file_path root_dir) as [rel |];
    [| now apply echo_once].
  destruct (read_text fs file_path) as [text |]; [| now apply echo_once].
  destruct (call_count _count _) as [tokens |]; [| now apply echo_once].
  match goal with
  | |- context [if truthy max_tokens && _ then echo ?m st else st] =>
      assert (warned_once warn_tokens
                (if truthy max_tokens && (tokens >? value max_tokens)%Z
                 then echo m st else st)) as H1
        by (destruct (truthy max_tokens && _); [now apply echo_once | exact H]);
      generalize dependent (if truthy max_tokens && (tokens >? value max_tokens)%Z
                            then echo m st else st)
  end.
  intros st1 H1.
  assert (warned_once warn_tokens
            (if must_split max_tokens (current_token_count st1) tokens
             then finalize max_tokens st1 else st1)) as H2
    by (destruct (must_split _ _ _); [now apply finalize_once | exact H1]).
  generalize dependent (if must_split max_tokens (current_token_count st1) tokens
                        then finalize max_tokens st1 else st1).
  intros st2 H2.
  destruct (st_size fs file_path) as [size |]; [| now apply echo_once].
  apply check_warn_once. exact H2.
Qed.

Lemma process_files_once (filtered_files : list Path) (st : Assembler) :
  warned_once warn_tokens st ->
  warned_once warn_tokens
    (process_files fs sha256_text root_dir secrets_report _count max_tokens
                   warn_tokens st filtered_files).
Proof.
  revert st. induction filtered_files as [| f rest IH]; intros st H; simpl.
  - exact H.
  - apply IH. now apply process_file_once.
Qed.

End Threshold.

(** X4. The token-threshold warning is printed at most once in a run of
    [generate_context], however many parts cross the threshold, and never
    when no threshold is set ([--warn-tokens] absent or zero). *)
Theorem threshold_warning_is_printed_at_most_once :
  forall (fs : FileSystem) (sha256_text : string -> string)
         (get_encoding : option Encoding) (root_dir : Path)
         (filtered_files : list Path) (secrets_report : SecretsReport)
         (count_tokens : bool) (max_tokens warn_tokens : option Z)
         (prompt_no_header : bool) (tree_view : string),
    let printed :=
      fst (generate_context fs sha256_text get_encoding root_dir filtered_files
             secrets_report count_tokens max_tokens warn_tokens prompt_no_header
             tree_view) in
    threshold_warnings printed <= 1
    /\ (truthy warn_tokens = false -> threshold_warnings printed = 0).
Proof.
  intros fs sha enc root filtered report ct max warn nh tv printed.
  subst printed. rewrite generate_context_unfold.
  destruct (bind_count enc ct) as [printed [counter |]] eqn:Hbind; cbn [fst].
  - apply bind_count_bound in Hbind as [-> _]. unfold final_state.
    match goal with
    | |- context [close ?s] =>
        assert (warned_once warn s) as [H N];
        [| destruct (close_appends s) as (_ & _ & _ & ->)]
    end.
    + apply process_files_once. apply echo_once; [reflexivity |].
      split; [reflexivity | reflexivity].
    + rewrite H. split.
      * destruct (warn_triggered _); lia.
      * intros Hwarn. now rewrite (N Hwarn).
  - apply bind_count_unbound in Hbind as (_ & _ & ->). cbn. split; [lia | reflexivity].
Qed.

Lemma threshold_warning_is_printed_at_most_once_witness :
  threshold_warnings
    (fst (generate_context Example.fs Run.digest (Some Run.fifteen) Example.root
            [Run.main_py; Run.utils_js] [] true (Some 20%Z) None false ""))
  = 0.
Proof.
  apply (proj2 (threshold_warning_is_printed_at_most_once
                  Example.fs Run.digest (Some Run.fifteen) Example.root
                  [Run.main_py; Run.utils_js] [] true (Some 20%Z) None false "")).
  reflexivity.
Defined.

(** ** The tree view and the files *)

(** X5. [generate_tree_view] raises [ValueError], from [Path.relative_to],
    exactly when some file of the list does not lie under the root;
    otherwise it returns a text. *)
Theorem tree_view_raises_exactly_for_a_file_outside_the_root :
  forall (root_dir : Path) (filtered_files : list Path),
    (generate_tree_view root_dir filtered_files = Raise ValueError
     <-> exists f, In f filtered_files /\ forall rel, f <> root_dir ++ rel)
    /\ ((exists text, generate_tree_view root_dir filtered_files = Ok text)
        <-> forall f, In f filtered_files -> exists rel, f = root_dir ++ rel).
Proof.
  intros root files.
  assert (forall f, (exists rel, relative_to f root = Ok rel)
                    <-> exists rel, f = root ++ rel) as Hunder.
  { intros f. split; intros [rel H]; exists rel.
    - now apply relative_to_Ok.
    - subst f. apply relative_to_app. }
  assert (forall f, relative_to f root = Raise ValueError
                    <-> forall rel, f <> root ++ rel) as Hout.
  { intros f. split.
    - intros H rel ->. rewrite relative_to_app in H. discriminate.
    - intros H. destruct (relative_to f root) as [rel |] eqn:E.
      + exfalso. apply (H rel). now apply relative_to_Ok.
      + now rewrite (relative_to_raises _ _ E). }
  unfold generate_tree_view.
  destruct (all_or_one_outside root files) as [Hall | (g & Hin & Hg)].
  - destruct (build_tree_returns root files (Node []) Hall) as (tree & -> & _).
    cbn [bind]. split; split.
    + discriminate.
    + intros (f & Hf & Hno). destruct (Hall f Hf) as [rel E].
      apply relative_to_Ok in E. now destruct (Hno rel).
    + intros _ f Hf. apply Hunder. now apply Hall.
    + eauto.
  - rewrite (build_tree_raises root files (Node [])) by eauto. cbn [bind].
    split; split.
    + intros _. exists g. split; [exact Hin | now apply Hout].
    + reflexivity.
    + intros [text [=]].
    + intros H. destruct (H g Hin) as [rel ->].
      rewrite relative_to_app in Hg. discriminate.
Qed.

Lemma tree_view_raises_exactly_for_a_file_outside_the_root_witness :
  generate_tree_view Example.root [Run.main_py; ["etc"; "passwd"]] = Raise ValueError.
Proof.
  apply (proj1 (tree_view_raises_exactly_for_a_file_outside_the_root
                  Example.root [Run.main_py; ["etc"; "passwd"]])).
  exists ["etc"; "passwd"]. split; [right; left; reflexivity |].
  intros rel. discriminate.
Defined.

(** *** Lines and nodes *)









(** ** Pattern Loader *)














(** ** File Filter: order and errors *)





(** ** Secret Scanner Adapter: what a lookup returns *)

Lemma report_get_default (r : SecretsReport) (key k : string) :
  report_get (r ++ [(key, [])]) k = report_get r k.
Proof.
  induction r as [| [k' found] r IH]; simpl.
  - now destruct (key =? k)%string.
  - now destruct (k' =? k)%string.
Qed.

Lemma report_mem_default (r : SecretsReport) (key : string) :
  report_mem (if report_mem r key then r else r ++ [(key, [])]) key = true.
Proof.
  destruct (report_mem r key) eqn:E; [exact E |].
  induction r as [| [k' found] r IH]; simpl in *.
  - now rewrite String.eqb_refl.
  - apply orb_false_iff in E as [-> E]. now apply IH.
Qed.

Lemma report_append_mem (r : SecretsReport) (key : string) (f : Finding) :
  report_mem (report_append r key f) key = report_mem r key.
Proof.
  induction r as [| [k' found] r IH]; simpl; [reflexivity |].
  destruct (k' =? key)%string eqn:E; simpl; rewrite E; [reflexivity | exact IH].
Qed.

Lemma report_append_get (r : SecretsReport) (key k : string) (f : Finding) :
  report_mem r key = true ->
  report_get (report_append r key f) k
  = report_get r k ++ (if (key =? k)%string then [f] else []).
Proof.
  induction r as [| [k' found] r IH]; simpl; [discriminate |].
  destruct (String.eqb_spec k' key) as [-> | Hne]; simpl.
  - intros _. destruct (key =? k)%string; [reflexivity | now rewrite app_nil_r].
  - intros Hmem. destruct (String.eqb_spec k' k) as [-> | _].
    + destruct (String.eqb_spec key k) as [-> | _]; [contradiction |].
      now rewrite app_nil_r.
    + now apply IH.
Qed.

Lemma report_file_get (acc : SecretsReport * list Message)
    (item : string * list Secret) (k : string) :
  report_get (fst (report_file acc item)) k
  = report_get (fst acc) k
    ++ map to_finding (if (fst item =? k)%string then snd item else []).
Proof.
  destruct item as [file_path secrets_set]. unfold report_file. cbn [fst snd].
  pose proof (report_mem_default (fst acc) file_path) as Hmem.
  assert (report_get (if report_mem (fst acc) file_path then fst acc
                      else fst acc ++ [(file_path, [])]) k
          = report_get (fst acc) k) as Hstart.
  { destruct (report_mem (fst acc) file_path); [reflexivity | apply report_get_default]. }
  rewrite <- Hstart.
  generalize dependent (if report_mem (fst acc) file_path then fst acc
                        else fst acc ++ [(file_path, [])]).
  intros r Hmem _. generalize (snd acc) as msgs. revert r Hmem.
  induction secrets_set as [| s rest IH]; intros r Hmem msgs; cbn [fold_left].
  - cbn. destruct (file_path =? k)%string; now rewrite app_nil_r.
  - cbn [fst snd]. rewrite IH by now rewrite report_append_mem.
    rewrite report_append_get by exact Hmem.
    destruct (file_path =? k)%string; cbn; [| now rewrite app_nil_r].
    now rewrite <- app_assoc.
Qed.

(** X9. For every key, the report the adapter returns holds under that key
    the type and the line of each secret the engine filed under it, in the
    engine's order, and nothing under a key the engine did not use; the
    secret value itself is only printed.  When the engine raises, the
    report is empty and the failure is printed instead of raised. *)
Theorem report_holds_type_and_line_of_each_secret :
  forall (scan_files : Classifier) (filtered_files : list Path),
    (forall secrets_found k,
        scan_files (map str filtered_files) = Some secrets_found ->
        report_get (fst (checkSecurityIssue scan_files filtered_files)) k
        = map to_finding (secrets_under k secrets_found))
    /\ (scan_files (map str filtered_files) = None ->
        checkSecurityIssue scan_files filtered_files
        = ([], [PreScanning; DetectSecretsError])).
Proof.
  intros scan files. split.
  - intros found k Hscan. unfold checkSecurityIssue. rewrite Hscan.
    assert (forall l acc,
               report_get (fst (fold_left report_file l acc)) k
               = report_get (fst acc) k ++ map to_finding (secrets_under k l)) as Hfold.
    { induction l as [| item l IH]; intros acc; cbn [fold_left].
      - cbn. now rewrite app_nil_r.
      - rewrite IH, report_file_get. unfold secrets_under. cbn [flat_map].
        now rewrite map_app, app_assoc. }
    destruct found as [| item found]; [reflexivity |].
    rewrite Hfold. reflexivity.
  - intros Hscan. unfold checkSecurityIssue. now rewrite Hscan.
Qed.

Lemma report_holds_type_and_line_of_each_secret_witness :
  report_get (fst (checkSecurityIssue Run.engine [Run.main_py; Run.utils_js]))
             "/tmp/proj/src/main.py"
  = [{| finding_type := "AWS Access Key"; finding_line := 1 |}].
Proof.
  exact (proj1 (report_holds_type_and_line_of_each_secret
                  Run.engine [Run.main_py; Run.utils_js])
               [("/tmp/proj/src/main.py", [Run.aws_key])] "/tmp/proj/src/main.py"
               eq_refl).
Defined.

(** ** Interactive selection: answers and errors *)

Lemma sorted_In (k : string) (l : list string) : In k (sorted l) <-> In k l.
Proof.
  unfold sorted.
  pose proof (Permutation_map fst (sort_by_key_perm (map (fun k => (k, tt)) l))) as P.
  rewrite map_map, map_id in P. cbn in P.
  split; intros H.
  - now apply (Permutation_in _ (Permutation_sym P)).
  - now apply (Permutation_in _ P).
Qed.

Lemma sorted_is_sorted (l : list string) : StronglySorted string_le (sorted l).
Proof. unfold sorted. apply sorted_keys, sort_by_key_sorted. Qed.

Lemma dict_item_found {A : Type} (d : list (string * A)) (k : string) :
  In k (map fst d) -> exists v, dict_item d k = Ok v.
Proof.
  induction d as [| [k' v'] d IH]; simpl; [intros [] |].
  destruct (String.eqb_spec k' k) as [-> | Hne]; [eauto |].
  intros [E | Hin]; [contradiction | now apply IH].
Qed.

Lemma dict_item_missing {A : Type} (d : list (string * A)) (k : string) :
  ~ In k (map fst d) -> dict_item d k = Raise KeyError.
Proof.
  induction d as [| [k' v'] d IH]; simpl; [reflexivity |].
  intros Hno. destruct (String.eqb_spec k' k) as [-> | _].
  - exfalso. apply Hno. now left.
  - apply IH. intros H. apply Hno. now right.
Qed.

Lemma lookup_all_returns (file_map : list (string * Path)) (selected : list string) :
  (forall s, In s selected -> In s (map fst file_map)) ->
  exists picked,
    lookup_all file_map selected = Ok picked
    /\ List.length picked = List.length selected.
Proof.
  induction selected as [| s rest IH]; intros Hall; simpl.
  - now exists [].
  - destruct (dict_item_found file_map s) as [p ->]; [apply Hall; now left |].
    destruct IH as (picked & -> & Hlen); [intros t Ht; apply Hall; now right |].
    simpl. exists (p :: picked). split; [reflexivity | simpl; now rewrite Hlen].
Qed.

Lemma lookup_all_raises (file_map : list (string * Path)) (selected : list string) :
  (exists s, In s selected /\ ~ In s (map fst file_map)) ->
  lookup_all file_map selected = Raise KeyError.
Proof.
  induction selected as [| s rest IH]; intros (t & Hin & Hno); [destruct Hin |].
  simpl. destruct (in_dec string_dec s (map fst file_map)) as [Hs | Hs].
  - destruct (dict_item_found file_map s Hs) as [p ->]. simpl.
    destruct Hin as [-> | Hin]; [contradiction |].
    rewrite IH by eauto. reflexivity.
  - now rewrite dict_item_missing.
Qed.

Lemma dict_set_keys {A : Type} (d : list (string * A)) (k : string) (v : A) :
  List.length (dict_set d k v) <= S (List.length d).
Proof.
  induction d as [| [k' v'] d IH]; simpl; [lia |].
  destruct (k' =? k)%string; simpl; lia.
Qed.

Lemma relative_labels_length (root_path : Path) (file_list : list Path) :
  forall file_map labelled,
    relative_labels root_path file_list file_map = Ok labelled ->
    List.length labelled <= List.length file_map + List.length file_list.
Proof.
  induction file_list as [| f rest IH]; intros file_map labelled; simpl.
  - intros [= <-]. lia.
  - destruct (relative_to f root_path) as [rel |]; simpl; [| discriminate].
    intros H. apply IH in H. pose proof (dict_set_keys file_map (str_relative rel) f).
    lia.
Qed.

Lemma absolute_labels_length (file_list : list Path) :
  List.length (absolute_labels file_list) <= List.length file_list.
Proof.
  unfold absolute_labels.
  assert (forall file_map,
             List.length (fold_left (fun m q => dict_set m (str q) q) file_list file_map)
             <= List.length file_map + List.length file_list) as H.
  { induction file_list as [| f rest IH]; intros file_map; simpl; [lia |].
    pose proof (IH (dict_set file_map (str f) f)).
    pose proof (dict_set_keys file_map (str f) f). lia. }
  apply (H []).
Qed.

(** X10. For a non-empty file list the selector offers its labels in sorted
    order, at most one per file.  A cancelled prompt raises [SystemExit];
    an answer made of offered labels never raises and yields the set of one
    listed file per chosen label; an answer with a label that was not
    offered raises [KeyError].  For an empty list nothing is asked and the
    empty set is returned. *)
Theorem selector_answers_and_errors :
  forall (ui : Prompt) (file_list : list Path),
    interactive_file_selector ui [] = Ok (set_order ui [])
    /\ (file_list <> [] ->
        exists choices,
          StronglySorted string_le choices
          /\ List.length choices <= List.length file_list
          /\ (ask ui choices = None ->
              interactive_file_selector ui file_list = Raise SystemExit)
          /\ (forall selected,
                 ask ui choices = Some selected ->
                 (forall s, In s selected -> In s choices) ->
                 exists picked,
                   interactive_file_selector ui file_list = Ok (set_order ui picked)
                   /\ List.length picked = List.length selected
                   /\ forall p, In p picked -> In p file_list)
          /\ (forall selected,
                 ask ui choices = Some selected ->
                 (exists s, In s selected /\ ~ In s choices) ->
                 interactive_file_selector ui file_list = Raise KeyError)).
Proof.
  intros ui file_list. split; [reflexivity |].
  intros Hne. destruct file_list as [| f rest]; [contradiction |].
  unfold interactive_file_selector.
  set (files := f :: rest).
  set (file_map := match relative_labels (cwd ui) files [] with
                   | Ok m => m
                   | Raise _ => absolute_labels files
                   end).
  assert (forall k p, In (k, p) file_map -> In p files) as Hvalues.
  { subst file_map. destruct (relative_labels (cwd ui) files []) as [m |] eqn:E.
    - intros k p Hin. destruct (relative_labels_values _ _ _ E _ _ Hin) as [[] | H].
      exact H.
    - apply absolute_labels_values. }
  assert (List.length file_map <= List.length files) as Hlen.
  { subst file_map. destruct (relative_labels (cwd ui) files []) as [m |] eqn:E.
    - apply relative_labels_length in E. simpl in E. exact E.
    - apply absolute_labels_length. }
  exists (sorted (map fst file_map)).
  split; [apply sorted_is_sorted |].
  split.
  { unfold sorted. rewrite length_map.
    rewrite <- (Permutation_length (sort_by_key_perm _)). rewrite !length_map.
    exact Hlen. }
  split; [now intros -> |].
  split.
  - intros selected -> Hoffered.
    destruct (lookup_all_returns file_map selected) as (picked & Hrun & Hcount).
    { intros s Hs. apply sorted_In. now apply Hoffered. }
    rewrite Hrun. cbn [bind]. exists picked. repeat split; [exact Hcount |].
    intros p Hp. destruct (lookup_all_values _ _ Hrun _ Hp) as [k Hk].
    now apply (Hvalues k).
  - intros selected -> (s & Hs & Hno).
    rewrite lookup_all_raises; [reflexivity |].
    exists s. split; [exact Hs |]. intros H. apply Hno. now apply sorted_In.
Qed.

Lemma selector_answers_and_errors_witness :
  interactive_file_selector
    {| cwd := Example.root; ask := fun _ => None; set_order := fun l => l |}
    [Run.utils_js; Run.main_py]
  = Raise SystemExit.
Proof.
  destruct (proj2 (selector_answers_and_errors
                     {| cwd := Example.root; ask := fun _ => None;
                        set_order := fun l => l |}
                     [Run.utils_js; Run.main_py]))
    as (choices & _ & _ & Hcancel & _); [discriminate |].
  apply Hcancel. reflexivity.
Defined.

(** ** The JSON document *)

Lemma part_infos_spec (token_counts : list Z) (metas : list PartMeta) (start : nat) :
  start + List.length metas <= List.length token_counts ->
  exists infos,
    part_infos token_counts (combine (seq start (List.length metas)) metas) = Ok infos
    /\ List.length infos = List.length metas
    /\ forall i part_meta,
         nth_error metas i = Some part_meta ->
         exists tokens,
           nth_error token_counts (start + i) = Some tokens
           /\ nth_error infos i
              = Some {| index := start + i + 1;
                        part_estimated_tokens := tokens;
                        part_files := files part_meta |}.
Proof.
  revert start. induction metas as [| part rest IH]; intros start Hlen; simpl in *.
  - exists []. repeat split. intros [| i] pm; discriminate.
  - destruct (nth_error token_counts start) as [tokens |] eqn:E.
    + destruct (IH (S start)) as (infos & -> & Hcount & Hnth); [lia |]. simpl.
      eexists. split; [reflexivity |]. split; [simpl; now rewrite Hcount |].
      intros [| i] pm; simpl.
      * intros [= <-]. exists tokens. rewrite Nat.add_0_r. now split.
      * intros Hi. destruct (Hnth i pm Hi) as (c & Hc & Hinfo).
        exists c. replace (start + S i) with (S start + i) by lia. now split.
    + apply nth_error_None in E. lia.
Qed.

Lemma part_infos_raises (token_counts : list Z) (metas : list PartMeta) (start : nat) :
  start <= List.length token_counts ->
  List.length token_counts < start + List.length metas ->
  part_infos token_counts (combine (seq start (List.length metas)) metas)
  = Raise IndexError.
Proof.
  revert start.
  induction metas as [| part rest IH]; intros start Hstart Hlen; simpl in *.
  - lia.
  - destruct (nth_error token_counts start) as [tokens |] eqn:E; [| reflexivity].
    assert (start < List.length token_counts) by (apply nth_error_Some; congruence).
    rewrite IH; [reflexivity | lia | lia].
Qed.

Lemma sum_fold_right (zs : list Z) : sum zs = fold_right Z.add 0%Z zs.
Proof.
  unfold sum. apply fold_symmetric; intros; lia.
Qed.

(** X11. Writing the JSON document fails with [IndexError], before
    anything is written, when there are fewer token counts than parts.
    Otherwise one document is handed to [write_json_output] for the given
    path; if that raises, the exception is passed on, and if it returns the
    document is written and reported.  The document has one part per
    metadata entry, in order, numbered from 1, each with the token count at
    the same position and the file entries of that part; its total is the
    sum of all token counts, its tree is the given one and its root is the
    resolved root path. *)
Theorem json_parts_follow_the_metadata :
  forall (resolve : Path -> Path)
         (write_json_output : string -> JsonDoc -> result unit)
         (root_path : Path) (context_parts : list string) (token_counts : list Z)
         (parts_meta : list PartMeta) (tree_str out_path : string),
    (List.length token_counts < List.length parts_meta ->
     build_and_write_json resolve write_json_output root_path context_parts
                          token_counts parts_meta tree_str out_path
     = ([], Raise IndexError))
    /\ (List.length parts_meta <= List.length token_counts ->
        exists doc,
          build_and_write_json resolve write_json_output root_path context_parts
                               token_counts parts_meta tree_str out_path
          = match write_json_output out_path doc with
            | Raise e => ([], Raise e)
            | Ok _ => ([JsonFile out_path doc; Say (WroteJson out_path)], Ok tt)
            end
          /\ List.length (doc_parts doc) = List.length parts_meta
          /\ (forall i part_meta,
                 nth_error parts_meta i = Some part_meta ->
                 exists tokens,
                   nth_error token_counts i = Some tokens
                   /\ nth_error (doc_parts doc) i
                      = Some {| index := i + 1;
                                part_estimated_tokens := tokens;
                                part_files := files part_meta |})
          /\ total_estimated_tokens doc = fold_right Z.add 0%Z token_counts
          /\ tree doc = tree_str
          /\ project_root doc = str (resolve root_path)).
Proof.
  intros resolve write_json_output root_path context_parts token_counts parts_meta
         tree_str out_path.
  unfold build_and_write_json, enumerate. split; intros Hlen.
  - rewrite (@part_infos_raises token_counts parts_meta 0);
      [reflexivity | lia | exact Hlen].
  - destruct (@part_infos_spec token_counts parts_meta 0 Hlen)
      as (infos & -> & Hcount & Hnth).
    eexists. split; [reflexivity |].
    cbn [doc_parts total_estimated_tokens tree project_root].
    repeat split; [exact Hcount | exact Hnth | apply sum_fold_right].
Qed.

Lemma json_parts_follow_the_metadata_witness :
  exists doc,
    build_and_write_json (fun p => "real" :: p) (fun _ _ => Ok tt) Example.root
      ["a"; "b"] [3%Z; 4%Z] [{| files := [] |}; {| files := [] |}] ""
      "context.json"
    = ([JsonFile "context.json" doc; Say (WroteJson "context.json")], Ok tt)
    /\ List.length (doc_parts doc) = 2
    /\ total_estimated_tokens doc = 7%Z
    /\ project_root doc = "/real/tmp/proj".
Proof.
  destruct (proj2 (json_parts_follow_the_metadata
                     (fun p => "real" :: p) (fun _ _ => Ok tt) Example.root
                     ["a"; "b"] [3%Z; 4%Z] [{| files := [] |}; {| files := [] |}]
                     "" "context.json"))
    as (doc & Hrun & Hparts & _ & Htotal & _ & Hroot); [simpl; lia |].
  exists doc. repeat split; assumption.
Defined.

Lemma part_warnings_filtered (i : nat) (part_entries : list FileMeta) :
  part_warnings i {| files := part_entries |}
  = map (fun numbered =>
           {| part_index := fst numbered + 1;
              file_path := path (snd numbered);
              reason := "Potential secrets detected in file";
              matches := potential_secrets (snd numbered) |})
        (filter (fun numbered =>
                   match potential_secrets (snd numbered) with
                   | [] => false
                   | _ :: _ => true
                   end)
                (map (pair i) part_entries)).
Proof.
  unfold part_warnings. cbn [files].
  induction part_entries as [| f rest IH]; [reflexivity |].
  cbn [flat_map map filter snd fst].
  destruct (potential_secrets f) as [| found others] eqn:E.
  - exact IH.
  - cbn [app map fst snd]. rewrite E. f_equal. exact IH.
Qed.

(** X12. The warnings of the JSON document are the file entries with a
    non-empty list of potential secrets, one warning for each such entry
    and no other, in the order of the parts and of the entries within a
    part: each names the 1-based number of the part that holds the entry,
    the entry's path, the fixed reason and the entry's findings.  The file
    count of the document is the number of entries whose path is not
    [_aicontext_header_]. *)
Theorem json_warnings_are_the_entries_with_findings :
  forall (resolve : Path -> Path)
         (write_json_output : string -> JsonDoc -> result unit)
         (root_path : Path) (context_parts : list string) (token_counts : list Z)
         (parts_meta : list PartMeta) (tree_str out_path : string) (doc : JsonDoc)
         (rest : list Effect) (r : result unit),
    build_and_write_json resolve write_json_output root_path context_parts
                         token_counts parts_meta tree_str out_path
    = (JsonFile out_path doc :: rest, r) ->
    warnings doc
    = map (fun numbered =>
             {| part_index := fst numbered + 1;
                file_path := path (snd numbered);
                reason := "Potential secrets detected in file";
                matches := potential_secrets (snd numbered) |})
          (filter (fun numbered =>
                     match potential_secrets (snd numbered) with
                     | [] => false
                     | _ :: _ => true
                     end)
                  (flat_map (fun indexed => map (pair (fst indexed))
                                                (files (snd indexed)))
                            (combine (seq 0 (List.length parts_meta)) parts_meta)))
    /\ file_count doc
       = List.length
           (filter (fun f => negb (path f =? "_aicontext_header_")%string)
                   (List.concat (map files parts_meta))).
Proof.
  intros resolve write_json_output root_path context_parts token_counts parts_meta
         tree_str out_path doc rest r.
  unfold build_and_write_json.
  destruct (part_infos token_counts (enumerate parts_meta)) as [infos | e];
    [| discriminate].
  destruct (write_json_output out_path _); [| discriminate].
  intros [= <- _ _]. cbn [warnings file_count]. split.
  - unfold enumerate. generalize (seq 0 (List.length parts_meta)).
    induction parts_meta as [| [part_entries] metas IH]; intros numbers.
    + now destruct numbers.
    + destruct numbers as [| i numbers]; [reflexivity |].
      cbn [combine flat_map fst snd files].
      rewrite filter_app, map_app, <- IH. f_equal.
      apply part_warnings_filtered.
  - apply total_file_count_entries.
Qed.

Lemma json_warnings_are_the_entries_with_findings_witness :
  exists doc,
    build_and_write_json (fun p => p) (fun _ _ => Ok tt) Example.root
      ["a"; "b"] [15%Z; 15%Z]
      [ {| files := [header_entry Run.digest Run.fifteen OPEN_SENTINEL] |};
        {| files := [{| path := "src/main.py"; size_bytes := 14; sha256 := "";
                        estimated_tokens := 15;
                        potential_secrets := [to_finding Run.aws_key];
                        content := Some Run.hello |};
                     {| path := "src/utils.js"; size_bytes := 21; sha256 := "";
                        estimated_tokens := 15; potential_secrets := [];
                        content := Some "console.log('hello');" |}] |} ]
      "" "context.json"
    = ([JsonFile "context.json" doc; Say (WroteJson "context.json")], Ok tt)
    /\ warnings doc
       = [{| part_index := 2; file_path := "src/main.py";
             reason := "Potential secrets detected in file";
             matches := [{| finding_type := "AWS Access Key"; finding_line := 1 |}] |}]
    /\ file_count doc = 2.
Proof.
  refine (ex_intro _ _ (conj eq_refl _)).
  exact (@json_warnings_are_the_entries_with_findings
           (fun p => p) (fun _ _ => Ok tt) Example.root ["a"; "b"] [15%Z; 15%Z]
           [ {| files := [header_entry Run.digest Run.fifteen OPEN_SENTINEL] |};
             {| files := [{| path := "src/main.py"; size_bytes := 14; sha256 := "";
                             estimated_tokens := 15;
                             potential_secrets := [to_finding Run.aws_key];
                             content := Some Run.hello |};
                          {| path := "src/utils.js"; size_bytes := 21; sha256 := "";
                             estimated_tokens := 15; potential_secrets := [];
                             content := Some "console.log('hello');" |}] |} ]
           "" "context.json" _ _ _ eq_refl).
Defined.
(** ** The command: outcome and deliveries *)



Lemma build_and_write_json_delivers (resolve : Path -> Path)
    (write_json_output : string -> JsonDoc -> result unit)
    (root_path : Path) (context_parts : list string)
    (token_counts : list Z) (parts_meta : list PartMeta) (tree_str out_path : string) :
  let written := fst (build_and_write_json resolve write_json_output root_path
                                           context_parts token_counts
                                           parts_meta tree_str out_path) in
  filter delivers written = []
  \/ exists doc, filter delivers written = [JsonFile out_path doc].
Proof.
  unfold build_and_write_json.
  destruct (part_infos token_counts (enumerate parts_meta)); cbn; [| eauto].
  destruct (write_json_output out_path _); cbn; eauto.
Qed.

Lemma copy_first_cons (copy : string -> result unit) (first : string)
    (rest : list string) :
  match copy first with
  | Raise e => copy_first copy (first :: rest) = ([], Raise e)
  | Ok _ =>
      exists said,
        copy_first copy (first :: rest) = (ClipboardCopy first :: say said, Ok tt)
  end.
Proof.
  unfold copy_first. cbn [nth_error]. destruct (copy first); [| reflexivity].
  destruct (1 <? List.length (first :: rest))%nat.
  - now exists [CopiedFirstPart; OnlyFirstCopied (List.length (first :: rest))].
  - now exists [CopiedFirstPart].
Qed.

Lemma written_ok (w : World) (filename text : string) (u : unit) :
  world_write_text w filename text = Ok u ->
  world_write_text w filename text = Ok tt.
Proof. now destruct u. Qed.

(** The loop writes the files in order and stops at the first write that
    raises. *)
Lemma save_numbered_spec (w : World) (base_name extension : string)
    (indexed : list (nat * string)) :
  exists written remaining,
    map (fun numbered =>
           ((base_name ++ "-part-" ++ decimal w (fst numbered + 1) ++ extension)%string,
            snd numbered))
        indexed
    = written ++ remaining
    /\ filter delivers (fst (save_numbered w base_name extension indexed))
       = map (fun t => TextFile (fst t) (snd t)) written
    /\ Forall (fun t => world_write_text w (fst t) (snd t) = Ok tt) written
    /\ match remaining with
       | [] => snd (save_numbered w base_name extension indexed) = Ok tt
       | t :: _ =>
           exists e,
             world_write_text w (fst t) (snd t) = Raise e
             /\ snd (save_numbered w base_name extension indexed) = Raise e
       end.
Proof.
  induction indexed as [| [i part] indexed (written & remaining & E & Hd & Hok & Hr)].
  - exists [], []. repeat split. constructor.
  - cbn [save_numbered map fst snd].
    set (part_filename :=
           (base_name ++ "-part-" ++ decimal w (i + 1) ++ extension)%string).
    destruct (world_write_text w part_filename part) as [u | e] eqn:Hwrite.
    + destruct (save_numbered w base_name extension indexed) as [saved r].
      cbn [fst snd] in *.
      exists ((part_filename, part) :: written), remaining.
      split; [now rewrite E |].
      split; [cbn [fst app filter delivers map]; now rewrite Hd |].
      split; [| exact Hr].
      constructor; [| exact Hok]. apply (written_ok _ _ _ Hwrite).
    + eexists [], _. split; [reflexivity |]. split; [reflexivity |].
      split; [constructor |]. exists e. now split.
Qed.

Lemma save_parts_spec (w : World) (output first : string) (rest : list string) :
  exists written remaining,
    text_targets w output (first :: rest) = written ++ remaining
    /\ filter delivers (fst (save_parts w output (first :: rest)))
       = map (fun t => TextFile (fst t) (snd t)) written
    /\ Forall (fun t => world_write_text w (fst t) (snd t) = Ok tt) written
    /\ match remaining with
       | [] => snd (save_parts w output (first :: rest)) = Ok tt
       | t :: _ =>
           exists e,
             world_write_text w (fst t) (snd t) = Raise e
             /\ snd (save_parts w output (first :: rest)) = Raise e
       end.
Proof.
  unfold save_parts, text_targets. destruct rest as [| second rest].
  - cbn [List.length Nat.eqb nth_error].
    destruct (world_write_text w output first) as [u | e] eqn:Hwrite.
    + exists [(output, first)], []. repeat split.
      constructor; [apply (written_ok _ _ _ Hwrite) | constructor].
    + exists [], [(output, first)]. repeat split; [constructor |].
      exists e. now split.
  - cbn [List.length Nat.eqb]. unfold enumerate.
    destruct (splitext w output) as [base_name extension]. cbn [fst snd].
    apply save_numbered_spec.
Qed.

Lemma text_output_spec (w : World) (o : Options) (first : string) (rest : list string) :
  match (if opt_copy o then world_copy w first else Ok tt) with
  | Raise e => text_output w o (first :: rest) = ([], Raise e)
  | Ok _ =>
      exists written remaining,
        text_targets w (opt_output o) (first :: rest) = written ++ remaining
        /\ filter delivers (fst (text_output w o (first :: rest)))
           = (if opt_copy o then [ClipboardCopy first] else [])
             ++ map (fun t => TextFile (fst t) (snd t)) written
        /\ Forall (fun t => world_write_text w (fst t) (snd t) = Ok tt) written
        /\ match remaining with
           | [] => snd (text_output w o (first :: rest)) = Ok tt
           | t :: _ =>
               exists e,
                 world_write_text w (fst t) (snd t) = Raise e
                 /\ snd (text_output w o (first :: rest)) = Raise e
           end
  end.
Proof.
  unfold text_output.
  destruct (save_parts_spec w (opt_output o) first rest)
    as (written & remaining & E & Hd & Hok & Hr).
  destruct (save_parts w (opt_output o) (first :: rest)) as [saved r].
  cbn [fst snd] in Hd, Hr.
  destruct (opt_copy o).
  - pose proof (copy_first_cons (world_copy w) first rest) as Hcopy.
    destruct (world_copy w first) as [u | e]; [| now rewrite Hcopy].
    destruct Hcopy as [said ->]. cbn [fst snd].
    exists written, remaining. split; [exact E |]. split; [| split; assumption].
    rewrite filter_delivers_app, Hd. cbn [filter delivers app].
    now rewrite delivers_say.
  - cbn [fst snd]. exists written, remaining. now repeat split.
Qed.

(** X13. In text format [--copy] comes first: it puts the first part, and
    only that one, on the clipboard, and if the clipboard raises nothing
    is written and the exception is passed on.  Then the parts are written
    in order, with or without [--copy]: a single part to [output] itself,
    several parts to [base-part-1.ext], [base-part-2.ext], ...  Writing
    stops at the first file that cannot be written, with what that write
    raised; the files before it stay written, and when every write
    succeeds every part is written and the step ends normally.  Nothing
    else is delivered.  On an empty list [--copy] raises [IndexError] and
    without it nothing is written. *)
Theorem text_format_writes_the_parts_until_a_write_fails :
  forall (w : World) (o : Options),
    (forall first rest,
        let context_parts := first :: rest in
        let targets :=
          match rest with
          | [] => [(opt_output o, first)]
          | _ :: _ =>
              map (fun numbered =>
                     ((fst (splitext w (opt_output o)) ++ "-part-"
                       ++ decimal w (fst numbered + 1)
                       ++ snd (splitext w (opt_output o)))%string,
                      snd numbered))
                  (combine (seq 0 (List.length context_parts)) context_parts)
          end in
        match (if opt_copy o then world_copy w first else Ok tt) with
        | Raise e => text_output w o context_parts = ([], Raise e)
        | Ok _ =>
            exists written remaining,
              targets = written ++ remaining
              /\ filter delivers (fst (text_output w o context_parts))
                 = (if opt_copy o then [ClipboardCopy first] else [])
                   ++ map (fun t => TextFile (fst t) (snd t)) written
              /\ Forall (fun t => world_write_text w (fst t) (snd t) = Ok tt) written
              /\ match remaining with
                 | [] => snd (text_output w o context_parts) = Ok tt
                 | t :: _ =>
                     exists e,
                       world_write_text w (fst t) (snd t) = Raise e
                       /\ snd (text_output w o context_parts) = Raise e
                 end
        end)
    /\ text_output w o []
       = if opt_copy o then ([], Raise IndexError) else ([], Ok tt).
Proof.
  intros w o. split.
  - intros first rest context_parts targets.
    pose proof (text_output_spec w o first rest) as H.
    assert (text_targets w (opt_output o) (first :: rest) = targets) as E
      by (subst targets; now destruct rest).
    rewrite E in H. exact H.
  - unfold text_output, copy_first, save_parts. cbn.
    destruct (opt_copy o); [reflexivity |].
    now destruct (splitext w (opt_output o)).
Qed.

Lemma text_format_writes_the_parts_until_a_write_fails_witness :
  text_output Run.full_disk (Run.options true None) ["a"; "b"; "c"]
  = ([ClipboardCopy "a"; Say CopiedFirstPart; Say (OnlyFirstCopied 3);
      TextFile "context-part-1.txt" "a"; Say (PartSavedTo 1 "context-part-1.txt")],
     Raise OSError)
  /\ exists written remaining,
       [("context-part-1.txt", "a"); ("context-part-2.txt", "b");
        ("context-part-3.txt", "c")]
       = written ++ remaining
       /\ filter delivers
            (fst (text_output Run.full_disk (Run.options true None) ["a"; "b"; "c"]))
          = [ClipboardCopy "a"] ++ map (fun t => TextFile (fst t) (snd t)) written
       /\ Forall (fun t => world_write_text Run.full_disk (fst t) (snd t) = Ok tt)
                 written
       /\ match remaining with
          | [] => snd (text_output Run.full_disk (Run.options true None)
                                   ["a"; "b"; "c"]) = Ok tt
          | t :: _ =>
              exists e,
                world_write_text Run.full_disk (fst t) (snd t) = Raise e
                /\ snd (text_output Run.full_disk (Run.options true None)
                                    ["a"; "b"; "c"]) = Raise e
          end.
Proof.
  split; [vm_compute; reflexivity |].
  exact (proj1 (text_format_writes_the_parts_until_a_write_fails
                  Run.full_disk (Run.options true None)) "a" ["b"; "c"]).
Defined.





(** X15. With [--tree-only] the command delivers nothing: no file is
    written and the clipboard is left alone.  With [--format json] it
    delivers at most one thing, a JSON document, and never a text file or
    a clipboard entry, also when [--copy] is given.  The document goes to
    [context.json] when [output] is the default [context.txt], to [output]
    itself when its suffix is [.json], and otherwise to [output] with its
    suffix replaced by [.json]. *)
Theorem tree_only_and_json_deliveries :
  forall (w : World) (root_dir : Path) (o : Options),
    (opt_tree_only o = true -> filter delivers (fst (cli w root_dir o)) = [])
    /\ (opt_output_format o = JsonFormat ->
        let out_path :=
          if (opt_output o =? "context.txt")%string then "context.json"
          else if (suffix w (opt_output o) =? ".json")%string then opt_output o
               else with_suffix w (opt_output o) ".json" in
        filter delivers (fst (cli w root_dir o)) = []
        \/ exists doc,
             filter delivers (fst (cli w root_dir o)) = [JsonFile out_path doc]).
Proof.
  intros w root_dir o. unfold cli. cbv zeta.
  set (out := Say (Starting _) :: _).
  assert (filter delivers out = []) as Hout by apply (delivers_say (_ :: _)).
  clearbody out.
  destruct (selected_files w _ o) as [[| f files] | e]; cbn [fst].
  { rewrite filter_delivers_app, Hout. auto. }
  2: { rewrite Hout. auto. }
  destruct (checkSecurityIssue _ _) as [report scanned].
  destruct (if opt_tree o || opt_tree_only o then _ else _) as [tree_view | e];
    cbn [fst].
  2: { rewrite !filter_delivers_app, Hout, !delivers_say. auto. }
  destruct (opt_tree_only o); cbn [fst].
  { rewrite !filter_delivers_app, Hout, !delivers_say. auto. }
  split; [discriminate |]. intros ->.
  destruct (generate_context _ _ _ _ _ _ _ _ _ _ _)
    as [printed [[[parts counts] metas] | e]]; cbn [fst].
  2: { rewrite !filter_delivers_app, Hout, !delivers_say. auto. }
  destruct parts as [| first rest]; cbn [fst].
  { rewrite !filter_delivers_app, Hout, !delivers_say. auto. }
  unfold json_output.
  assert (json_out_path w (opt_output o)
          = if (opt_output o =? "context.txt")%string then "context.json"
            else if (suffix w (opt_output o) =? ".json")%string then opt_output o
                 else with_suffix w (opt_output o) ".json") as <-.
  { unfold json_out_path. destruct (opt_output o =? "context.txt")%string;
      [reflexivity |]. now destruct (suffix w (opt_output o) =? ".json")%string. }
  pose proof (build_and_write_json_delivers (world_resolve w) (world_write_json w)
                (world_resolve w root_dir) (first :: rest) counts metas
                tree_view (json_out_path w (opt_output o))) as Hwritten.
  cbv zeta in Hwritten.
  destruct (build_and_write_json _ _ _ _ _ _ _ _) as [written [[] | e]];
    cbn [fst] in Hwritten |- *.
  - assert (filter delivers (token_report o counts) = []) as Hreport.
    { unfold token_report. destruct (opt_count_tokens o); [| reflexivity].
      rewrite !filter_delivers_app. cbn [filter delivers app].
      destruct (1 <? List.length counts)%nat; [| reflexivity].
      rewrite app_nil_r. induction (enumerate counts); [reflexivity | assumption]. }
    rewrite !filter_delivers_app, Hout, !delivers_say, Hreport, app_nil_r.
    cbn [app].
    assert (filter delivers (if opt_copy o then [Say CopyIgnored] else []) = []) as ->
      by now destruct (opt_copy o).
    rewrite ?app_nil_r. exact Hwritten.
  - rewrite !filter_delivers_app, Hout, !delivers_say. cbn [app].
    rewrite ?app_nil_r. exact Hwritten.
Qed.

Lemma tree_only_and_json_deliveries_witness :
  filter delivers
    (fst (cli (Run.world (Some Run.fifteen)) Example.root Run.tree_only_options))
  = []
  /\ exists doc,
       filter delivers
         (fst (cli (Run.world (Some Run.fifteen)) Example.root Run.json_options))
       = [JsonFile "context.json" doc].
Proof.
  split.
  - apply (proj1 (tree_only_and_json_deliveries (Run.world (Some Run.fifteen))
                    Example.root Run.tree_only_options)).
    reflexivity.
  - destruct (proj2 (tree_only_and_json_deliveries (Run.world (Some Run.fifteen))
                       Example.root Run.json_options) eq_refl) as [Hnone | Hone].
    + vm_compute in Hnone. discriminate.
    + exact Hone.
Defined.
(** ** The earlier module *)

Section LegacyAssembler.

Variable fs : FileSystem.
Variable root_dir : Path.
Variable _count : string -> Z.
Variable max_tokens : option Z.
Variable warn_tokens : option Z.

Lemma legacy_check_warn_keeps (st : Legacy.Builder) :
  Legacy.context_parts (Legacy.check_warn warn_tokens st) = Legacy.context_parts st
  /\ Legacy.token_counts (Legacy.check_warn warn_tokens st) = Legacy.token_counts st
  /\ Legacy.current_part_builder (Legacy.check_warn warn_tokens st)
     = Legacy.current_part_builder st
  /\ Legacy.current_token_count (Legacy.check_warn warn_tokens st)
     = Legacy.current_token_count st.
Proof. unfold Legacy.check_warn. now destruct (_ && _ && _). Qed.

Lemma legacy_process_file_text (st : Legacy.Builder) (file_path : Path) :
  legacy_held_text (Legacy.process_file fs root_dir _count max_tokens warn_tokens
                                        st file_path)
  = (legacy_held_text st ++ legacy_block fs root_dir file_path)%string.
Proof.
  unfold Legacy.process_file, legacy_block, legacy_held_text.
  destruct (relative_to file_path root_dir) as [rel | e]; cbn [Legacy.echo
    Legacy.context_parts Legacy.current_part_builder];
    [| now rewrite string_app_nil_r].
  destruct (read_text fs file_path) as [text |]; cbn [Legacy.echo
    Legacy.context_parts Legacy.current_part_builder];
    [| now rewrite string_app_nil_r].
  match goal with
  | |- context [Legacy.check_warn _ ?s] =>
      destruct (legacy_check_warn_keeps s) as (-> & _ & -> & _)
  end.
  destruct (must_split _ _ _); cbn [Legacy.write Legacy.finalize
    Legacy.context_parts Legacy.current_part_builder].
  - rewrite joined_snoc. cbn [String.append]. now rewrite !string_app_assoc.
  - now rewrite !string_app_assoc.
Qed.

Lemma legacy_process_files_text (filtered_files : list Path) :
  forall st,
    legacy_held_text (fold_left (Legacy.process_file fs root_dir _count max_tokens
                                                     warn_tokens)
                                filtered_files st)
    = (legacy_held_text st
       ++ joined (map (legacy_block fs root_dir) filtered_files))%string.
Proof.
  induction filtered_files as [| f rest IH]; intros st; cbn [fold_left map].
  - unfold joined. cbn. now rewrite string_app_nil_r.
  - rewrite IH, legacy_process_file_text, joined_cons. now rewrite string_app_assoc.
Qed.

Lemma legacy_process_file_invariant (st : Legacy.Builder) (file_path : Path) :
  legacy_invariant st ->
  legacy_invariant (Legacy.process_file fs root_dir _count max_tokens warn_tokens
                                        st file_path).
Proof.
  intros (Hlen & Hparts & Hempty).
  unfold Legacy.process_file.
  destruct (relative_to file_path root_dir) as [rel | e]; [| now repeat split].
  destruct (read_text fs file_path) as [text |]; [| now repeat split].
  unfold legacy_invariant.
  match goal with
  | |- context [Legacy.check_warn _ ?s] =>
      destruct (legacy_check_warn_keeps s) as (-> & -> & -> & ->)
  end.
  destruct (must_split max_tokens (Legacy.current_token_count st) _) eqn:Hsplit;
    cbn [Legacy.write Legacy.finalize Legacy.context_parts Legacy.token_counts
         Legacy.current_part_builder Legacy.current_token_count].
  - repeat split.
    + rewrite !length_app. simpl. lia.
    + apply Forall_app. split; [exact Hparts |]. constructor; [| constructor].
      intros E. apply Hempty in E.
      unfold must_split in Hsplit. rewrite E in Hsplit.
      now rewrite andb_false_r in Hsplit.
    + discriminate.
  - repeat split; [exact Hlen | exact Hparts |].
    destruct (Legacy.current_part_builder st); discriminate.
Qed.

Lemma legacy_process_files_invariant (filtered_files : list Path) :
  forall st,
    legacy_invariant st ->
    legacy_invariant (fold_left (Legacy.process_file fs root_dir _count max_tokens
                                                     warn_tokens)
                                filtered_files st).
Proof.
  induction filtered_files as [| f rest IH]; intros st Hst; cbn [fold_left].
  - exact Hst.
  - apply IH. now apply legacy_process_file_invariant.
Qed.

Lemma legacy_close_text (st : Legacy.Builder) :
  joined (fst (Legacy.close st)) = legacy_held_text st.
Proof.
  unfold Legacy.close, legacy_held_text.
  destruct (String.eqb_spec (Legacy.current_part_builder st) "") as [-> | Hne];
    cbn [negb fst].
  - now rewrite string_app_nil_r.
  - apply joined_snoc.
Qed.

Lemma legacy_close_invariant (st : Legacy.Builder) :
  legacy_invariant st ->
  List.length (fst (Legacy.close st)) = List.length (snd (Legacy.close st))
  /\ Forall (fun part => part <> ""%string) (fst (Legacy.close st)).
Proof.
  intros (Hlen & Hparts & _). unfold Legacy.close.
  destruct (String.eqb_spec (Legacy.current_part_builder st) "") as [E | Hne];
    cbn [negb fst snd].
  - now split.
  - split; [rewrite !length_app; simpl; lia |].
    apply Forall_app. split; [exact Hparts |]. now repeat constructor.
Qed.

End LegacyAssembler.

Lemma legacy_write_header (root_dir : Path) (_count : string -> Z)
    (filtered_files : list Path) (prompt_no_header tree : bool)
    (st0 : Legacy.Builder) :
  Legacy.context_parts st0 = [] -> Legacy.token_counts st0 = [] ->
  Legacy.current_part_builder st0 = ""%string ->
  Legacy.current_token_count st0 = 0%Z ->
  match legacy_preamble root_dir filtered_files prompt_no_header tree with
  | Raise e =>
      Legacy.write_header root_dir _count filtered_files prompt_no_header tree st0
      = Raise e
  | Ok preamble =>
      exists st,
        Legacy.write_header root_dir _count filtered_files prompt_no_header tree st0
        = Ok st
        /\ Legacy.context_parts st = [] /\ Legacy.token_counts st = []
        /\ Legacy.current_part_builder st = preamble
        /\ (preamble = ""%string -> Legacy.current_token_count st = 0%Z)
        /\ ((forall text, _count text = 0%Z) -> Legacy.current_token_count st = 0%Z)
  end.
Proof.
  intros Hparts Hcounts Hbuilder Hcount.
  unfold legacy_preamble, Legacy.write_header.
  destruct prompt_no_header; cbn [negb].
  { exists st0. repeat split; auto. }
  destruct tree.
  - destruct (Legacy.generate_tree_view root_dir filtered_files) as [tree_view | e];
      cbn [bind]; [| reflexivity].
    eexists. split; [reflexivity |].
    cbn [Legacy.write Legacy.context_parts Legacy.token_counts
         Legacy.current_part_builder Legacy.current_token_count].
    rewrite Hbuilder, Hcount. repeat split; auto.
    + discriminate.
    + intros Hzero. now rewrite !Hzero.
  - eexists. split; [reflexivity |].
    cbn [Legacy.write Legacy.context_parts Legacy.token_counts
         Legacy.current_part_builder Legacy.current_token_count].
    rewrite Hbuilder, Hcount. repeat split; auto.
    + discriminate.
    + intros Hzero. now rewrite !Hzero.
Qed.

(** X16. The earlier module's assembler fails only when the tree view it is
    asked to prepend cannot be made.  Otherwise it returns as many token
    counts as parts, no part is empty, and the parts written one after the
    other are the preamble followed by the blocks of the files that lie
    under the root and can be read, in list order: splitting never drops,
    repeats or reorders text. *)
Theorem legacy_parts_are_the_preamble_and_the_blocks :
  forall (fs : FileSystem) (get_encoding : option Encoding) (root_dir : Path)
         (filtered_files : list Path) (count_tokens : bool)
         (max_tokens warn_tokens : option Z) (prompt_no_header tree : bool),
    match legacy_preamble root_dir filtered_files prompt_no_header tree with
    | Raise e =>
        snd (Legacy.generate_context fs get_encoding root_dir filtered_files
               count_tokens max_tokens warn_tokens prompt_no_header tree)
        = Raise e
    | Ok preamble =>
        exists parts counts,
          snd (Legacy.generate_context fs get_encoding root_dir filtered_files
                 count_tokens max_tokens warn_tokens prompt_no_header tree)
          = Ok (parts, counts)
          /\ List.length parts = List.length counts
          /\ Forall (fun part => part <> ""%string) parts
          /\ joined parts
             = (preamble ++ joined (map (legacy_block fs root_dir) filtered_files))%string
    end.
Proof.
  intros fs get_encoding root_dir filtered_files count_tokens max_tokens warn_tokens
         prompt_no_header tree.
  unfold Legacy.generate_context.
  destruct (Legacy.bind_count get_encoding count_tokens) as [printed _count].
  match goal with
  | |- context [Legacy.write_header _ _ _ _ _ ?s0] =>
      pose proof (@legacy_write_header root_dir _count filtered_files prompt_no_header
                    tree s0 eq_refl eq_refl eq_refl eq_refl) as Hheader
  end.
  destruct (legacy_preamble root_dir filtered_files prompt_no_header tree)
    as [preamble | e].
  - destruct Hheader as (st & -> & Hparts & Hcounts & Hbuilder & Hempty & _).
    cbn [snd].
    set (st1 := Legacy.echo _ st).
    set (final := fold_left _ filtered_files st1).
    assert (legacy_invariant st1) as Hinv.
    { subst st1. unfold legacy_invariant. cbn [Legacy.echo Legacy.context_parts
        Legacy.token_counts Legacy.current_part_builder Legacy.current_token_count].
      rewrite Hparts, Hcounts, Hbuilder. repeat split; auto. }
    apply (legacy_process_files_invariant fs root_dir _count max_tokens warn_tokens
             filtered_files) in Hinv.
    fold final in Hinv. destruct (legacy_close_invariant Hinv) as [Hlen Hnonempty].
    pose proof (legacy_close_text final) as Htext. subst final.
    rewrite legacy_process_files_text in Htext.
    destruct (Legacy.close _) as [parts counts]. cbn [fst snd] in *.
    exists parts, counts. repeat split; [exact Hlen | exact Hnonempty |].
    rewrite Htext. f_equal. subst st1. unfold legacy_held_text.
    cbn [Legacy.echo Legacy.context_parts Legacy.current_part_builder].
    now rewrite Hparts, Hbuilder.
  - now rewrite Hheader.
Qed.

Lemma legacy_process_file_uncounted (fs : FileSystem) (root_dir : Path)
    (max_tokens warn_tokens : option Z) (st : Legacy.Builder) (file_path : Path) :
  legacy_uncounted st ->
  legacy_uncounted (Legacy.process_file fs root_dir (fun _ => 0%Z) max_tokens
                                        warn_tokens st file_path).
Proof.
  intros (Hparts & Hcounts & Hcount). unfold Legacy.process_file.
  destruct (relative_to file_path root_dir) as [rel | e]; [| now repeat split].
  destruct (read_text fs file_path) as [text |]; [| now repeat split].
  unfold legacy_uncounted.
  match goal with
  | |- context [Legacy.check_warn _ ?s] =>
      destruct (legacy_check_warn_keeps warn_tokens s) as (-> & -> & _ & ->)
  end.
  assert (must_split max_tokens (Legacy.current_token_count st) 0 = false) as ->.
  { unfold must_split. rewrite Hcount. apply andb_false_r. }
  cbn [Legacy.write Legacy.context_parts Legacy.token_counts
       Legacy.current_token_count].
  rewrite Hcount. now repeat split.
Qed.

(** X17. When token counting is off or the encoder cannot be initialized,
    the earlier module counts every text as zero tokens and therefore never
    splits, whatever [max_tokens] is: it returns the whole text as one part
    with the count 0, or two empty lists when there is no text at all (no
    preamble and no file that can be read). *)
Theorem legacy_without_counter_never_splits :
  forall (fs : FileSystem) (get_encoding : option Encoding) (root_dir : Path)
         (filtered_files : list Path) (count_tokens : bool)
         (max_tokens warn_tokens : option Z) (prompt_no_header tree : bool)
         (preamble : string),
    count_tokens = false \/ get_encoding = None ->
    legacy_preamble root_dir filtered_files prompt_no_header tree = Ok preamble ->
    let text :=
      (preamble ++ joined (map (legacy_block fs root_dir) filtered_files))%string in
    snd (Legacy.generate_context fs get_encoding root_dir filtered_files
           count_tokens max_tokens warn_tokens prompt_no_header tree)
    = Ok (if (text =? "")%string then ([], []) else ([text], [0%Z])).
Proof.
  intros fs get_encoding root_dir filtered_files count_tokens max_tokens warn_tokens
         prompt_no_header tree preamble Hoff Hpre text.
  unfold Legacy.generate_context.
  assert (exists printed,
             Legacy.bind_count get_encoding count_tokens = (printed, fun _ => 0%Z))
    as [printed ->].
  { unfold Legacy.bind_count. destruct Hoff as [-> | ->]; [eauto |].
    destruct count_tokens; eauto. }
  match goal with
  | |- context [Legacy.write_header _ _ _ _ _ ?s0] =>
      pose proof (@legacy_write_header root_dir (fun _ => 0%Z) filtered_files
                    prompt_no_header tree s0 eq_refl eq_refl eq_refl eq_refl)
        as Hheader
  end.
  rewrite Hpre in Hheader.
  destruct Hheader as (st & -> & Hparts & Hcounts & Hbuilder & _ & Hzero).
  cbn [snd].
  set (st1 := Legacy.echo _ st).
  set (final := fold_left _ filtered_files st1).
  assert (legacy_uncounted final) as (Hfp & Hfc & Hfz).
  { subst final.
    assert (legacy_uncounted st1) as Hst1.
    { subst st1. unfold legacy_uncounted. cbn [Legacy.echo Legacy.context_parts
        Legacy.token_counts Legacy.current_token_count]. auto. }
    revert Hst1. generalize st1. clear.
    induction filtered_files as [| f rest IH]; intros s Hs; cbn [fold_left];
      [exact Hs |].
    apply IH. now apply legacy_process_file_uncounted. }
  assert (Legacy.current_part_builder final = text) as Htext.
  { pose proof (legacy_process_files_text fs root_dir (fun _ => 0%Z) max_tokens
                  warn_tokens filtered_files st1) as H.
    fold final in H. unfold legacy_held_text in H. rewrite Hfp in H.
    subst st1. cbn [Legacy.echo Legacy.context_parts Legacy.current_part_builder] in H.
    rewrite Hparts, Hbuilder in H. exact H. }
  unfold Legacy.close. rewrite Hfp, Hfc, Hfz, Htext.
  now destruct (text =? "")%string.
Qed.

Lemma legacy_without_counter_never_splits_witness :
  snd (Legacy.generate_context Example.fs None Example.root
         [Run.main_py; Run.utils_js] true (Some 1%Z) None true false)
  = Ok ([("--- FILE: src/main.py ---" ++ LF ++ LF ++ Run.hello ++ LF ++ LF
          ++ "--- FILE: src/utils.js ---" ++ LF ++ LF ++ "console.log('hello');"
          ++ LF ++ LF)%string],
        [0%Z]).
Proof.
  exact (@legacy_without_counter_never_splits Example.fs None Example.root
           [Run.main_py; Run.utils_js] true (Some 1%Z) None true false ""
           (or_intror eq_refl) eq_refl).
Defined.

(** ** Parts and their metadata *)

Lemma entry_text_block (fs : FileSystem) (sha256_text : string -> string)
    (secrets_report : SecretsReport) (counter : string -> Z)
    (root_dir file_path : Path) (m : FileMeta) (block prelim : string) :
  file_entry fs sha256_text secrets_report counter root_dir file_path = Some m ->
  file_block_of fs root_dir file_path = Some block ->
  entry_text prelim m = block.
Proof.
  unfold file_entry, file_block_of, entry_text, file_header.
  destruct (relative_to file_path root_dir) as [rel |]; [| discriminate].
  destruct (read_text fs file_path) as [text |]; [| discriminate].
  destruct (st_size fs file_path) as [size |]; [| discriminate].
  intros [= <-] [= <-]. cbn [content path].
  now rewrite !string_app_assoc.
Qed.

Lemma part_text_snoc (prelim : string) (part_entries : list FileMeta) (m : FileMeta) :
  part_text prelim (part_entries ++ [m])
  = (part_text prelim part_entries ++ entry_text prelim m)%string.
Proof. unfold part_text. rewrite map_app. cbn [map]. apply joined_snoc. Qed.

Section Rebuild.

Variable fs : FileSystem.
Variable sha256_text : string -> string.
Variable root_dir : Path.
Variable secrets_report : SecretsReport.
Variable counter : string -> Z.
Variable max_tokens : option Z.
Variable warn_tokens : option Z.
Variable prelim : string.

Lemma finalize_follows (st : Assembler) :
  text_follows_metadata prelim st ->
  text_follows_metadata prelim (finalize max_tokens st).
Proof.
  intros [H B]. split; cbn.
  - apply Forall2_app; [exact H | now constructor].
  - reflexivity.
Qed.

Lemma process_file_follows (st : Assembler) (file_path : Path) :
  text_follows_metadata prelim st ->
  text_follows_metadata prelim
    (process_file fs sha256_text root_dir secrets_report (Some counter)
                  max_tokens warn_tokens st file_path).
Proof.
  intros Hst.
  destruct (file_entry fs sha256_text secrets_report counter root_dir file_path)
    as [m |] eqn:E.
  - destruct (file_entry_block _ _ _ _ _ _ E) as (block & B & _).
    destruct (process_file_through fs sha256_text root_dir secrets_report counter
                max_tokens warn_tokens st file_path E B)
      as (P & _ & M & T & _ & F).
    destruct Hst as [H Hb]. unfold text_follows_metadata. rewrite P, M, T, F.
    rewrite <- (@entry_text_block fs sha256_text secrets_report counter root_dir
                  file_path m block prelim E B).
    destruct (must_split max_tokens (current_token_count st) (estimated_tokens m)).
    + split; [apply Forall2_app; [exact H | now constructor] |].
      cbn [app String.append]. reflexivity.
    + split; [exact H |]. now rewrite part_text_snoc, Hb.
  - destruct (process_file_skipped fs sha256_text root_dir secrets_report counter
                max_tokens warn_tokens st file_path E) as [[S _] | (_ & _ & S & _)];
      match goal with
      | |- text_follows_metadata _ ?s => change (text_follows_metadata prelim (silent s))
      end; rewrite S.
    + exact Hst.
    + now apply finalize_follows.
Qed.

Lemma process_files_follows (filtered_files : list Path) (st : Assembler) :
  text_follows_metadata prelim st ->
  text_follows_metadata prelim
    (process_files fs sha256_text root_dir secrets_report (Some counter)
                   max_tokens warn_tokens st filtered_files).
Proof.
  revert st. induction filtered_files as [| f rest IH]; intros st H; simpl.
  - exact H.
  - apply IH. now apply process_file_follows.
Qed.

End Rebuild.

(** X18. The text of every part can be rebuilt from its metadata: each part
    is, in order, the preliminary text for the header entry and
    [LF --- FILE: path --- LF content LF] for every file entry of that
    part, and the last part ends with the closing sentinel after that. *)
Theorem part_text_is_rebuilt_from_its_metadata :
  forall (fs : FileSystem) (sha256_text : string -> string)
         (get_encoding : option Encoding) (root_dir : Path)
         (filtered_files : list Path) (secrets_report : SecretsReport)
         (count_tokens : bool) (max_tokens warn_tokens : option Z)
         (prompt_no_header : bool) (tree_view : string)
         (parts : list string) (counts : list Z) (metas : list PartMeta),
    snd (generate_context fs sha256_text get_encoding root_dir filtered_files
           secrets_report count_tokens max_tokens warn_tokens prompt_no_header
           tree_view)
    = Ok (parts, counts, metas) ->
    let prelim := preliminary_text prompt_no_header tree_view in
    exists closed last_part closed_meta last_meta,
      parts = closed ++ [(last_part ++ CLOSE_SENTINEL)%string]
      /\ metas = closed_meta ++ [last_meta]
      /\ Forall2 (fun part part_meta => part = part_text prelim (files part_meta))
                 (closed ++ [last_part]) (closed_meta ++ [last_meta]).
Proof.
  intros fs sha enc root filtered report ct max warn nh tv parts counts metas.
  rewrite generate_context_unfold.
  destruct (bind_count enc ct) as [printed [counter |]]; [| discriminate].
  cbn [snd]. intros [= <- _ <-]. set (prelim := preliminary_text nh tv).
  unfold final_state.
  match goal with
  | |- context [close ?s] => set (st := s)
  end.
  assert (text_follows_metadata prelim st) as [H B].
  { apply process_files_follows. split; cbn; [constructor |].
    unfold part_text. cbn. reflexivity. }
  destruct (close_appends st) as (-> & _ & -> & _).
  exists (context_parts st), (current_part_builder st), (parts_meta st),
         {| files := current_part_files_meta st |}.
  repeat split. apply Forall2_app; [exact H | now constructor].
Qed.

Lemma part_text_is_rebuilt_from_its_metadata_witness :
  exists closed last_part closed_meta last_meta,
    [(OPEN_SENTINEL ++ file_header ["src"; "main.py"] ++ Run.hello ++ LF)%string;
     (file_header ["src"; "utils.js"] ++ "console.log('hello');" ++ LF
      ++ CLOSE_SENTINEL)%string]
    = closed ++ [(last_part ++ CLOSE_SENTINEL)%string]
    /\ [ {| files := [header_entry Run.digest Run.fifteen OPEN_SENTINEL;
                      {| path := "src/main.py"; size_bytes := 14; sha256 := "";
                         estimated_tokens := 15; potential_secrets := [];
                         content := Some Run.hello |}] |};
         {| files := [{| path := "src/utils.js"; size_bytes := 21; sha256 := "";
                         estimated_tokens := 15; potential_secrets := [];
                         content := Some "console.log('hello');" |}] |} ]
       = closed_meta ++ [last_meta]
    /\ Forall2 (fun part part_meta => part = part_text OPEN_SENTINEL (files part_meta))
               (closed ++ [last_part]) (closed_meta ++ [last_meta]).
Proof.
  exact (@part_text_is_rebuilt_from_its_metadata
           Example.fs Run.digest (Some Run.fifteen) Example.root
           [Run.main_py; Run.utils_js] [] true (Some 35%Z) None true ""
           _ [30%Z; 15%Z] _ eq_refl).
Defined.

